(** * Movie rating backend: a shallow embedding of the request handlers

    The controllers of the backend (movieController.js, the review, stats
    and user controllers, and middleware/auth.js) are embedded as functions
    over an explicit database state.  A table is the list of its rows in
    storage order; a handler maps a request and a database to the response
    it sends and the database it leaves behind.

    Conventions of the embedding:
    - A JSON number is the rational its decimal notation denotes, and an
      SQL AVG is the exact mean ([Q]).  A DECIMAL column stores what it is
      given rounded to its scale, and the engine refuses a value that
      exceeds its precision.  [parseFloat] and [toFixed] work on the binary
      floating-point number nearest to the rational.
    - Numbers of requests and row counts are integers ([Z]).  The
      language computes with them exactly up to 2^53 - 1; the theorems
      about pages take [page], [limit] and the offset in that range, and
      tables are taken to hold fewer rows than that.
    - Text is a string of bytes holding UTF-8; lengths and character
      classes are taken on its code points.
    - [undefined] / an absent request field is [None].
    - Columns that no embedded handler reads or writes (timestamps, poster
      art, password hashes, ...) are left out of the row records.
    - An exception inside a handler's [try] block is the outcome [Thrown];
      the [catch] block turns it into the handler's 500 response.  Writes
      made before the exception stay in place: the code opens no
      transaction.
    - The storage layer is reachable and the ORM's associations resolve:
      the only exceptions modelled are the ones the handlers' own inputs
      can cause (validators, unique indexes, a value a column cannot hold,
      a LIMIT or OFFSET outside the range the engine takes, a missing
      [req.user]).  The engine is the one the raw SQL is written for
      ([YEAR], [DATE_FORMAT]), in its default strict mode. *)

From Stdlib Require Import List ZArith QArith Qround String Ascii Bool Lia.
From Stdlib Require Import Permutation Sorted DecimalString.
Import ListNotations.

Local Open Scope string_scope.
Local Open Scope list_scope.
Local Open Scope Z_scope.

(** ** Rational comparisons as booleans *)

Definition Qleb (a b : Q) : bool := Qle_bool a b.
Definition Qltb (a b : Q) : bool := negb (Qle_bool b a).

(** ** Rows of the tables (models/*.js) *)

(** A DATEONLY value. *)
Record date := mkDate { d_year : Z; d_month : Z; d_day : Z }.

Module Movie.
Record t := mk {
  movie_id : Z;
  title : string;
  overview : option string;
  release_date : option date
}.
End Movie.

Module Genre.
Record t := mk { genre_id : Z; name : string }.
End Genre.

(** A row of the join table [movie_genres]. *)
Module MovieGenre.
Record t := mk { movie_id : Z; genre_id : Z }.
End MovieGenre.

Module Rating.
Record t := mk {
  rating_id : Z;
  user_id : Z;
  movie_id : Z;
  rating : Q
}.
End Rating.

Module Review.
Record t := mk {
  review_id : Z;
  user_id : Z;
  movie_id : Z;
  title : option string;
  content : string;
  is_spoiler : bool
}.
End Review.

Module User.
Record t := mk {
  user_id : Z;
  username : string;
  email : string;
  first_name : option string;
  last_name : option string;
  bio : option string;
  profile_image_url : option string;
  is_active : bool
}.
End User.

(** A row of [user_activity], written by raw SQL in [rateMovie]. *)
Module Activity.
Record t := mk { user_id : Z; movie_id : Z; activity_type : string }.
End Activity.

(** ** The database *)

Record db := mkDb {
  movies : list Movie.t;
  genres : list Genre.t;
  movie_genres : list MovieGenre.t;
  ratings : list Rating.t;
  next_rating_id : Z;          (* AUTO_INCREMENT counter of ratings *)
  reviews : list Review.t;
  next_review_id : Z;          (* AUTO_INCREMENT counter of reviews *)
  users : list User.t;
  user_activity : list Activity.t
}.

Definition set_ratings (rs : list Rating.t) (n : Z) (s : db) : db :=
  mkDb (movies s) (genres s) (movie_genres s) rs n
       (reviews s) (next_review_id s) (users s) (user_activity s).

Definition set_reviews (rs : list Review.t) (n : Z) (s : db) : db :=
  mkDb (movies s) (genres s) (movie_genres s) (ratings s) (next_rating_id s)
       rs n (users s) (user_activity s).

Definition set_users (us : list User.t) (s : db) : db :=
  mkDb (movies s) (genres s) (movie_genres s) (ratings s) (next_rating_id s)
       (reviews s) (next_review_id s) us (user_activity s).

Definition set_user_activity (a : list Activity.t) (s : db) : db :=
  mkDb (movies s) (genres s) (movie_genres s) (ratings s) (next_rating_id s)
       (reviews s) (next_review_id s) (users s) a.

(** ** Requests *)

(** [req.query].  [page] and [limit] hold the result of [parseInt] on the
    raw parameter, [None] standing for NaN (absent or not a number);
    [year] is the parameter read as a number; [minRating] is [None] when
    the parameter is absent or empty and otherwise the result of
    [parseFloat] on it, [None] standing for NaN; the other parameters are
    the raw strings. *)
Record Query := mkQuery {
  page : option Z;
  limit : option Z;
  sort : option string;
  genre : option string;
  year : option Z;
  search : option string;
  minRating : option (option Q)
}.

(** [req.body], with the fields the embedded handlers destructure.  A field
    holds a value of the column's JSON type or is absent. *)
Record Body := mkBody {
  rating : option Q;
  movie_id : option Z;
  title : option string;
  content : option string;
  is_spoiler : option bool;
  first_name : option string;
  last_name : option string;
  bio : option string
}.

Record request := mkRequest {
  user : option User.t;        (* req.user, attached by the auth middleware *)
  authorization : option string;  (* req.headers.authorization *)
  params_id : Z;               (* req.params.id *)
  query : Query;
  body : Body
}.

(** ** Responses *)

(** The attribute subsets the review controller includes with a review. *)
Record UserSummary := mkUserSummary {
  us_user_id : Z;
  us_username : string;
  us_first_name : option string;
  us_last_name : option string;
  us_profile_image_url : option string
}.

Record MovieSummary := mkMovieSummary { ms_movie_id : Z; ms_title : string }.

Record ReviewView := mkReviewView {
  rv_review : Review.t;
  rv_user : option UserSummary;
  rv_movie : option MovieSummary
}.

(** A Movie instance as [getMovies] returns it: the row, its included
    genres, and the two computed attributes. *)
Record MovieRow := mkMovieRow {
  mr_movie : Movie.t;
  mr_genres : list Genre.t;
  avgRating : Q;
  ratingCount : Z
}.

(** A row of the raw aggregate queries after the controller's
    [avgRating: parseFloat(movie.avgRating).toFixed(1)]: the formatted
    average is the decimal string with one fractional digit. *)
Record RankedMovie := mkRankedMovie {
  rk_movie : Movie.t;
  rk_avgRating : string;
  rk_ratingCount : Z
}.

Record Pagination := mkPagination {
  pg_page : Z;
  pg_limit : Z;
  total : Z;
  pages : Z
}.

Record ProfileView := mkProfileView {
  pv_id : Z;
  pv_username : string;
  pv_email : string;
  pv_first_name : option string;
  pv_last_name : option string;
  pv_bio : option string;
  pv_profile_image_url : option string
}.

(** One group of the rating-distribution query. *)
Record RangeCount := mkRangeCount { rating_range : string; count : Z }.

(** The JSON documents the handlers send. *)
Inductive json :=
| Message (success : bool) (message : string)
| MoviesPage (movies : list MovieRow) (pagination : Pagination)
| MoviesData (movies : list RankedMovie)
| RatingData (message : string) (rating : Rating.t)
| ReviewData (message : string) (review : option ReviewView)
| ProfileData (message : string) (user : ProfileView)
| RatingsData (ratings : list RangeCount).

Record response := mkResponse { status : Z; payload : json }.

(** ** Handler bodies: state, early return and exceptions *)

Inductive outcome (A : Type) : Type :=
| Next (a : A)              (* fall through to the next statement *)
| Returned (r : response)   (* [return res.status(..).json(..)] *)
| Thrown.                   (* an exception propagates to [catch] *)
Arguments Next {A} a.
Arguments Returned {A} r.
Arguments Thrown {A}.

Definition handler (A : Type) : Type := db -> outcome A * db.

Definition ret {A} (a : A) : handler A := fun s => (Next a, s).

Definition bind {A B} (m : handler A) (k : A -> handler B) : handler B :=
  fun s =>
    match m s with
    | (Next a, s') => k a s'
    | (Returned r, s') => (Returned r, s')
    | (Thrown, s') => (Thrown, s')
    end.

Definition respond {A} (code : Z) (j : json) : handler A :=
  fun s => (Returned (mkResponse code j), s).

Definition throw {A} : handler A := fun s => (Thrown, s).

Definition gets {A} (f : db -> A) : handler A := fun s => (Next (f s), s).

Definition modify (f : db -> db) : handler unit := fun s => (Next tt, f s).

Declare Scope handler_scope.
Delimit Scope handler_scope with handler.
Notation "x <- m ;; k" := (bind m (fun x => k))
  (at level 100, m at next level, right associativity) : handler_scope.
Notation "m ;; k" := (bind m (fun _ => k))
  (at level 100, right associativity) : handler_scope.

(** [try { body } catch (error) { res.status(500).json(on_error) }], where
    the body's last statement sends the response it computes. *)
Definition try_catch (body : handler response) (on_error : json)
  : db -> response * db :=
  fun s =>
    match body s with
    | (Next r, s') => (r, s')
    | (Returned r, s') => (r, s')
    | (Thrown, s') => (mkResponse 500 on_error, s')
    end.

(** [req.user.user_id]: a TypeError when no user is attached. *)
Definition current_user_id (req : request) : handler Z :=
  match user req with
  | Some u => ret (User.user_id u)
  | None => throw
  end.

(** ** The ORM calls on movies and ratings *)

Local Open Scope handler_scope.

(** [Movie.findByPk(id)]. *)
Definition Movie_findByPk (id : Z) : handler (option Movie.t) :=
  gets (fun s => find (fun m => Movie.movie_id m =? id) (movies s)).

(** [Rating.findOne({ where: { user_id, movie_id } })]. *)
Definition Rating_findOne (uid mid : Z) : handler (option Rating.t) :=
  gets (fun s =>
    find (fun r => (Rating.user_id r =? uid) && (Rating.movie_id r =? mid))
         (ratings s)).

(** The validators of the [rating] column: [min: 0.0, max: 10.0]. *)
Definition Rating_validate (q : Q) : bool := Qleb 0 q && Qleb q 10.

(** What the column [rating DECIMAL(2, 1)] makes of a value: it is rounded
    to one fractional digit, a half away from zero, and the result has to
    fit two digits.  A value that rounds beyond 9.9 in magnitude is out of
    range and the statement fails. *)
Definition DECIMAL_2_1 (q : Q) : option Q :=
  let n := if Qltb q 0 then - Qfloor (- q * 10 + (1 # 2))%Q
           else Qfloor (q * 10 + (1 # 2))%Q in
  if (-99 <=? n) && (n <=? 99) then Some (Qred (n # 10)) else None.

Definition with_rating (q : Q) (r : Rating.t) : Rating.t :=
  Rating.mk (Rating.rating_id r) (Rating.user_id r) (Rating.movie_id r) q.

(** [UPDATE ratings SET rating = ? WHERE rating_id = ?] on the rows of the
    table. *)
Definition update_rating_rows (inst : Rating.t) (q : Q) (rows : list Rating.t)
  : list Rating.t :=
  map (fun r => if Rating.rating_id r =? Rating.rating_id inst
                then with_rating q r else r) rows.

(** [instance.update({ rating })].  The ORM drops keys whose value is
    [undefined]; otherwise it validates the value and issues the UPDATE,
    in which the column takes the value as [DECIMAL_2_1] gives it.  The
    instance, carrying the value it was given, is the result. *)
Definition Rating_update (inst : Rating.t) (value : option Q)
  : handler Rating.t :=
  match value with
  | None => ret inst
  | Some q =>
      if Rating_validate q then
        match DECIMAL_2_1 q with
        | Some stored =>
            modify (fun s =>
              set_ratings (update_rating_rows inst stored (ratings s))
                          (next_rating_id s) s) ;;
            ret (with_rating q inst)
        | None => throw
        end
      else throw
  end.

(** [Rating.create({ user_id, movie_id, rating })]: [allowNull: false] and
    the validators are checked first, then the row is inserted under the
    next id, with the value as [DECIMAL_2_1] gives it; the unique index on
    (user_id, movie_id) rejects a second row for a pair.  The instance,
    carrying the value it was given, is the result. *)
Definition Rating_create (uid mid : Z) (value : option Q)
  : handler Rating.t :=
  match value with
  | None => throw
  | Some q =>
      if Rating_validate q then
        existing <- Rating_findOne uid mid ;;
        match existing with
        | Some _ => throw
        | None =>
            match DECIMAL_2_1 q with
            | Some stored =>
                id <- gets next_rating_id ;;
                modify (fun s =>
                  set_ratings (ratings s ++ [Rating.mk id uid mid stored])
                              (id + 1) s) ;;
                ret (Rating.mk id uid mid q)
            | None => throw
            end
        end
      else throw
  end.

(** The relational operators of the language on a possibly-undefined
    number: [undefined] converts to NaN and every comparison with NaN is
    false. *)
Definition js_lt (x : option Q) (c : Q) : bool :=
  match x with Some q => Qltb q c | None => false end.

Definition js_gt (x : option Q) (c : Q) : bool :=
  match x with Some q => Qltb c q | None => false end.

(** ** movieController.rateMovie *)

Definition rating_range_message : string := "Rating must be between 0 and 10".

(** The statements of [rateMovie] after the range check: movie lookup,
    insert-or-update, activity log, success response. *)
Definition rateMovie_validated (req : request) : handler response :=
  let id := params_id req in
  let rating := rating (body req) in
  movie <- Movie_findByPk id ;;
  match movie with
  | None => respond 404 (Message false "Movie not found")
  | Some _ =>
      uid <- current_user_id req ;;
      existingRating <- Rating_findOne uid id ;;
      userRating <-
        match existingRating with
        | Some existing => Rating_update existing rating
        | None => Rating_create uid id rating
        end ;;
      modify (fun s =>
        set_user_activity (user_activity s ++ [Activity.mk uid id "rate"]) s) ;;
      ret (mkResponse 200 (RatingData "Rating submitted successfully" userRating))
  end.

Definition rateMovie_body (req : request) : handler response :=
  let rating := rating (body req) in
  if js_lt rating 0 || js_gt rating 10 then
    respond 400 (Message false rating_range_message)
  else rateMovie_validated req.

Definition rateMovie (req : request) : db -> response * db :=
  try_catch (rateMovie_body req) (Message false "Server error").

(** ** Truthiness and [||] on request fields *)

(** [a || b] on strings: the empty string and [undefined] / [null] are
    falsy. *)
Definition js_or_string (a b : option string) : option string :=
  match a with
  | Some "" => b
  | Some s => Some s
  | None => b
  end.

(** [a || b] where [b] is always a string. *)
Definition js_or_else (a : option string) (b : string) : string :=
  match a with
  | Some "" => b
  | Some s => s
  | None => b
  end.

(** [parseInt(x) || d]: NaN and 0 are falsy. *)
Definition parse_or (x : option Z) (d : Z) : Z :=
  match x with
  | Some n => if n =? 0 then d else n
  | None => d
  end.

(** ** The ORM calls on reviews *)

(** One byte of UTF-8 text, read after the code points in [acc] (the last
    one first): a byte below 128 and a lead byte open a code point, a
    continuation byte adds its six bits to the code point it continues. *)
Definition utf8_step (acc : list N) (c : ascii) : list N :=
  let b := N_of_ascii c in
  (if b <? 128 then b :: acc
   else if b <? 192 then
     match acc with
     | cp :: rest => (cp * 64 + (b - 128)) :: rest
     | [] => [b]
     end
   else if b <? 224 then (b - 192) :: acc
   else if b <? 240 then (b - 224) :: acc
   else (b - 240) :: acc)%N.

(** The code points of a text. *)
Definition code_points (s : string) : list N :=
  rev (fold_left utf8_step (list_ascii_of_string s) []).

(** The class [\s] of the language's regular expressions: the ASCII
    white space, the no-break space, the Unicode space separators, the line
    and paragraph separators and the byte-order mark. *)
Definition is_space (cp : N) : bool :=
  ((9 <=? cp) && (cp <=? 13) || (cp =? 32) || (cp =? 160) || (cp =? 5760)
   || (8192 <=? cp) && (cp <=? 8202) || (cp =? 8232) || (cp =? 8233)
   || (cp =? 8239) || (cp =? 8287) || (cp =? 12288) || (cp =? 65279))%N.

(** The string matches [/^[\s\t\r\n]*$/]. *)
Definition is_blank (s : string) : bool := forallb is_space (code_points s).

(** The variation selectors U+FE0E and U+FE0F. *)
Definition is_variation_selector (cp : N) : bool :=
  ((cp =? 65038) || (cp =? 65039))%N.

(** The length the ORM's [len] validator measures ([isLength] of the
    validator library): the number of UTF-16 units less the surrogate pairs
    and the variation selectors, which is the number of code points that
    are not variation selectors. *)
Definition validated_length (s : string) : nat :=
  List.length (filter (fun cp => negb (is_variation_selector cp))
                      (code_points s)).

Definition len_between (lo hi : nat) (s : string) : bool :=
  ((lo <=? validated_length s) && (validated_length s <=? hi))%nat.

(** [title]: [len: [0, 255]], skipped on NULL. *)
Definition Review_validate_title (t : option string) : bool :=
  match t with
  | Some s => len_between 0 255 s
  | None => true
  end.

(** [content]: [allowNull: false], [notEmpty], [len: [1, 5000]]. *)
Definition Review_validate_content (c : option string) : bool :=
  match c with
  | Some s => negb (is_blank s) && len_between 1 5000 s
  | None => false
  end.

(** [Review.findOne({ where: { user_id, movie_id } })]. *)
Definition Review_findOne (uid : Z) (mid : option Z)
  : handler (option Review.t) :=
  gets (fun s =>
    match mid with
    | Some m =>
        find (fun r => (Review.user_id r =? uid) && (Review.movie_id r =? m))
             (reviews s)
    | None => None
    end).

(** [Review.findByPk(id)]. *)
Definition Review_findByPk (id : Z) : handler (option Review.t) :=
  gets (fun s => find (fun r => Review.review_id r =? id) (reviews s)).

Definition user_summary (u : User.t) : UserSummary :=
  mkUserSummary (User.user_id u) (User.username u) (User.first_name u)
                (User.last_name u) (User.profile_image_url u).

Definition movie_summary (m : Movie.t) : MovieSummary :=
  mkMovieSummary (Movie.movie_id m) (Movie.title m).

(** [Review.findByPk(id, { include: [User, Movie] })]. *)
Definition Review_findByPk_included (id : Z) : handler (option ReviewView) :=
  gets (fun s =>
    match find (fun r => Review.review_id r =? id) (reviews s) with
    | Some r =>
        Some (mkReviewView r
          (option_map user_summary
             (find (fun u => User.user_id u =? Review.user_id r) (users s)))
          (option_map movie_summary
             (find (fun m => Movie.movie_id m =? Review.movie_id r) (movies s))))
    | None => None
    end).

(** [Review.create({ user_id, movie_id, title, content, is_spoiler })]. *)
Definition Review_create (uid : Z) (mid : option Z) (title content : option string)
    (is_spoiler : bool) : handler Review.t :=
  match mid, content with
  | Some m, Some c =>
      if Review_validate_title title && Review_validate_content content then
        id <- gets next_review_id ;;
        let row := Review.mk id uid m title c is_spoiler in
        modify (fun s => set_reviews (reviews s ++ [row]) (id + 1) s) ;;
        ret row
      else throw
  | _, _ => throw
  end.

(** [UPDATE reviews SET title = ?, content = ?, is_spoiler = ?
     WHERE review_id = ?] on the rows of the table. *)
Definition update_review_rows (inst : Review.t) (title : option string)
    (content : string) (is_spoiler : bool) (rows : list Review.t)
  : list Review.t :=
  map (fun r => if Review.review_id r =? Review.review_id inst
                then Review.mk (Review.review_id r) (Review.user_id r)
                               (Review.movie_id r) title content is_spoiler
                else r) rows.

(** [review.update({ title, content, is_spoiler })]: validation of the
    three values, then the UPDATE. *)
Definition Review_update (inst : Review.t) (title : option string)
    (content : string) (is_spoiler : bool) : handler Review.t :=
  if Review_validate_title title && Review_validate_content (Some content) then
    modify (fun s =>
      set_reviews
        (update_review_rows inst title content is_spoiler (reviews s))
        (next_review_id s) s) ;;
    ret (Review.mk (Review.review_id inst) (Review.user_id inst)
                   (Review.movie_id inst) title content is_spoiler)
  else throw.

(** ** The review controller *)

Definition createReview_body (req : request) : handler response :=
  let movie_id := movie_id (body req) in
  let title := title (body req) in
  let content := content (body req) in
  let is_spoiler := is_spoiler (body req) in
  movie <- gets (fun s =>
             match movie_id with
             | Some id => find (fun m => Movie.movie_id m =? id) (movies s)
             | None => None
             end) ;;
  match movie with
  | None => respond 404 (Message false "Movie not found")
  | Some _ =>
      uid <- current_user_id req ;;
      existingReview <- Review_findOne uid movie_id ;;
      match existingReview with
      | Some _ => respond 400 (Message false "You have already reviewed this movie")
      | None =>
          review <- Review_create uid movie_id title content
                      (match is_spoiler with Some b => b | None => false end) ;;
          newReview <- Review_findByPk_included (Review.review_id review) ;;
          ret (mkResponse 201 (ReviewData "Review created successfully" newReview))
      end
  end.

Definition createReview (req : request) : db -> response * db :=
  try_catch (createReview_body req) (Message false "Server error").

Definition updateReview_body (req : request) : handler response :=
  let id := params_id req in
  let title := title (body req) in
  let content := content (body req) in
  let is_spoiler := is_spoiler (body req) in
  found <- Review_findByPk id ;;
  match found with
  | None => respond 404 (Message false "Review not found")
  | Some review =>
      uid <- current_user_id req ;;
      if negb (Review.user_id review =? uid) then
        respond 403 (Message false "Not authorized to update this review")
      else
        Review_update review
          (js_or_string title (Review.title review))
          (js_or_else content (Review.content review))
          (match is_spoiler with
           | Some b => b
           | None => Review.is_spoiler review
           end) ;;
        updatedReview <- Review_findByPk_included id ;;
        ret (mkResponse 200 (ReviewData "Review updated successfully" updatedReview))
  end.

Definition updateReview (req : request) : db -> response * db :=
  try_catch (updateReview_body req) (Message false "Server error").

(** ** The ORM calls on users *)

(** [User.findByPk(id)]. *)
Definition User_findByPk (id : Z) : handler (option User.t) :=
  gets (fun s => find (fun u => User.user_id u =? id) (users s)).

(** [first_name], [last_name]: [len: [1, 50]]; [bio]: [len: [0, 1000]];
    each skipped on NULL. *)
Definition User_validate_len (lo hi : nat) (v : option string) : bool :=
  match v with
  | Some s => len_between lo hi s
  | None => true
  end.

(** [UPDATE users SET ... WHERE user_id = ?] on the rows of the table, with
    the row transformer [f]. *)
Definition update_user_rows (inst : User.t) (f : User.t -> User.t)
    (rows : list User.t) : list User.t :=
  map (fun u => if User.user_id u =? User.user_id inst then f u else u) rows.

(** The UPDATE an instance's [update] ends in; the instance carrying the
    new values is the result. *)
Definition User_save (inst : User.t) (f : User.t -> User.t) : handler User.t :=
  modify (fun s => set_users (update_user_rows inst f (users s)) s) ;;
  ret (f inst).

Definition with_profile (fn ln b : option string) (u : User.t) : User.t :=
  User.mk (User.user_id u) (User.username u) (User.email u) fn ln b
          (User.profile_image_url u) (User.is_active u).

Definition with_is_active (a : bool) (u : User.t) : User.t :=
  User.mk (User.user_id u) (User.username u) (User.email u)
          (User.first_name u) (User.last_name u) (User.bio u)
          (User.profile_image_url u) a.

(** [user.update({ first_name, last_name, bio })]. *)
Definition User_update_profile (inst : User.t) (fn ln b : option string)
  : handler User.t :=
  if User_validate_len 1 50 fn && User_validate_len 1 50 ln
     && User_validate_len 0 1000 b
  then User_save inst (with_profile fn ln b)
  else throw.

(** [user.update({ is_active })]. *)
Definition User_update_is_active (inst : User.t) (a : bool) : handler User.t :=
  User_save inst (with_is_active a).

(** ** The user controller *)

Definition profile_view (u : User.t) : ProfileView :=
  mkProfileView (User.user_id u) (User.username u) (User.email u)
                (User.first_name u) (User.last_name u) (User.bio u)
                (User.profile_image_url u).

Definition updateProfile_body (req : request) : handler response :=
  let first_name := first_name (body req) in
  let last_name := last_name (body req) in
  let bio := bio (body req) in
  uid <- current_user_id req ;;
  found <- User_findByPk uid ;;
  match found with
  | None => respond 404 (Message false "User not found")
  | Some user =>
      user' <- User_update_profile user
                 (js_or_string first_name (User.first_name user))
                 (js_or_string last_name (User.last_name user))
                 (js_or_string bio (User.bio user)) ;;
      ret (mkResponse 200
             (ProfileData "Profile updated successfully" (profile_view user')))
  end.

Definition updateProfile (req : request) : db -> response * db :=
  try_catch (updateProfile_body req)
            (Message false "Server error while updating profile").

Definition deleteAccount_body (req : request) : handler response :=
  uid <- current_user_id req ;;
  found <- User_findByPk uid ;;
  match found with
  | None => respond 404 (Message false "User not found")
  | Some user =>
      User_update_is_active user false ;;
      ret (mkResponse 200 (Message true "Account deleted successfully"))
  end.

Definition deleteAccount (req : request) : db -> response * db :=
  try_catch (deleteAccount_body req)
            (Message false "Server error while deleting account").

(** ** middleware/auth.js *)

(** [s.split(sep)] for a one-character separator. *)
Fixpoint split_on (sep : ascii) (s : string) : list string :=
  match s with
  | EmptyString => [EmptyString]
  | String c s' =>
      if Ascii.eqb c sep then EmptyString :: split_on sep s'
      else match split_on sep s' with
           | w :: ws => String c w :: ws
           | [] => [String c EmptyString]
           end
  end.

(** The bearer token of the request: [undefined] unless the header is
    present and starts with [Bearer]; then the second space-separated
    field. *)
Definition bearer_token (req : request) : option string :=
  match authorization req with
  | Some h =>
      if String.prefix "Bearer" h then nth_error (split_on " " h) 1 else None
  | None => None
  end.

(** [!token]: [undefined] and the empty string are falsy. *)
Definition no_token (t : option string) : bool :=
  match t with
  | Some "" => true
  | Some _ => false
  | None => true
  end.

Definition with_user (u : User.t) (req : request) : request :=
  mkRequest (Some u) (authorization req) (params_id req) (query req) (body req).

Section Auth.

(** [jwt.verify(token, process.env.JWT_SECRET)] followed by [decoded.id]:
    the library call is a parameter of the embedding; [None] when it
    throws. *)
Variable jwt_verify : string -> option Z.

(** The middleware either sends a response or calls [next()] with the
    user attached to the request. *)
Definition auth (req : request) (s : db) : response + request :=
  let token := bearer_token req in
  if no_token token then
    inl (mkResponse 401 (Message false "Not authorized, no token"))
  else
    match token with
    | None => inl (mkResponse 401 (Message false "Not authorized, no token"))
    | Some t =>
        match jwt_verify t with
        | None =>
            inl (mkResponse 401 (Message false "Not authorized, token failed"))
        | Some id =>
            match find (fun u => User.user_id u =? id) (users s) with
            | None =>
                inl (mkResponse 401
                       (Message false "Not authorized, user not found"))
            | Some u =>
                if negb (User.is_active u) then
                  inl (mkResponse 401 (Message false "Account is deactivated"))
                else inr (with_user u req)
            end
        end
    end.

End Auth.

(** ** A small relational toolkit for the SQL the controllers issue *)

(** ORDER BY: a stable insertion sort under the comparison [le]. *)
Fixpoint insert_by {A} (le : A -> A -> bool) (x : A) (l : list A) : list A :=
  match l with
  | [] => [x]
  | y :: l' => if le x y then x :: l else y :: insert_by le x l'
  end.

Definition sort_by {A} (le : A -> A -> bool) (l : list A) : list A :=
  fold_right (insert_by le) [] l.

(** DISTINCT, keeping first occurrences. *)
Fixpoint distinct {K} (eqb : K -> K -> bool) (l : list K) : list K :=
  match l with
  | [] => []
  | x :: xs => x :: filter (fun y => negb (eqb x y)) (distinct eqb xs)
  end.

(** GROUP BY [key]: the groups in order of first appearance. *)
Definition group_by {A K} (eqb : K -> K -> bool) (key : A -> K) (l : list A)
  : list (K * list A) :=
  map (fun k => (k, filter (fun a => eqb k (key a)) l))
      (distinct eqb (map key l)).

(** LIMIT [limit] OFFSET [offset]. *)
Definition sql_limit {A} (offset limit : Z) (l : list A) : list A :=
  firstn (Z.to_nat limit) (skipn (Z.to_nat offset) l).

(** [a LEFT JOIN bs]: one row per match, or one row with NULLs. *)
Definition left_join {A B} (a : A) (bs : list B) : list (A * option B) :=
  match bs with
  | [] => [(a, None)]
  | _ => map (fun b => (a, Some b)) bs
  end.

Fixpoint non_null {A} (l : list (option A)) : list A :=
  match l with
  | [] => []
  | Some a :: l' => a :: non_null l'
  | None :: l' => non_null l'
  end.

Definition Qsum (l : list Q) : Q := fold_right Qplus 0%Q l.

(** AVG: NULL over no rows. *)
Definition SQL_AVG (l : list Q) : option Q :=
  match l with
  | [] => None
  | _ => Some (Qred (Qsum l / inject_Z (Z.of_nat (List.length l))))
  end.

Definition COALESCE (x : option Q) (d : Q) : Q :=
  match x with Some q => q | None => d end.

Definition SQL_COUNT {A} (l : list A) : Z := Z.of_nat (List.length l).

(** The ratings of one movie: [ratings.movie_id = Movie.movie_id]. *)
Definition ratings_of (s : db) (mid : Z) : list Rating.t :=
  filter (fun r => Rating.movie_id r =? mid) (ratings s).

(** ** Number formatting *)

Definition digits (n : Z) : string :=
  DecimalString.NilZero.string_of_uint (N.to_uint (Z.to_N n)).

(** [x * 2^k]. *)
Definition scale2 (x : Q) (k : Z) : Q :=
  (if 0 <=? k then x * inject_Z (2 ^ k) else x / inject_Z (2 ^ (- k)))%Q.

(** The integer nearest to [n / d] for a positive [d], the even one on a
    tie. *)
Definition nearest_even (n d : Z) : Z :=
  let f := n / d in
  match 2 * (n mod d) ?= d with
  | Lt => f
  | Gt => f + 1
  | Eq => if Z.even f then f else f + 1
  end.

(** The binary floating-point number (53-bit significand) nearest to a
    positive rational, the one with the even significand on a tie: with
    [2^e <= x < 2^(e+1)], the significand is [x / 2^(e-52)] rounded.  The
    numbers formatted here are averages of ratings, far from the ends of
    the exponent range, which are left out. *)
Definition binary64_pos (x : Q) : Q :=
  let e0 := Z.log2 (Qnum x) - Z.log2 (Zpos (Qden x)) in
  let e := if Qleb (scale2 1 e0) x then e0 else e0 - 1 in
  let m := scale2 x (52 - e) in
  scale2 (inject_Z (nearest_even (Qnum m) (Zpos (Qden m)))) (e - 52).

(** [parseFloat] on the decimal notation of a rational. *)
Definition parseFloat (x : Q) : Q :=
  if Qltb 0 x then binary64_pos x
  else if Qltb x 0 then (- binary64_pos (- x))%Q
  else 0%Q.

(** [x.toFixed(1)] on a non-negative number [x] below 10^21: the integer
    [n] with [n / 10] closest to [x], the larger one on a tie, printed with
    one fractional digit. *)
Definition toFixed1_nonneg (x : Q) : string :=
  let n := Qfloor (x * 10 + (1 # 2))%Q in
  (digits (n / 10) ++ "." ++ digits (n mod 10))%string.

(** [parseFloat(x).toFixed(1)]: the digits are those of the floating-point
    number, not of the rational it was read from. *)
Definition toFixed1 (x : Q) : string :=
  let y := parseFloat x in
  if Qltb y 0 then ("-" ++ toFixed1_nonneg (- y)%Q)%string
  else toFixed1_nonneg y.

(** [Math.ceil(a / b)] on integers.  Every caller passes a [b] that went
    through [parseInt(..) || d], so [b] is never 0. *)
Definition ceil_div (a b : Z) : Z := Qceiling (inject_Z a / inject_Z b)%Q.

(** ** movieController.getTopRatedMovies *)

(** A row of the aggregate queries over [movies m LEFT JOIN ratings r]. *)
Record AggRow := mkAggRow {
  ag_movie : Movie.t;
  ag_avgRating : Q;
  ag_ratingCount : Z
}.

(** [GROUP BY m.movie_id] with the select list
    [m.*, COALESCE(AVG(r.rating), 0), COUNT(r.rating)]. *)
Definition aggregate (joined : list (Movie.t * option Rating.t)) : list AggRow :=
  flat_map
    (fun g : Z * list (Movie.t * option Rating.t) =>
       match snd g with
       | [] => []
       | (m, _) :: _ =>
           let rs := non_null (map snd (snd g)) in
           [mkAggRow m (COALESCE (SQL_AVG (map Rating.rating rs)) 0)
                     (SQL_COUNT rs)]
       end)
    (group_by Z.eqb (fun row => Movie.movie_id (fst row)) joined).

(** [ORDER BY avgRating DESC, ratingCount DESC]. *)
Definition by_rating_desc (a b : AggRow) : bool :=
  Qltb (ag_avgRating b) (ag_avgRating a)
  || (Qeq_bool (ag_avgRating a) (ag_avgRating b)
      && (ag_ratingCount b <=? ag_ratingCount a)).

(** [Number.MAX_SAFE_INTEGER]: up to it the numbers of the language are
    the integers, and their products and quotients those of [Z]. *)
Definition MAX_SAFE_INTEGER : Z := 9007199254740991.

(** The row count and the offset of a LIMIT clause are unsigned 64-bit
    integers.  The storage layer refuses the statement, and the call
    throws, when the number is negative or beyond that range (from 10^21 on
    the number is not even written in digits). *)
Definition max_row_count : Z := 18446744073709551615.

Definition out_of_row_range (n : Z) : bool := (n <? 0) || (max_row_count <? n).

Definition check_limit (n : Z) : handler unit :=
  if out_of_row_range n then throw else ret tt.

Definition top_rated_query (limit : Z) : handler (list AggRow) :=
  check_limit limit ;;
  gets (fun s =>
    let joined :=
      flat_map (fun m => left_join m (ratings_of s (Movie.movie_id m)))
               (movies s) in
    let having := filter (fun a => 1 <=? ag_ratingCount a) (aggregate joined) in
    sql_limit 0 limit (sort_by by_rating_desc having)).

Definition ranked (a : AggRow) : RankedMovie :=
  mkRankedMovie (ag_movie a) (toFixed1 (ag_avgRating a)) (ag_ratingCount a).

Definition getTopRatedMovies_body (req : request) : handler response :=
  let limit := parse_or (limit (query req)) 10 in
  topRatedMovies <- top_rated_query limit ;;
  ret (mkResponse 200 (MoviesData (map ranked topRatedMovies))).

Definition getTopRatedMovies (req : request) : db -> response * db :=
  try_catch (getTopRatedMovies_body req) (Message false "Server error").

(** ** movieController.getRecommendations *)

(** [return exports.handler(req, res)] from inside another handler: the
    callee sends the response and handles its own exceptions. *)
Definition delegate {A} (h : db -> response * db) : handler A :=
  fun s => let (r, s') := h s in (Returned r, s').

(** The user's highly rated movies:
    [SELECT movie_id, rating FROM ratings WHERE user_id = ? AND rating >= 4
     ORDER BY rating DESC LIMIT 10]. *)
Definition highly_rated_query (userId : Z) : handler (list (Z * Q)) :=
  gets (fun s =>
    let rows :=
      filter (fun r => (Rating.user_id r =? userId) && Qleb 4 (Rating.rating r))
             (ratings s) in
    let ordered :=
      sort_by (fun a b => Qleb (Rating.rating b) (Rating.rating a)) rows in
    map (fun r => (Rating.movie_id r, Rating.rating r)) (sql_limit 0 10 ordered)).

Definition genre_key_eqb (a b : Z * string) : bool :=
  (fst a =? fst b) && String.eqb (snd a) (snd b).

Definition name_count_eqb (a b : string * Z) : bool :=
  String.eqb (fst a) (fst b) && (snd a =? snd b).

(** The genres of those movies:
    [SELECT DISTINCT g.name, COUNT( * ) as count
     FROM genres g JOIN movie_genres mg ON g.genre_id = mg.genre_id
     WHERE mg.movie_id IN (movieIds)
     GROUP BY g.genre_id, g.name ORDER BY count DESC LIMIT 3]. *)
Definition preferred_genres_query (movieIds : list Z)
  : handler (list (string * Z)) :=
  gets (fun s =>
    let joined :=
      flat_map (fun g =>
        map (fun mg => (g, mg))
            (filter (fun mg => Genre.genre_id g =? MovieGenre.genre_id mg)
                    (movie_genres s)))
        (genres s) in
    let selected :=
      filter (fun row => existsb (Z.eqb (MovieGenre.movie_id (snd row))) movieIds)
             joined in
    let groups :=
      group_by genre_key_eqb
        (fun row => (Genre.genre_id (fst row), Genre.name (fst row))) selected in
    let counted :=
      map (fun g : (Z * string) * list (Genre.t * MovieGenre.t) =>
             (snd (fst g), SQL_COUNT (snd g))) groups in
    sql_limit 0 3
      (sort_by (fun a b : string * Z => snd b <=? snd a)
               (distinct name_count_eqb counted))).

(** Unrated movies of those genres:
    [SELECT DISTINCT m.*, COALESCE(AVG(r.rating), 0), COUNT(r.rating)
     FROM movies m JOIN movie_genres mg .. JOIN genres g ..
     LEFT JOIN ratings r ON m.movie_id = r.movie_id
     WHERE g.name IN (genreNames)
       AND m.movie_id NOT IN (SELECT movie_id FROM ratings WHERE user_id = ?)
     GROUP BY m.movie_id ORDER BY avgRating DESC, ratingCount DESC LIMIT ?].
    The groups differ in [movie_id], which leaves DISTINCT nothing to merge. *)
Definition recommendations_query (genreNames : list string) (userId limit : Z)
  : handler (list AggRow) :=
  check_limit limit ;;
  gets (fun s =>
    let rated :=
      map Rating.movie_id
          (filter (fun r => Rating.user_id r =? userId) (ratings s)) in
    let joined :=
      flat_map (fun m =>
        flat_map (fun mg =>
          flat_map (fun g =>
            if existsb (String.eqb (Genre.name g)) genreNames
               && negb (existsb (Z.eqb (Movie.movie_id m)) rated)
            then left_join m (ratings_of s (Movie.movie_id m))
            else [])
            (filter (fun g => MovieGenre.genre_id mg =? Genre.genre_id g)
                    (genres s)))
          (filter (fun mg => Movie.movie_id m =? MovieGenre.movie_id mg)
                  (movie_genres s)))
        (movies s) in
    sql_limit 0 limit (sort_by by_rating_desc (aggregate joined))).

Definition getRecommendations_body (req : request) : handler response :=
  userId <- current_user_id req ;;
  let limit := parse_or (limit (query req)) 10 in
  userHighlyRatedMovies <- highly_rated_query userId ;;
  match userHighlyRatedMovies with
  | [] => delegate (getTopRatedMovies req)
  | _ =>
      let movieIds := map fst userHighlyRatedMovies in
      genres <- preferred_genres_query movieIds ;;
      let genreNames := map fst genres in
      match genreNames with
      | [] => delegate (getTopRatedMovies req)
      | _ =>
          recommendations <- recommendations_query genreNames userId limit ;;
          ret (mkResponse 200 (MoviesData (map ranked recommendations)))
      end
  end.

Definition getRecommendations (req : request) : db -> response * db :=
  try_catch (getRecommendations_body req) (Message false "Server error").

(** ** The stats controller: getRatingDistribution *)

(** The CASE expression of the rollup. *)
Definition rating_range_of (rating : Q) : string :=
  if Qleb 9 rating then "9-10"
  else if Qleb 8 rating then "8-8.9"
  else if Qleb 7 rating then "7-7.9"
  else if Qleb 6 rating then "6-6.9"
  else if Qleb 5 rating then "5-5.9"
  else if Qleb 4 rating then "4-4.9"
  else if Qleb 3 rating then "3-3.9"
  else if Qleb 2 rating then "2-2.9"
  else "0-1.9".

(** [SELECT CASE .. END as rating_range, COUNT( * ) as count FROM ratings
     GROUP BY rating_range ORDER BY rating_range DESC]. *)
Definition rating_distribution (s : db) : list RangeCount :=
  let groups :=
    group_by String.eqb (fun r => rating_range_of (Rating.rating r))
             (ratings s) in
  let counted :=
    map (fun g : string * list Rating.t =>
           mkRangeCount (fst g) (SQL_COUNT (snd g))) groups in
  sort_by (fun a b => String.leb (rating_range b) (rating_range a)) counted.

Definition rating_distribution_query : handler (list RangeCount) :=
  gets rating_distribution.

Definition getRatingDistribution_body (req : request) : handler response :=
  ratingDistribution <- rating_distribution_query ;;
  ret (mkResponse 200 (RatingsData ratingDistribution)).

Definition getRatingDistribution (req : request) : db -> response * db :=
  try_catch (getRatingDistribution_body req) (Message false "Server error").

(** ** movieController.getMovies *)

(** ASCII lower-casing, standing for the case-insensitive collation of the
    text columns. *)
Definition lower (c : ascii) : ascii :=
  let n := nat_of_ascii c in
  if ((65 <=? n) && (n <=? 90))%nat then ascii_of_nat (n + 32) else c.

Fixpoint lower_string (s : string) : string :=
  match s with
  | EmptyString => EmptyString
  | String c s' => String (lower c) (lower_string s')
  end.

(** [s LIKE pattern]: [%] matches any run of characters, [_] any single
    character, a backslash makes the next character literal. *)
Fixpoint sql_like (pattern s : string) : bool :=
  match pattern with
  | EmptyString => match s with EmptyString => true | _ => false end
  | String "%" p' =>
      (fix any (t : string) : bool :=
         sql_like p' t
         || match t with
            | EmptyString => false
            | String _ t' => any t'
            end) s
  | String "_" p' =>
      match s with
      | EmptyString => false
      | String _ s' => sql_like p' s'
      end
  | String "\" (String c p') =>
      match s with
      | EmptyString => false
      | String d s' => Ascii.eqb (lower c) (lower d) && sql_like p' s'
      end
  | String c p' =>
      match s with
      | EmptyString => false
      | String d s' => Ascii.eqb (lower c) (lower d) && sql_like p' s'
      end
  end.

(** The template literal [`%${x}%`]. *)
Definition contains_pattern (x : string) : string := ("%" ++ x ++ "%")%string.

Definition date_leb (a b : date) : bool :=
  (d_year a <? d_year b)
  || ((d_year a =? d_year b)
      && ((d_month a <? d_month b)
          || ((d_month a =? d_month b) && (d_day a <=? d_day b)))).

(** Comparison of a nullable date column; NULL sorts lowest. *)
Definition nullable_date_leb (a b : option date) : bool :=
  match a, b with
  | None, _ => true
  | Some _, None => false
  | Some x, Some y => date_leb x y
  end.

(** A row of the listing query: the movie's columns, the two computed
    attributes, and the joined genre (NULL when the outer join is empty). *)
Record FlatRow := mkFlatRow {
  fr_movie : Movie.t;
  fr_avgRating : Q;
  fr_ratingCount : Z;
  fr_genre : option Genre.t
}.

Inductive direction := ASC | DESC.
Inductive order_column := by_title | by_release_date | by_avgRating.

Definition column_leb (c : order_column) (a b : FlatRow) : bool :=
  match c with
  | by_title =>
      String.leb (lower_string (Movie.title (fr_movie a)))
                 (lower_string (Movie.title (fr_movie b)))
  | by_release_date =>
      nullable_date_leb (Movie.release_date (fr_movie a))
                        (Movie.release_date (fr_movie b))
  | by_avgRating => Qleb (fr_avgRating a) (fr_avgRating b)
  end.

Definition order_leb (o : order_column * direction) (a b : FlatRow) : bool :=
  match snd o with
  | ASC => column_leb (fst o) a b
  | DESC => column_leb (fst o) b a
  end.

(** The [switch (sort)] of the listing. *)
Definition orderClause (sort : string) : order_column * direction :=
  if String.eqb sort "title-asc" then (by_title, ASC)
  else if String.eqb sort "title-desc" then (by_title, DESC)
  else if String.eqb sort "year-asc" then (by_release_date, ASC)
  else if String.eqb sort "year-desc" then (by_release_date, DESC)
  else if String.eqb sort "rating-asc" then (by_avgRating, ASC)
  else if String.eqb sort "rating-desc" then (by_avgRating, DESC)
  else (by_title, ASC).

(** [if (x)] on a raw string parameter. *)
Definition truthy (x : option string) : option string :=
  match x with
  | Some "" => None
  | other => other
  end.

(** The [where] clause: [title LIKE %search%] and
    [release_date BETWEEN year-01-01 AND year-12-31]. *)
Definition whereClause (search : option string) (year : option Z) (m : Movie.t)
  : bool :=
  match truthy search with
  | Some x => sql_like (contains_pattern x) (Movie.title m)
  | None => true
  end
  && match year with
     | Some y =>
         match Movie.release_date m with
         | Some d => date_leb (mkDate y 1 1) d && date_leb d (mkDate y 12 31)
         | None => false
         end
     | None => true
     end.

(** The genres a movie is joined with through [movie_genres], restricted
    by the include's [where] when a genre filter is given. *)
Definition joined_genres (s : db) (genre : option string) (m : Movie.t)
  : list Genre.t :=
  flat_map (fun mg =>
    filter (fun g =>
              (MovieGenre.genre_id mg =? Genre.genre_id g)
              && match truthy genre with
                 | Some x => sql_like (contains_pattern x) (Genre.name g)
                 | None => true
                 end)
           (genres s))
    (filter (fun mg => Movie.movie_id m =? MovieGenre.movie_id mg)
            (movie_genres s)).

(** The correlated subqueries
    [(SELECT COALESCE(AVG(rating), 0) FROM ratings WHERE ratings.movie_id = Movie.movie_id)]
    and [(SELECT COUNT( * ) FROM ratings WHERE ratings.movie_id = Movie.movie_id)]. *)
Definition avgRating_of (s : db) (m : Movie.t) : Q :=
  COALESCE (SQL_AVG (map Rating.rating (ratings_of s (Movie.movie_id m)))) 0.

Definition ratingCount_of (s : db) (m : Movie.t) : Z :=
  SQL_COUNT (ratings_of s (Movie.movie_id m)).

(** The flat result of the listing's join before ORDER BY and LIMIT.  With
    [subQuery: false] the genre include is joined in the main query: an
    inner join when the include carries a [where], a left outer join
    otherwise. *)
Definition listing_rows (s : db) (q : Query) : list FlatRow :=
  flat_map (fun m =>
    let row := mkFlatRow m (avgRating_of s m) (ratingCount_of s m) in
    match truthy (genre q) with
    | Some _ => map (fun g => row (Some g)) (joined_genres s (genre q) m)
    | None => map (fun jr => row (snd jr))
                  (left_join m (joined_genres s (genre q) m))
    end)
    (filter (whereClause (search q) (year q)) (movies s)).

(** The ORM folds the flat rows into one instance per movie key, in order
    of first appearance, each with the genres of its rows. *)
Definition build_instances (rows : list FlatRow) : list MovieRow :=
  flat_map
    (fun g : Z * list FlatRow =>
       match snd g with
       | [] => []
       | r :: _ =>
           [mkMovieRow (fr_movie r)
              (distinct (fun a b => Genre.genre_id a =? Genre.genre_id b)
                        (non_null (map fr_genre (snd g))))
              (fr_avgRating r) (fr_ratingCount r)]
       end)
    (group_by Z.eqb (fun r => Movie.movie_id (fr_movie r)) rows).

(** [Movie.findAndCountAll({ where, include, order, limit, offset,
    subQuery: false, attributes })].  The count query runs the same join
    without ORDER BY and LIMIT and counts the movie key of its rows; the
    call asks for no DISTINCT. *)
Definition listing_count (s : db) (q : Query) : Z :=
  SQL_COUNT (listing_rows s q).

(** The row query orders the flat rows, cuts the page out of them and
    builds the instances. *)
Definition listing_page (s : db) (q : Query) (order : order_column * direction)
    (limit offset : Z) : list MovieRow :=
  build_instances
    (sql_limit offset limit (sort_by (order_leb order) (listing_rows s q))).

Definition Movie_findAndCountAll (q : Query) (order : order_column * direction)
    (limit offset : Z) : handler (Z * list MovieRow) :=
  check_limit limit ;;
  check_limit offset ;;
  gets (fun s => (listing_count s q, listing_page s q order limit offset)).

(** [avgRating >= parseFloat(minRating)], false when the threshold is NaN.
    The left operand is [parseFloat(avgRating) || 0], which is the
    attribute itself. *)
Definition meets_minRating (threshold : option Q) (movie : MovieRow) : bool :=
  match threshold with
  | Some t => Qleb t (avgRating movie)
  | None => false
  end.

Definition getMovies_body (req : request) : handler response :=
  let page := parse_or (page (query req)) 1 in
  let limit := parse_or (limit (query req)) 8 in
  let offset := (page - 1) * limit in
  let sort := js_or_else (sort (query req)) "title-asc" in
  let minRating := minRating (query req) in
  found <- Movie_findAndCountAll (query req) (orderClause sort) limit offset ;;
  let count := fst found in
  let rows := snd found in
  let filteredMovies :=
    match minRating with
    | Some threshold => filter (meets_minRating threshold) rows
    | None => rows
    end in
  let total :=
    match minRating with
    | Some _ => Z.of_nat (List.length filteredMovies)
    | None => count
    end in
  ret (mkResponse 200
         (MoviesPage filteredMovies
            (mkPagination page limit total (ceil_div total limit)))).

Definition getMovies (req : request) : db -> response * db :=
  try_catch (getMovies_body req) (Message false "Server error").

(** ** Sample data *)

Definition no_query : Query := mkQuery None None None None None None None.
Definition no_body : Body := mkBody None None None None None None None None.

Definition alice : User.t :=
  User.mk 1 "alice" "alice@example.org" (Some "Alice") None (Some "Film fan")
          None true.

Definition bob : User.t :=
  User.mk 2 "bob" "bob@example.org" None None None None true.

Definition carol : User.t :=
  User.mk 3 "carol" "carol@example.org" None None None None true.

Definition sample_db : db :=
  mkDb
    [ Movie.mk 1 "Alien" None (Some (mkDate 1979 5 25));
      Movie.mk 2 "Brazil" None (Some (mkDate 1985 2 20));
      Movie.mk 3 "Casablanca" None (Some (mkDate 1942 11 26)) ]
    [ Genre.mk 1 "Drama"; Genre.mk 2 "Sci-Fi" ]
    [ MovieGenre.mk 1 2; MovieGenre.mk 2 2; MovieGenre.mk 2 1;
      MovieGenre.mk 3 1 ]
    [ Rating.mk 1 1 1 (17 # 2); Rating.mk 2 2 1 (9 # 1);
      Rating.mk 3 1 2 (3 # 1); Rating.mk 4 3 3 (2 # 1) ]
    5
    [ Review.mk 1 1 1 (Some "Classic") "Still frightening." false ]
    2
    [ alice; bob; carol ]
    [ Activity.mk 1 1 "rate"; Activity.mk 2 1 "rate"; Activity.mk 1 2 "rate";
      Activity.mk 3 3 "rate" ].

Definition request_of (u : option User.t) (id : Z) (q : Query) (b : Body)
  : request :=
  mkRequest u None id q b.

(** Bob rates movie 2 with the given value, or sends no value. *)
Definition rate_request (value : option Q) : request :=
  request_of (Some bob) 2 no_query
             (mkBody value None None None None None None None).

Definition eleven_request : request := rate_request (Some (11 # 1)).

(** Alice, who has reviewed movie 1, submits another review of it. *)
Definition second_review_request : request :=
  request_of (Some alice) 0 no_query
             (mkBody None (Some 1) (Some "Again") (Some "Even better.") None
                     None None None).

(** Bob deletes his account; later a request arrives with his token. *)
Definition delete_request : request := request_of (Some bob) 0 no_query no_body.

Definition sample_jwt_verify (token : string) : option Z :=
  if String.eqb token "token-of-bob" then Some 2 else None.

Definition bob_bearer_request : request :=
  mkRequest None (Some "Bearer token-of-bob") 0 no_query no_body.

(** Carol, whose only rating is a 2, asks for five recommendations; an
    anonymous visitor asks for the five top-rated movies. *)
Definition five : Query := mkQuery None (Some 5) None None None None None.

Definition carol_recommendations_request : request :=
  request_of (Some carol) 0 five no_body.

Definition top_five_request : request := request_of None 0 five no_body.

(** An anonymous listing request with the default parameters, and the
    instance of the first movie of the sample database. *)
Definition plain_listing_request : request := request_of None 0 no_query no_body.

Definition alien_row : MovieRow :=
  mkMovieRow (Movie.mk 1 "Alien" None (Some (mkDate 1979 5 25)))
             [Genre.mk 2 "Sci-Fi"] (35 # 4) 2.

(** The first page of size one of the movies rated at least 2. *)
Definition rated_listing_request : request :=
  request_of None 0
    (mkQuery (Some 1) (Some 1) None None None None (Some (Some (2 # 1))))
    no_body.

(** Alice edits her review 1, supplying an empty title and nothing else;
    then supplying a new title and a spoiler flag. *)
Definition blank_title_request : request :=
  request_of (Some alice) 1 no_query
             (mkBody None None (Some "") None None None None None).

Definition retitle_request : request :=
  request_of (Some alice) 1 no_query
             (mkBody None None (Some "A classic") None (Some true) None None None).

(** Alice changes her last name and leaves the rest of her profile. *)
Definition rename_request : request :=
  request_of (Some alice) 0 no_query
             (mkBody None None None None None None (Some "Smith") None).

(** ** Vocabulary of the properties *)

(** The movies of a listing response. *)
Definition listed_movies (r : response) : list MovieRow :=
  match payload r with
  | MoviesPage movies _ => movies
  | _ => []
  end.

Definition listed_pagination (r : response) : option Pagination :=
  match payload r with
  | MoviesPage _ pagination => Some pagination
  | _ => None
  end.

(** The page number and page size a listing request asks for, after the
    defaults are applied, and the page of instances the storage layer
    returns for it. *)
Definition page_of (req : request) : Z := parse_or (page (query req)) 1.

Definition limit_of (req : request) : Z := parse_or (limit (query req)) 8.

Definition fetched_page (s : db) (req : request) : list MovieRow :=
  listing_page s (query req)
    (orderClause (js_or_else (sort (query req)) "title-asc"))
    (limit_of req) ((page_of req - 1) * limit_of req).

(** The movies of the whole listing, over all pages, whose average rating
    reaches the threshold. *)
Definition qualifying_movies (s : db) (q : Query) (threshold : Q) : list Z :=
  distinct Z.eqb
    (map (fun r => Movie.movie_id (fr_movie r))
         (filter (fun r => Qleb threshold (fr_avgRating r)) (listing_rows s q))).

(** The (user, movie) pairs of the ratings table, one per row. *)
Definition rating_pairs (s : db) : list (Z * Z) :=
  map (fun r => (Rating.user_id r, Rating.movie_id r)) (ratings s).

(** The rating row of a (user, movie) pair, as [Rating.findOne] sees it. *)
Definition rating_row (s : db) (uid mid : Z) : option Rating.t :=
  find (fun r => (Rating.user_id r =? uid) && (Rating.movie_id r =? mid))
       (ratings s).

Definition review_row (s : db) (uid mid : Z) : option Review.t :=
  find (fun r => (Review.user_id r =? uid) && (Review.movie_id r =? mid))
       (reviews s).

Definition movie_row (s : db) (id : Z) : option Movie.t :=
  find (fun m => Movie.movie_id m =? id) (movies s).

Definition user_row (s : db) (id : Z) : option User.t :=
  find (fun u => User.user_id u =? id) (users s).

Definition review_by_id (s : db) (id : Z) : option Review.t :=
  find (fun r => Review.review_id r =? id) (reviews s).

(** How an update treats a text field: a supplied non-empty text
    overwrites the stored value; an absent field, and a field supplied as
    the empty text, leave it as it was. *)
Inductive text_update : option string -> option string -> option string -> Prop :=
| text_overwritten (t : string) (old : option string) :
    t <> "" -> text_update (Some t) old (Some t)
| text_absent (old : option string) : text_update None old old
| text_empty (old : option string) : text_update (Some "") old old.

(** How [updateReview] treats the spoiler flag: any supplied value
    overwrites. *)
Inductive flag_update : option bool -> bool -> bool -> Prop :=
| flag_overwritten (b old : bool) : flag_update (Some b) old b
| flag_absent (old : bool) : flag_update None old old.

(** The claim that every supplied field overwrites, at the title of a
    review: after a successful update the stored title is the supplied
    one. *)
Definition supplied_title_overwrites : Prop :=
  forall (req : request) (s : db) (new : Review.t) (t : string),
    status (fst (updateReview req s)) = 200 ->
    review_by_id (snd (updateReview req s)) (params_id req) = Some new ->
    title (body req) = Some t ->
    Review.title new = Some t.

(** One group of the rollup lies above another: its label is the greater
    string. *)
Definition range_above (a b : RangeCount) : Prop :=
  String.ltb (rating_range b) (rating_range a) = true.

(** The ratings of the table that the CASE expression sends to [label]. *)
Definition ratings_in_range (s : db) (label : string) : list Rating.t :=
  filter (fun r => String.eqb label (rating_range_of (Rating.rating r)))
         (ratings s).

(** The labels of the CASE expression of the rating rollup, highest
    first. *)
Definition rating_ranges : list string :=
  ["9-10"; "8-8.9"; "7-7.9"; "6-6.9"; "5-5.9"; "4-4.9"; "3-3.9"; "2-2.9";
   "0-1.9"].

(** The row belongs to the (user, movie) pair. *)
Definition same_pair (uid mid : Z) (r : Rating.t) : bool :=
  (Rating.user_id r =? uid) && (Rating.movie_id r =? mid).

(** A user's row is present and inactive. *)
Definition deactivated (s : db) (id : Z) : Prop :=
  option_map User.is_active (user_row s id) = Some false.

(** The claim of ten ranges: ten distinct labels that are exactly the
    values of the CASE expression. *)
Definition ten_ranges : Prop :=
  exists labels : list string,
    List.length labels = 10%nat
    /\ NoDup labels
    /\ forall label, In label labels <-> exists q, rating_range_of q = label.

(** The embedded handlers, and the databases a sequence of requests to
    them can lead to. *)
Definition handlers : list (request -> db -> response * db) :=
  [ getMovies; rateMovie; getTopRatedMovies; getRecommendations;
    createReview; updateReview; getRatingDistribution; updateProfile;
    deleteAccount ].

Inductive later : db -> db -> Prop :=
| later_now s : later s s
| later_request s s' h req :
    later s s' -> In h handlers -> later s (snd (h req s')).

(** ** Further sample requests *)

(** Bob rates a movie that does not exist. *)
Definition unknown_movie_request : request :=
  request_of (Some bob) 99 no_query
             (mkBody (Some (7 # 1)) None None None None None None None).

(** ** The review controller: deleteReview *)

(** [review.destroy()]: [DELETE FROM reviews WHERE review_id = ?]. *)
Definition Review_destroy (inst : Review.t) : handler unit :=
  modify (fun s =>
    set_reviews
      (filter (fun r => negb (Review.review_id r =? Review.review_id inst))
              (reviews s))
      (next_review_id s) s).

Definition deleteReview_body (req : request) : handler response :=
  let id := params_id req in
  found <- Review_findByPk id ;;
  match found with
  | None => respond 404 (Message false "Review not found")
  | Some review =>
      uid <- current_user_id req ;;
      if negb (Review.user_id review =? uid) then
        respond 403 (Message false "Not authorized to delete this review")
      else
        Review_destroy review ;;
        ret (mkResponse 200 (Message true "Review deleted successfully"))
  end.

Definition deleteReview (req : request) : db -> response * db :=
  try_catch (deleteReview_body req) (Message false "Server error").

(** Carol submits a first review of movie 3; Bob tries to edit or delete
    Alice's review 1; Alice deletes it. *)
Definition carol_review_request : request :=
  request_of (Some carol) 0 no_query
             (mkBody None (Some 3) (Some "Timeless") (Some "Here's looking at it.")
                     None None None None).

Definition blank_review_request : request :=
  request_of (Some carol) 0 no_query
             (mkBody None (Some 3) (Some "Timeless") (Some "   ") None None
                     None None).

Definition bob_edits_review_request : request :=
  request_of (Some bob) 1 no_query
             (mkBody None None (Some "Overrated") None None None None None).

Definition alice_review_request : request :=
  request_of (Some alice) 1 no_query no_body.

(** ** middleware/auth.js: optionalAuth *)

Definition set_user (u : option User.t) (req : request) : request :=
  mkRequest u (authorization req) (params_id req) (query req) (body req).

Section OptionalAuth.

Variable jwt_verify : string -> option Z.

(** The middleware always calls [next()].  With a token that verifies,
    [req.user] becomes the result of [User.findByPk], a row or [null];
    with a token that fails to verify the exception is logged and the
    request is passed on as it came. *)
Definition optionalAuth (req : request) (s : db) : request :=
  let token := bearer_token req in
  if no_token token then req
  else
    match token with
    | None => req
    | Some t =>
        match jwt_verify t with
        | None => req
        | Some id =>
            set_user (find (fun u => User.user_id u =? id) (users s)) req
        end
    end.

End OptionalAuth.

(** A request whose header carries no bearer token. *)
Definition basic_auth_request : request :=
  mkRequest None (Some "Basic dXNlcjpwYXNz") 0 no_query no_body.

(** ** Vocabulary of the further properties *)

(** The page size of the top-rated and recommendation handlers after the
    default is applied. *)
Definition ranking_limit (req : request) : Z := parse_or (limit (query req)) 10.

(** [a] may stand before [b] in a list ordered by average rating and then
    rating count, both descending. *)
Definition ranks_before (a b : AggRow) : Prop :=
  (ag_avgRating b < ag_avgRating a)%Q
  \/ ((ag_avgRating a == ag_avgRating b)%Q
      /\ ag_ratingCount b <= ag_ratingCount a).

(** The movie keys of the table are pairwise different, as the primary key
    demands. *)
Definition movie_keys_unique (s : db) : Prop :=
  NoDup (map Movie.movie_id (movies s)).

(** The columns of an instance that ORDER BY reads, as a flat row. *)
Definition as_flat (x : MovieRow) : FlatRow :=
  mkFlatRow (mr_movie x) (avgRating x) (ratingCount x) None.

(** Instance [a] may stand before instance [b] under the order clause. *)
Definition listed_in_order (o : order_column * direction) (a b : MovieRow)
  : Prop :=
  order_leb o (as_flat a) (as_flat b) = true.

(** The values of [sort] that the [switch] of the listing names. *)
Definition sort_keys : list string :=
  ["title-asc"; "title-desc"; "year-asc"; "year-desc"; "rating-asc";
   "rating-desc"].

(** The sum of the counts of a rollup. *)
Definition sum_counts (groups : list RangeCount) : Z :=
  fold_right (fun g acc => count g + acc) 0 groups.

(** The number of rows GROUP BY puts in the group of key [k]. *)
Definition group_size {A K} (eqb : K -> K -> bool) (key : A -> K)
    (l : list A) (k : K) : nat :=
  List.length (filter (fun a => eqb k (key a)) l).

(** ** Further handlers: documents, stores and handler bodies *)

(** A row of [watchlists] (models/Watchlist.js). *)
Module Watchlist.
Record t := mk { watchlist_id : Z; user_id : Z; movie_id : Z }.
End Watchlist.

(** The database together with the watchlists table. *)
Record store := mkStore {
  base : db;
  watchlists : list Watchlist.t;
  next_watchlist_id : Z        (* AUTO_INCREMENT counter of watchlists *)
}.

Definition set_watchlists (rows : list Watchlist.t) (n : Z) (st : store)
  : store :=
  mkStore (base st) rows n.

(** One group of the genre-distribution query. *)
Record GenreCount := mkGenreCount { gc_name : string; gc_count : Z }.

(** The movie document of [getMovieById]. *)
Record MovieDetail := mkMovieDetail {
  md_movie : Movie.t;
  md_genres : list Genre.t;
  md_avgRating : string;
  md_ratingCount : Z;
  userRating : option Q;
  isInWatchlist : bool
}.

(** A watchlist item with its included movie. *)
Record WatchlistView := mkWatchlistView {
  wv_item : Watchlist.t;
  wv_movie : option Movie.t
}.

(** The JSON documents of the further handlers. *)
Inductive document :=
| Plain (success : bool) (message : string)
| RankedPage (movies : list RankedMovie) (pagination : Pagination)
| GenresData (genres : list GenreCount)
| MovieData (movie : MovieDetail)
| WatchlistItemData (message : string) (watchlistItem : option WatchlistView)
| InWatchlistData (isInWatchlist : bool).

Record reply := mkReply { reply_status : Z; document_of : document }.

(** Handler bodies over any state, with early return and exceptions as
    before. *)
Inductive progress (A : Type) : Type :=
| Continue (a : A)
| Replied (r : reply)
| Raised.
Arguments Continue {A} a.
Arguments Replied {A} r.
Arguments Raised {A}.

Definition action (S A : Type) : Type := S -> progress A * S.

Definition pure {S A} (a : A) : action S A := fun s => (Continue a, s).

Definition and_then {S A B} (m : action S A) (k : A -> action S B)
  : action S B :=
  fun s =>
    match m s with
    | (Continue a, s') => k a s'
    | (Replied r, s') => (Replied r, s')
    | (Raised, s') => (Raised, s')
    end.

Definition reply_with {S A} (code : Z) (d : document) : action S A :=
  fun s => (Replied (mkReply code d), s).

Definition raise {S A} : action S A := fun s => (Raised, s).

Definition reads {S A} (f : S -> A) : action S A := fun s => (Continue (f s), s).

Definition writes {S} (f : S -> S) : action S unit :=
  fun s => (Continue tt, f s).

Declare Scope action_scope.
Delimit Scope action_scope with action.
Notation "x <- m ;; k" := (and_then m (fun x => k))
  (at level 100, m at next level, right associativity) : action_scope.
Notation "m ;; k" := (and_then m (fun _ => k))
  (at level 100, right associativity) : action_scope.

(** [try { body } catch (error) { res.status(500).json(..) }]. *)
Definition guarded {S} (body : action S reply) (message : string)
  : S -> reply * S :=
  fun s =>
    match body s with
    | (Continue r, s') => (r, s')
    | (Replied r, s') => (r, s')
    | (Raised, s') => (mkReply 500 (Plain false message), s')
    end.

(** [req.user.user_id]. *)
Definition acting_user_id {S} (req : request) : action S Z :=
  match user req with
  | Some u => pure (User.user_id u)
  | None => raise
  end.

(** A LIMIT or OFFSET outside the range of the storage layer fails the
    statement. *)
Definition require_limit {S} (n : Z) : action S unit :=
  if out_of_row_range n then raise else pure tt.

Local Open Scope action_scope.

(** ** movieController.getNewReleases *)

(** The [switch (sort)] of the new releases. *)
Definition newReleasesOrder (sort : string) : order_column * direction :=
  if String.eqb sort "year-asc" then (by_release_date, ASC)
  else if String.eqb sort "year-desc" then (by_release_date, DESC)
  else if String.eqb sort "title-asc" then (by_title, ASC)
  else if String.eqb sort "title-desc" then (by_title, DESC)
  else if String.eqb sort "rating-asc" then (by_avgRating, ASC)
  else if String.eqb sort "rating-desc" then (by_avgRating, DESC)
  else (by_release_date, DESC).

(** [where: { release_date: { [Op.not]: null } }]. *)
Definition has_release_date (m : Movie.t) : bool :=
  match Movie.release_date m with
  | Some _ => true
  | None => false
  end.

(** The rows of the query before ORDER BY and LIMIT: no model is included,
    so there is one row per movie. *)
Definition release_rows (s : db) : list FlatRow :=
  map (fun m => mkFlatRow m (avgRating_of s m) (ratingCount_of s m) None)
      (filter has_release_date (movies s)).

(** [movie => ({ ...movie.toJSON(), avgRating: parseFloat(..).toFixed(1) })]. *)
Definition ranked_row (r : FlatRow) : RankedMovie :=
  mkRankedMovie (fr_movie r) (toFixed1 (fr_avgRating r)) (fr_ratingCount r).

Definition getNewReleases_body (req : request) : action db reply :=
  let page := parse_or (page (query req)) 1 in
  let limit := parse_or (limit (query req)) 8 in
  let offset := (page - 1) * limit in
  let sort := js_or_else (sort (query req)) "year-desc" in
  require_limit limit ;;
  require_limit offset ;;
  count <- reads (fun s => SQL_COUNT (release_rows s)) ;;
  rows <- reads (fun s =>
            sql_limit offset limit
              (sort_by (order_leb (newReleasesOrder sort)) (release_rows s))) ;;
  pure (mkReply 200
          (RankedPage (map ranked_row rows)
             (mkPagination page limit count (ceil_div count limit)))).

Definition getNewReleases (req : request) : db -> reply * db :=
  guarded (getNewReleases_body req) "Server error".

(** ** movieController.getMoviesByGenre *)

(** Equality of text under the case-insensitive collation. *)
Definition collate_eqb (a b : string) : bool :=
  String.eqb (lower_string a) (lower_string b).

(** The rows of [movies m JOIN movie_genres mg .. JOIN genres g ..] with
    [g.name = ?]. *)
Definition genre_join (s : db) (genre : string) : list (Movie.t * Genre.t) :=
  flat_map (fun m =>
    flat_map (fun mg =>
      map (fun g => (m, g))
          (filter (fun g => (MovieGenre.genre_id mg =? Genre.genre_id g)
                            && collate_eqb (Genre.name g) genre)
                  (genres s)))
      (filter (fun mg => Movie.movie_id m =? MovieGenre.movie_id mg)
              (movie_genres s)))
    (movies s).

(** [ORDER BY m.title ASC]. *)
Definition by_title_asc (a b : AggRow) : bool :=
  String.leb (lower_string (Movie.title (ag_movie a)))
             (lower_string (Movie.title (ag_movie b))).

(** [SELECT m.*, COALESCE(AVG(r.rating), 0), COUNT(r.rating) FROM .. JOIN ..
     LEFT JOIN ratings r ON m.movie_id = r.movie_id WHERE g.name = ?
     GROUP BY m.movie_id ORDER BY m.title ASC LIMIT ? OFFSET ?]. *)
Definition movies_by_genre_query (genre : string) (limit offset : Z)
  : action db (list AggRow) :=
  require_limit limit ;;
  require_limit offset ;;
  reads (fun s =>
    let joined :=
      flat_map (fun row : Movie.t * Genre.t =>
                  left_join (fst row) (ratings_of s (Movie.movie_id (fst row))))
               (genre_join s genre) in
    sql_limit offset limit (sort_by by_title_asc (aggregate joined))).

(** [SELECT COUNT( * ) as count FROM movies m JOIN movie_genres mg ..
     JOIN genres g .. WHERE g.name = ?]. *)
Definition genre_count_query (genre : string) : action db Z :=
  reads (fun s => SQL_COUNT (genre_join s genre)).

(** [genre] is [req.params.genre]. *)
Definition getMoviesByGenre_body (genre : string) (req : request)
  : action db reply :=
  let page := parse_or (page (query req)) 1 in
  let limit := parse_or (limit (query req)) 8 in
  let offset := (page - 1) * limit in
  moviesByGenre <- movies_by_genre_query genre limit offset ;;
  count <- genre_count_query genre ;;
  pure (mkReply 200
          (RankedPage (map ranked moviesByGenre)
             (mkPagination page limit count (ceil_div count limit)))).

Definition getMoviesByGenre (genre : string) (req : request)
  : db -> reply * db :=
  guarded (getMoviesByGenre_body genre req) "Server error".

(** ** The stats controller: getGenreDistribution *)

(** [SELECT g.name, COUNT(mg.movie_id) as count FROM genres g
     LEFT JOIN movie_genres mg ON g.genre_id = mg.genre_id
     GROUP BY g.genre_id, g.name ORDER BY count DESC]. *)
Definition genre_distribution (s : db) : list GenreCount :=
  let joined :=
    flat_map (fun g =>
      left_join g (filter (fun mg => Genre.genre_id g =? MovieGenre.genre_id mg)
                          (movie_genres s)))
      (genres s) in
  let groups :=
    group_by genre_key_eqb
      (fun row : Genre.t * option MovieGenre.t =>
         (Genre.genre_id (fst row), Genre.name (fst row))) joined in
  let counted :=
    map (fun g : (Z * string) * list (Genre.t * option MovieGenre.t) =>
           mkGenreCount (snd (fst g)) (SQL_COUNT (non_null (map snd (snd g)))))
        groups in
  sort_by (fun a b => gc_count b <=? gc_count a) counted.

Definition getGenreDistribution (req : request) : db -> reply * db :=
  guarded (genreDistribution <- reads genre_distribution ;;
           pure (mkReply 200 (GenresData genreDistribution)))
          "Server error".

(** ** The watchlist controller *)

(** [Watchlist.findOne({ where: { user_id, movie_id } })]. *)
Definition Watchlist_findOne (uid mid : Z) : action store (option Watchlist.t) :=
  reads (fun st =>
    find (fun w => (Watchlist.user_id w =? uid) && (Watchlist.movie_id w =? mid))
         (watchlists st)).

(** [Watchlist.create({ user_id, movie_id })]: the row is inserted under the
    next id; the unique index on (user_id, movie_id) rejects a second row
    for a pair. *)
Definition Watchlist_create (uid mid : Z) : action store Watchlist.t :=
  existing <- Watchlist_findOne uid mid ;;
  match existing with
  | Some _ => raise
  | None =>
      id <- reads next_watchlist_id ;;
      let row := Watchlist.mk id uid mid in
      writes (fun st => set_watchlists (watchlists st ++ [row]) (id + 1) st) ;;
      pure row
  end.

(** [Watchlist.findByPk(id, { include: ['Movie'] })]. *)
Definition Watchlist_findByPk_included (id : Z)
  : action store (option WatchlistView) :=
  reads (fun st =>
    match find (fun w => Watchlist.watchlist_id w =? id) (watchlists st) with
    | Some w =>
        Some (mkWatchlistView w
                (find (fun m => Movie.movie_id m =? Watchlist.movie_id w)
                      (movies (base st))))
    | None => None
    end).

(** [watchlistItem.destroy()]: [DELETE FROM watchlists WHERE watchlist_id = ?]. *)
Definition Watchlist_destroy (inst : Watchlist.t) : action store unit :=
  writes (fun st =>
    set_watchlists
      (filter (fun w => negb (Watchlist.watchlist_id w
                              =? Watchlist.watchlist_id inst))
              (watchlists st))
      (next_watchlist_id st) st).

Definition addToWatchlist_body (req : request) : action store reply :=
  let movie_id := movie_id (body req) in
  movie <- reads (fun st =>
             match movie_id with
             | Some id => find (fun m => Movie.movie_id m =? id) (movies (base st))
             | None => None
             end) ;;
  match movie, movie_id with
  | Some _, Some mid =>
      uid <- acting_user_id req ;;
      existingItem <- Watchlist_findOne uid mid ;;
      match existingItem with
      | Some _ =>
          reply_with 400 (Plain false "Movie is already in your watchlist")
      | None =>
          watchlistItem <- Watchlist_create uid mid ;;
          newItem <- Watchlist_findByPk_included
                       (Watchlist.watchlist_id watchlistItem) ;;
          pure (mkReply 201
                  (WatchlistItemData "Added to watchlist successfully" newItem))
      end
  | _, _ => reply_with 404 (Plain false "Movie not found")
  end.

Definition addToWatchlist (req : request) : store -> reply * store :=
  guarded (addToWatchlist_body req) "Server error".

(** [req.params.movieId] is the path parameter of the request. *)
Definition removeFromWatchlist_body (req : request) : action store reply :=
  let movieId := params_id req in
  uid <- acting_user_id req ;;
  watchlistItem <- Watchlist_findOne uid movieId ;;
  match watchlistItem with
  | None => reply_with 404 (Plain false "Movie not found in watchlist")
  | Some item =>
      Watchlist_destroy item ;;
      pure (mkReply 200 (Plain true "Removed from watchlist successfully"))
  end.

Definition removeFromWatchlist (req : request) : store -> reply * store :=
  guarded (removeFromWatchlist_body req) "Server error".

Definition checkInWatchlist_body (req : request) : action store reply :=
  let movieId := params_id req in
  uid <- acting_user_id req ;;
  watchlistItem <- Watchlist_findOne uid movieId ;;
  pure (mkReply 200
          (InWatchlistData (match watchlistItem with
                            | Some _ => true
                            | None => false
                            end))).

Definition checkInWatchlist (req : request) : store -> reply * store :=
  guarded (checkInWatchlist_body req) "Server error".

(** ** movieController.getMovieById *)

(** [Movie.findByPk(id, { include: genres, attributes })]: the movie with
    its genres and the two computed attributes. *)
Definition Movie_findByPk_included (id : Z)
  : action store (option (Movie.t * list Genre.t * Q * Z)) :=
  reads (fun st =>
    let s := base st in
    match find (fun m => Movie.movie_id m =? id) (movies s) with
    | Some m =>
        Some (m,
              distinct (fun a b => Genre.genre_id a =? Genre.genre_id b)
                       (joined_genres s None m),
              avgRating_of s m, ratingCount_of s m)
    | None => None
    end).

Definition getMovieById_body (req : request) : action store reply :=
  let id := params_id req in
  found <- Movie_findByPk_included id ;;
  match found with
  | None => reply_with 404 (Plain false "Movie not found")
  | Some (movie, genres, avg, cnt) =>
      personal <-
        match user req with
        | Some u =>
            rating <- reads (fun st =>
                        find (fun r => (Rating.user_id r =? User.user_id u)
                                       && (Rating.movie_id r
                                           =? Movie.movie_id movie))
                             (ratings (base st))) ;;
            watchlistItem <-
              Watchlist_findOne (User.user_id u) (Movie.movie_id movie) ;;
            pure (option_map Rating.rating rating,
                  match watchlistItem with Some _ => true | None => false end)
        | None => pure (None, false)
        end ;;
      pure (mkReply 200
              (MovieData
                 (mkMovieDetail movie genres (toFixed1 avg) cnt
                                (fst personal) (snd personal))))
  end.

Definition getMovieById (req : request) : store -> reply * store :=
  guarded (getMovieById_body req) "Server error".

(** A request for the second page of size two of the new releases. *)
Definition second_page_request : request :=
  request_of None 0 (mkQuery (Some 2) (Some 2) None None None None None) no_body.

(** The watchlist row of a (user, movie) pair, as [Watchlist.findOne] sees
    it. *)
Definition watchlist_row (st : store) (uid mid : Z) : option Watchlist.t :=
  find (fun w => (Watchlist.user_id w =? uid) && (Watchlist.movie_id w =? mid))
       (watchlists st).

(** The AUTO_INCREMENT counter of the watchlists is ahead of every id in
    use. *)
Definition watchlist_counter_ahead (st : store) : Prop :=
  forall w, In w (watchlists st) ->
            Watchlist.watchlist_id w < next_watchlist_id st.

(** A store over the sample database in which Alice watches movie 3; Bob
    adds movie 3 to his watchlist, then asks about it or removes it. *)
Definition sample_store : store :=
  mkStore sample_db [Watchlist.mk 1 1 3] 2.

Definition bob_adds_request : request :=
  request_of (Some bob) 0 no_query
             (mkBody None (Some 3) None None None None None None).

Definition bob_movie3_request : request :=
  request_of (Some bob) 3 no_query no_body.

(** Bob looks at movie 2 after rating it. *)
Definition bob_movie2_request : request :=
  request_of (Some bob) 2 no_query no_body.

(** A page the listing handlers can fetch: a page number and a page size
    of at least 1 which, with the offset they give, are exact integers of
    the language. *)
Definition valid_page (page limit : Z) : Prop :=
  1 <= page
  /\ 1 <= limit <= MAX_SAFE_INTEGER
  /\ (page - 1) * limit <= MAX_SAFE_INTEGER.

(** Alice, who has rated movie 1, rates it again: with the top mark, with a
    mark of two decimals, and with no mark at all. *)
Definition rerate_request (value : option Q) : request :=
  request_of (Some alice) 1 no_query
             (mkBody value None None None None None None None).

Definition ten_request : request := rerate_request (Some 10%Q).

(** Texts outside ASCII: the letter e with an acute accent (two bytes), a
    text of [n] of them, and the no-break space. *)
Definition e_acute : string :=
  String (ascii_of_nat 195) (String (ascii_of_nat 169) EmptyString).

Fixpoint accented (n : nat) : string :=
  match n with
  | O => EmptyString
  | S n' => (e_acute ++ accented n')%string
  end.

Definition no_break_space : string :=
  String (ascii_of_nat 194) (String (ascii_of_nat 160) EmptyString).

(** * Properties *)

(** ** Booleans and rationals *)

Lemma Qleb_le a b : Qleb a b = true <-> (a <= b)%Q.
Proof. apply Qle_bool_iff. Qed.

Lemma Qltb_lt a b : Qltb a b = true <-> (a < b)%Q.
Proof.
  unfold Qltb. rewrite negb_true_iff. split; intro H.
  - apply Qnot_le_lt. intro Hle. apply Qle_bool_iff in Hle. congruence.
  - destruct (Qle_bool b a) eqn:E; trivial.
    apply Qle_bool_iff in E. exfalso. exact (Qlt_not_le _ _ H E).
Qed.

Lemma Qltb_ge a b : Qltb a b = false <-> (b <= a)%Q.
Proof.
  unfold Qltb. rewrite negb_false_iff. apply Qle_bool_iff.
Qed.

(** ** The handler monad *)

Lemma try_catch_returned (m : handler response) j s r s' :
  m s = (Returned r, s') -> try_catch m j s = (r, s').
Proof. unfold try_catch. intros ->. reflexivity. Qed.

Lemma try_catch_next (m : handler response) j s r s' :
  m s = (Next r, s') -> try_catch m j s = (r, s').
Proof. unfold try_catch. intros ->. reflexivity. Qed.

Lemma try_catch_thrown (m : handler response) j s s' :
  m s = (Thrown, s') -> try_catch m j s = (mkResponse 500 j, s').
Proof. unfold try_catch. intros ->. reflexivity. Qed.

(** Unfolds the monad operations in the goal. *)
Ltac run_handler :=
  unfold bind, ret, respond, throw, gets, modify, current_user_id; simpl.

(** ** rateMovie: validation *)

Lemma out_of_range_check q :
  (q < 0 \/ 10 < q)%Q -> js_lt (Some q) 0 || js_gt (Some q) 10 = true.
Proof.
  intros [H | H]; apply orb_true_iff; [left | right]; simpl;
    now apply Qltb_lt.
Qed.

(** C2.  A rating below 0 or above 10 is answered with status 400 and the
    range message, and nothing is written: the ratings table, the activity
    log and the rest of the database are as before. *)
Theorem rateMovie_out_of_range (req : request) (s : db) (q : Q) :
  rating (body req) = Some q ->
  (q < 0 \/ 10 < q)%Q ->
  fst (rateMovie req s)
    = mkResponse 400 (Message false "Rating must be between 0 and 10")
  /\ ratings (snd (rateMovie req s)) = ratings s
  /\ user_activity (snd (rateMovie req s)) = user_activity s
  /\ snd (rateMovie req s) = s.
Proof.
  intros Hq Hout.
  assert (E : rateMovie req s
              = (mkResponse 400 (Message false rating_range_message), s)).
  { unfold rateMovie. apply try_catch_returned.
    unfold rateMovie_body. rewrite Hq, (out_of_range_check q Hout).
    reflexivity. }
  rewrite E. simpl. repeat split; reflexivity.
Qed.

Lemma rateMovie_out_of_range_witness :
  (rating (body eleven_request) = Some (11 # 1)
   /\ ((11 # 1) < 0 \/ 10 < (11 # 1))%Q)
  /\ fst (rateMovie eleven_request sample_db)
     = mkResponse 400 (Message false "Rating must be between 0 and 10")
  /\ ratings (snd (rateMovie eleven_request sample_db)) = ratings sample_db
  /\ user_activity (snd (rateMovie eleven_request sample_db))
     = user_activity sample_db
  /\ snd (rateMovie eleven_request sample_db) = sample_db.
Proof.
  assert (H1 : rating (body eleven_request) = Some (11 # 1)) by reflexivity.
  assert (H2 : ((11 # 1) < 0 \/ 10 < (11 # 1))%Q) by (right; reflexivity).
  split; [split; [exact H1 | exact H2] |].
  exact (rateMovie_out_of_range eleven_request sample_db (11 # 1) H1 H2).
Defined.

Lemma absent_rating_skips_check (req : request) :
  rating (body req) = None -> rateMovie_body req = rateMovie_validated req.
Proof. unfold rateMovie_body. intros ->. reflexivity. Qed.

(** C10.  With no [rating] field in the body the range check does not fire
    and the response is never the 400 of the check.  The handler goes on to
    the movie lookup: a movie that is not in the table is answered 404 and
    nothing is written.  For a movie of the table it goes on to the write
    path.  When the user has a rating of the movie, the update is given no
    value and leaves the row as it is, the activity row is appended to the
    log, and the response is 200 with the stored rating.  When the user has
    none, the insert fails on the missing value, the response is 500, and
    nothing is written. *)
Theorem rateMovie_missing_rating (req : request) (s : db) :
  rating (body req) = None ->
  status (fst (rateMovie req s)) <> 400
  /\ fst (rateMovie req s)
     <> mkResponse 400 (Message false "Rating must be between 0 and 10")
  /\ match movie_row s (params_id req), user req with
     | None, _ =>
         rateMovie req s = (mkResponse 404 (Message false "Movie not found"), s)
     | Some _, Some u =>
         match rating_row s (User.user_id u) (params_id req) with
         | Some existing =>
             rateMovie req s
             = (mkResponse 200
                  (RatingData "Rating submitted successfully" existing),
                set_user_activity
                  (user_activity s
                     ++ [Activity.mk (User.user_id u) (params_id req) "rate"])
                  s)
         | None =>
             rateMovie req s
             = (mkResponse 500 (Message false "Server error"), s)
         end
     | Some _, None =>
         rateMovie req s = (mkResponse 500 (Message false "Server error"), s)
     end.
Proof.
  intros Hr.
  assert (Hcases :
    match movie_row s (params_id req), user req with
    | None, _ =>
        rateMovie req s = (mkResponse 404 (Message false "Movie not found"), s)
    | Some _, Some u =>
        match rating_row s (User.user_id u) (params_id req) with
        | Some existing =>
            rateMovie req s
            = (mkResponse 200
                 (RatingData "Rating submitted successfully" existing),
               set_user_activity
                 (user_activity s
                    ++ [Activity.mk (User.user_id u) (params_id req) "rate"])
                 s)
        | None =>
            rateMovie req s
            = (mkResponse 500 (Message false "Server error"), s)
        end
    | Some _, None =>
        rateMovie req s = (mkResponse 500 (Message false "Server error"), s)
    end).
  { unfold rateMovie. rewrite (absent_rating_skips_check req Hr).
    unfold try_catch, rateMovie_validated, Movie_findByPk, Rating_findOne,
      movie_row, rating_row.
    rewrite Hr. run_handler.
    destruct (find _ (movies s)); [| reflexivity].
    destruct (user req) as [u |]; simpl; [| reflexivity].
    destruct (find _ (ratings s)) as [existing |]; simpl; [| reflexivity].
    destruct s; reflexivity. }
  assert (Hs : status (fst (rateMovie req s)) <> 400).
  { destruct (movie_row s (params_id req)); [| now rewrite Hcases].
    destruct (user req) as [u |]; [| now rewrite Hcases].
    destruct (rating_row s (User.user_id u) (params_id req));
      now rewrite Hcases. }
  split; [exact Hs |]. split; [| exact Hcases].
  intros Hbad. apply Hs. now rewrite Hbad.
Qed.

Lemma rateMovie_missing_rating_witness :
  rating (body (rerate_request None)) = None
  /\ status (fst (rateMovie (rerate_request None) sample_db)) <> 400
  /\ rateMovie (rerate_request None) sample_db
     = (mkResponse 200
          (RatingData "Rating submitted successfully"
                      (Rating.mk 1 1 1 (17 # 2))),
        set_user_activity
          (user_activity sample_db ++ [Activity.mk 1 1 "rate"]) sample_db).
Proof.
  split; [reflexivity |].
  destruct (rateMovie_missing_rating (rerate_request None) sample_db eq_refl)
    as (H1 & _ & H2).
  split; [exact H1 | exact H2].
Defined.

(** ** createReview: one review per user and movie *)

(** C4.  When the user has already reviewed the movie, [createReview]
    answers 400 with the already-reviewed message and leaves the reviews
    table, and the rest of the database, as it was. *)
Theorem createReview_already_reviewed
    (req : request) (s : db) (u : User.t) (mid : Z) (m : Movie.t)
    (existing : Review.t) :
  user req = Some u ->
  movie_id (body req) = Some mid ->
  movie_row s mid = Some m ->
  review_row s (User.user_id u) mid = Some existing ->
  fst (createReview req s)
    = mkResponse 400 (Message false "You have already reviewed this movie")
  /\ reviews (snd (createReview req s)) = reviews s
  /\ snd (createReview req s) = s.
Proof.
  intros Hu Hmid Hm Hex.
  assert (E : createReview req s
              = (mkResponse 400
                   (Message false "You have already reviewed this movie"), s)).
  { unfold createReview. apply try_catch_returned.
    unfold createReview_body, Review_findOne, current_user_id.
    rewrite Hmid, Hu. run_handler.
    unfold movie_row in Hm. rewrite Hm.
    unfold review_row in Hex. rewrite Hex. reflexivity. }
  rewrite E. repeat split; reflexivity.
Qed.

Lemma createReview_already_reviewed_witness :
  (user second_review_request = Some alice
   /\ movie_id (body second_review_request) = Some 1
   /\ movie_row sample_db 1
      = Some (Movie.mk 1 "Alien" None (Some (mkDate 1979 5 25)))
   /\ review_row sample_db (User.user_id alice) 1
      = Some (Review.mk 1 1 1 (Some "Classic") "Still frightening." false))
  /\ fst (createReview second_review_request sample_db)
     = mkResponse 400 (Message false "You have already reviewed this movie")
  /\ reviews (snd (createReview second_review_request sample_db))
     = reviews sample_db
  /\ snd (createReview second_review_request sample_db) = sample_db.
Proof.
  split; [repeat split; reflexivity |].
  apply (createReview_already_reviewed second_review_request sample_db alice 1
           (Movie.mk 1 "Alien" None (Some (mkDate 1979 5 25)))
           (Review.mk 1 1 1 (Some "Classic") "Still frightening." false));
    reflexivity.
Defined.

(** ** rateMovie: one rating per user and movie *)

Lemma update_rating_rows_pairs inst q rows :
  map (fun r => (Rating.user_id r, Rating.movie_id r))
      (update_rating_rows inst q rows)
  = map (fun r => (Rating.user_id r, Rating.movie_id r)) rows.
Proof.
  unfold update_rating_rows. rewrite map_map. apply map_ext.
  intros r. now destruct (Rating.rating_id r =? Rating.rating_id inst).
Qed.

Lemma update_rating_rows_find uid mid inst q rows :
  find (same_pair uid mid) rows = Some inst ->
  find (same_pair uid mid) (update_rating_rows inst q rows)
  = Some (with_rating q inst).
Proof.
  induction rows as [| r rows IH]; simpl; [discriminate |].
  destruct (same_pair uid mid r) eqn:Hr.
  - intros [= ->]. rewrite Z.eqb_refl.
    unfold same_pair in *. simpl. now rewrite Hr.
  - intros Hfind.
    assert (Hkeep : same_pair uid mid
                      (if Rating.rating_id r =? Rating.rating_id inst
                       then with_rating q r else r) = false).
    { destruct (Rating.rating_id r =? Rating.rating_id inst); exact Hr. }
    rewrite Hkeep. now apply IH.
Qed.

Lemma find_none_not_in_pairs uid mid rows :
  find (same_pair uid mid) rows = None ->
  ~ In (uid, mid) (map (fun r => (Rating.user_id r, Rating.movie_id r)) rows).
Proof.
  intros Hnone Hin. apply in_map_iff in Hin as (r & Hr & Hin).
  apply (find_none _ _ Hnone) in Hin. unfold same_pair in Hin.
  injection Hr as H1 H2. rewrite H1, H2, !Z.eqb_refl in Hin. discriminate.
Qed.

Lemma valid_rating_passes q :
  (0 <= q)%Q -> (q <= 10)%Q ->
  js_lt (Some q) 0 || js_gt (Some q) 10 = false /\ Rating_validate q = true.
Proof.
  intros H0 H10. split.
  - apply orb_false_iff. split; simpl; now apply Qltb_ge.
  - unfold Rating_validate. apply andb_true_iff. split; now apply Qleb_le.
Qed.

(** What the column makes of a rating that passed the validators: the
    nearest multiple of a tenth, which is at most 9.9; there is none from
    9.95 on. *)
Lemma DECIMAL_2_1_rounds (q stored : Q) :
  (0 <= q)%Q ->
  DECIMAL_2_1 q = Some stored ->
  exists n : Z,
    0 <= n <= 99 /\ stored = Qred (n # 10)
    /\ (inject_Z n - (1 # 2) <= q * 10)%Q
    /\ (q * 10 < inject_Z n + (1 # 2))%Q.
Proof.
  intros H0. unfold DECIMAL_2_1.
  assert (Hneg : Qltb q 0 = false) by now apply Qltb_ge.
  rewrite Hneg.
  set (n := Qfloor (q * 10 + (1 # 2))).
  destruct ((-99 <=? n) && (n <=? 99)) eqn:Hrange; [| discriminate].
  intros [= <-]. exists n.
  apply andb_true_iff in Hrange as [_ Hhi]. apply Z.leb_le in Hhi.
  pose proof (Qfloor_le (q * 10 + (1 # 2))) as Hle.
  pose proof (Qlt_floor (q * 10 + (1 # 2))) as Hlt.
  fold n in Hle, Hlt. rewrite inject_Z_plus in Hlt.
  assert (Hn : 0 <= n).
  { apply Z.lt_succ_r. rewrite Zlt_Qlt. unfold Z.succ.
    rewrite inject_Z_plus.
    eapply Qle_lt_trans; [| exact Hlt].
    change (inject_Z 0) with 0%Q.
    apply (Qle_trans _ (q * 10)); [| rewrite <- (Qplus_0_r (q * 10)) at 1;
      apply Qplus_le_r; discriminate].
    apply Qmult_le_0_compat; [exact H0 | discriminate]. }
  split; [lia |]. split; [reflexivity |].
  split.
  - apply (Qplus_le_l _ _ (1 # 2)). ring_simplify.
    ring_simplify in Hle. exact Hle.
  - apply (Qplus_lt_l _ _ (1 # 2)).
    eapply Qlt_le_trans; [exact Hlt |].
    apply Qle_lteq. right. ring.
Qed.

Lemma DECIMAL_2_1_overflow (q : Q) :
  (0 <= q)%Q -> (DECIMAL_2_1 q = None <-> (199 # 20 <= q)%Q).
Proof.
  intros H0. unfold DECIMAL_2_1.
  assert (Hneg : Qltb q 0 = false) by now apply Qltb_ge.
  rewrite Hneg.
  set (n := Qfloor (q * 10 + (1 # 2))).
  pose proof (Qfloor_le (q * 10 + (1 # 2))) as Hle.
  pose proof (Qlt_floor (q * 10 + (1 # 2))) as Hlt.
  fold n in Hle, Hlt.
  assert (Hn : 0 <= n).
  { apply Z.lt_succ_r. rewrite Zlt_Qlt. unfold Z.succ.
    eapply Qle_lt_trans; [| exact Hlt].
    change (inject_Z 0) with 0%Q.
    apply (Qle_trans _ (q * 10)); [| rewrite <- (Qplus_0_r (q * 10)) at 1;
      apply Qplus_le_r; discriminate].
    apply Qmult_le_0_compat; [exact H0 | discriminate]. }
  assert (Hiff : 100 <= n <-> (199 # 20 <= q)%Q).
  { split.
    - intros Hbig. rewrite Zle_Qle in Hbig.
      assert (H : (inject_Z 100 <= q * 10 + (1 # 2))%Q)
        by (eapply Qle_trans; eassumption).
      unfold Qle in *. simpl in *. lia.
    - intros Hq. apply Z.lt_succ_r. rewrite Zlt_Qlt. unfold Z.succ.
      eapply Qle_lt_trans; [| exact Hlt].
      unfold Qle in *. simpl in *. lia. }
  destruct ((-99 <=? n) && (n <=? 99)) eqn:Hrange.
  - apply andb_true_iff in Hrange as [_ Hhi]. apply Z.leb_le in Hhi.
    split; [discriminate | intros Hq; apply Hiff in Hq; lia].
  - split; [intros _ | reflexivity]. apply Hiff.
    apply andb_false_iff in Hrange as [Hlo | Hhi];
      [apply Z.leb_gt in Hlo | apply Z.leb_gt in Hhi]; lia.
Qed.

(** The effect of a valid rating that the column can hold on a pair that
    already has a row. *)
Lemma rateMovie_existing (req : request) (s : db) (u : User.t) (q stored : Q)
    (m : Movie.t) (existing : Rating.t) :
  user req = Some u ->
  rating (body req) = Some q ->
  (0 <= q)%Q -> (q <= 10)%Q ->
  DECIMAL_2_1 q = Some stored ->
  movie_row s (params_id req) = Some m ->
  rating_row s (User.user_id u) (params_id req) = Some existing ->
  rateMovie req s
  = (mkResponse 200
       (RatingData "Rating submitted successfully" (with_rating q existing)),
     set_user_activity
       (user_activity s
          ++ [Activity.mk (User.user_id u) (params_id req) "rate"])
       (set_ratings (update_rating_rows existing stored (ratings s))
                    (next_rating_id s) s)).
Proof.
  intros Hu Hq H0 H10 Hd Hm Hex.
  destruct (valid_rating_passes q H0 H10) as [Hcheck Hvalid].
  unfold rateMovie. apply try_catch_next.
  unfold rateMovie_body. rewrite Hq, Hcheck.
  unfold rateMovie_validated, Movie_findByPk, Rating_findOne, current_user_id.
  rewrite Hq, Hu. run_handler.
  unfold movie_row in Hm. rewrite Hm.
  unfold rating_row in Hex. rewrite Hex.
  unfold Rating_update. rewrite Hvalid, Hd. reflexivity.
Qed.

(** A rating that passed the validators and that the column cannot hold
    fails the write, whether the pair has a row or not: the handler answers
    500 and the database is as before. *)
Lemma rateMovie_unstorable (req : request) (s : db) (u : User.t) (q : Q)
    (m : Movie.t) :
  user req = Some u ->
  rating (body req) = Some q ->
  (0 <= q)%Q -> (q <= 10)%Q ->
  DECIMAL_2_1 q = None ->
  movie_row s (params_id req) = Some m ->
  rateMovie req s = (mkResponse 500 (Message false "Server error"), s).
Proof.
  intros Hu Hq H0 H10 Hd Hm.
  destruct (valid_rating_passes q H0 H10) as [Hcheck Hvalid].
  unfold rateMovie. apply try_catch_thrown.
  unfold rateMovie_body. rewrite Hq, Hcheck.
  unfold rateMovie_validated, Movie_findByPk, Rating_findOne, current_user_id.
  rewrite Hq, Hu. run_handler.
  unfold movie_row in Hm. rewrite Hm.
  destruct (find _ (ratings s)) eqn:Hfind.
  - unfold Rating_update. now rewrite Hvalid, Hd.
  - unfold Rating_create, Rating_findOne. rewrite Hvalid. run_handler.
    now rewrite Hfind, Hd.
Qed.

(** Whatever the request, [rateMovie] keeps the pairs of the ratings table
    free of repetitions. *)
Lemma rateMovie_keeps_pairs_unique (req : request) (s : db) :
  NoDup (rating_pairs s) -> NoDup (rating_pairs (snd (rateMovie req s))).
Proof.
  intros Hnd.
  unfold rateMovie, try_catch, rateMovie_body.
  destruct (js_lt _ 0 || js_gt _ 10); [exact Hnd |].
  unfold rateMovie_validated, Movie_findByPk, Rating_findOne, current_user_id.
  run_handler.
  destruct (find _ (movies s)); [| exact Hnd].
  destruct (user req) as [u |]; simpl; [| exact Hnd].
  destruct (find _ (ratings s)) as [existing |] eqn:Hfind; simpl.
  - unfold Rating_update.
    destruct (rating (body req)) as [q |]; simpl; [| exact Hnd].
    destruct (Rating_validate q); simpl; [| exact Hnd].
    destruct (DECIMAL_2_1 q); simpl; [| exact Hnd].
    unfold rating_pairs. simpl.
    now rewrite update_rating_rows_pairs.
  - unfold Rating_create, Rating_findOne.
    destruct (rating (body req)) as [q |]; simpl; [| exact Hnd].
    destruct (Rating_validate q); run_handler; [| exact Hnd].
    rewrite Hfind. simpl.
    destruct (DECIMAL_2_1 q); simpl; [| exact Hnd].
    unfold rating_pairs. simpl.
    rewrite map_app. simpl.
    apply NoDup_app; [exact Hnd | repeat constructor; intros [] | ].
    intros pair Hin [<- | []].
    exact (find_none_not_in_pairs _ _ _ Hfind Hin).
Qed.

(** ** What the handlers leave untouched *)

(** Splits the goal along the innermost [match]es and [if]s of an unfolded
    handler. *)
Ltac handler_cases :=
  cbv beta iota zeta;
  repeat (match goal with
          | |- context [match ?x with _ => _ end] =>
              lazymatch x with
              | context [match _ with _ => _ end] => fail
              | _ => destruct x
              end
          end; cbv beta iota zeta);
  cbn [fst snd]; try reflexivity.

Lemma getTopRatedMovies_state (req : request) (s : db) :
  snd (getTopRatedMovies req s) = s.
Proof.
  unfold getTopRatedMovies, try_catch, getTopRatedMovies_body, top_rated_query,
    check_limit, bind, gets, ret, throw.
  handler_cases.
Qed.

Lemma getMovies_state (req : request) (s : db) : snd (getMovies req s) = s.
Proof.
  unfold getMovies, try_catch, getMovies_body, Movie_findAndCountAll,
    check_limit, bind, gets, ret, throw.
  handler_cases.
Qed.

Lemma getRatingDistribution_state (req : request) (s : db) :
  snd (getRatingDistribution req s) = s.
Proof. reflexivity. Qed.

Lemma delegate_read_only {A} (h : db -> response * db) (s : db) :
  snd (h s) = s -> @delegate A h s = (Returned (fst (h s)), s).
Proof.
  unfold delegate. destruct (h s) as [r s']. cbn [fst snd]. now intros ->.
Qed.

Lemma getRecommendations_state (req : request) (s : db) :
  snd (getRecommendations req s) = s.
Proof.
  unfold getRecommendations, try_catch, getRecommendations_body,
    current_user_id, highly_rated_query, preferred_genres_query,
    recommendations_query, check_limit, bind, gets, ret, throw.
  cbv beta iota zeta.
  destruct (user req); cbv beta iota zeta; [| reflexivity].
  destruct (map _ (sql_limit 0 10 _)); cbv beta iota zeta.
  - now rewrite (delegate_read_only _ _ (getTopRatedMovies_state req s)).
  - destruct (map fst _); cbv beta iota zeta.
    + now rewrite (delegate_read_only _ _ (getTopRatedMovies_state req s)).
    + destruct (out_of_row_range _); reflexivity.
Qed.

Lemma createReview_frame (req : request) (s : db) :
  ratings (snd (createReview req s)) = ratings s
  /\ users (snd (createReview req s)) = users s.
Proof.
  unfold createReview, try_catch, createReview_body, current_user_id,
    Review_findOne, Review_create, Review_findByPk_included,
    bind, gets, ret, throw, respond, modify.
  handler_cases; split; reflexivity.
Qed.

Lemma updateReview_frame (req : request) (s : db) :
  ratings (snd (updateReview req s)) = ratings s
  /\ users (snd (updateReview req s)) = users s.
Proof.
  unfold updateReview, try_catch, updateReview_body, current_user_id,
    Review_findByPk, Review_update, Review_findByPk_included,
    bind, gets, ret, throw, respond, modify.
  handler_cases; split; reflexivity.
Qed.

Lemma rateMovie_users (req : request) (s : db) :
  users (snd (rateMovie req s)) = users s.
Proof.
  unfold rateMovie, try_catch, rateMovie_body, rateMovie_validated,
    current_user_id, Movie_findByPk, Rating_findOne, Rating_update,
    Rating_create, Rating_findOne, bind, gets, ret, throw, respond, modify.
  handler_cases.
Qed.

(** ** The users table under the user controller *)

Lemma find_map_stable {A} (p : A -> bool) (g : A -> A) (l : list A) :
  (forall x, p (g x) = p x) ->
  find p (map g l) = option_map g (find p l).
Proof.
  intros Hp. induction l as [| x l IH]; simpl; [reflexivity |].
  rewrite Hp. destruct (p x); [reflexivity | exact IH].
Qed.

Lemma update_user_rows_find inst f rows id :
  (forall u, User.user_id (f u) = User.user_id u) ->
  find (fun u => User.user_id u =? id) (update_user_rows inst f rows)
  = option_map (fun u => if User.user_id u =? User.user_id inst then f u else u)
               (find (fun u => User.user_id u =? id) rows).
Proof.
  intros Hid. unfold update_user_rows. apply find_map_stable.
  intros u. destruct (User.user_id u =? User.user_id inst);
    [now rewrite Hid | reflexivity].
Qed.

Lemma update_user_rows_ids inst f rows :
  (forall u, User.user_id (f u) = User.user_id u) ->
  map User.user_id (update_user_rows inst f rows) = map User.user_id rows.
Proof.
  intros Hid. unfold update_user_rows. rewrite map_map. apply map_ext.
  intros u. destruct (User.user_id u =? User.user_id inst);
    [apply Hid | reflexivity].
Qed.

Lemma user_row_id s id u : user_row s id = Some u -> User.user_id u = id.
Proof.
  unfold user_row. intros H. apply find_some in H as [_ H].
  now apply Z.eqb_eq.
Qed.

(** The database after any [updateProfile] request. *)
Lemma updateProfile_state (req : request) (s : db) :
  snd (updateProfile req s) = s
  \/ exists inst fn ln b,
       snd (updateProfile req s)
       = set_users (update_user_rows inst (with_profile fn ln b) (users s)) s.
Proof.
  unfold updateProfile, try_catch, updateProfile_body, current_user_id,
    User_findByPk, User_update_profile, User_save,
    bind, gets, ret, throw, respond, modify.
  cbv beta iota zeta.
  destruct (user req) as [u |]; cbv beta iota zeta; [| now left].
  destruct (find _ (users s)) as [inst |]; cbv beta iota zeta; [| now left].
  destruct (_ && _); cbv beta iota zeta; [| now left].
  right. now exists inst, (js_or_string (first_name (body req)) (User.first_name inst)),
    (js_or_string (last_name (body req)) (User.last_name inst)),
    (js_or_string (bio (body req)) (User.bio inst)).
Qed.

(** The database after any [deleteAccount] request. *)
Lemma deleteAccount_state (req : request) (s : db) :
  snd (deleteAccount req s) = s
  \/ exists inst,
       snd (deleteAccount req s)
       = set_users (update_user_rows inst (with_is_active false) (users s)) s.
Proof.
  unfold deleteAccount, try_catch, deleteAccount_body, current_user_id,
    User_findByPk, User_update_is_active, User_save,
    bind, gets, ret, throw, respond, modify.
  cbv beta iota zeta.
  destruct (user req) as [u |]; cbv beta iota zeta; [| now left].
  destruct (find _ (users s)) as [inst |]; cbv beta iota zeta; [| now left].
  right. now exists inst.
Qed.

(** The effect of [deleteAccount] for a user whose row exists. *)
Lemma deleteAccount_existing (req : request) (s : db) (u row : User.t) :
  user req = Some u ->
  user_row s (User.user_id u) = Some row ->
  deleteAccount req s
  = (mkResponse 200 (Message true "Account deleted successfully"),
     set_users (update_user_rows row (with_is_active false) (users s)) s).
Proof.
  intros Hu Hrow. unfold deleteAccount. apply try_catch_next.
  unfold deleteAccount_body, current_user_id, User_findByPk,
    User_update_is_active, User_save. rewrite Hu. run_handler.
  unfold user_row in Hrow. now rewrite Hrow.
Qed.

Lemma update_user_rows_deactivated inst f s id :
  (forall u, User.user_id (f u) = User.user_id u) ->
  (forall u, User.is_active u = false -> User.is_active (f u) = false) ->
  deactivated s id ->
  deactivated (set_users (update_user_rows inst f (users s)) s) id.
Proof.
  intros Hid Hact. unfold deactivated, user_row. simpl.
  rewrite (update_user_rows_find inst f (users s) id Hid).
  destruct (find _ (users s)) as [u |]; simpl; [| discriminate].
  intros [= Hu]. destruct (User.user_id u =? User.user_id inst);
    [now rewrite Hact | now rewrite Hu].
Qed.

Lemma same_users_deactivated s s' id :
  users s' = users s -> deactivated s id -> deactivated s' id.
Proof. unfold deactivated, user_row. now intros ->. Qed.

(** No embedded handler reactivates an account. *)
Lemma handler_keeps_deactivated h req s id :
  In h handlers -> deactivated s id -> deactivated (snd (h req s)) id.
Proof.
  intros Hin Hd. simpl in Hin.
  repeat (destruct Hin as [<- | Hin]); try contradiction.
  - now rewrite getMovies_state.
  - exact (same_users_deactivated _ _ _ (rateMovie_users req s) Hd).
  - now rewrite getTopRatedMovies_state.
  - now rewrite getRecommendations_state.
  - exact (same_users_deactivated _ _ _ (proj2 (createReview_frame req s)) Hd).
  - exact (same_users_deactivated _ _ _ (proj2 (updateReview_frame req s)) Hd).
  - exact Hd.
  - destruct (updateProfile_state req s) as [-> | (inst & fn & ln & b & ->)];
      [exact Hd |].
    now apply update_user_rows_deactivated.
  - destruct (deleteAccount_state req s) as [-> | (inst & ->)]; [exact Hd |].
    now apply update_user_rows_deactivated.
Qed.

Lemma later_keeps_deactivated s s' id :
  later s s' -> deactivated s id -> deactivated s' id.
Proof.
  induction 1 as [| s s' h req Hlater IH Hin]; intros Hd; [exact Hd |].
  apply handler_keeps_deactivated; auto.
Qed.

(** ** deleteAccount and the auth middleware *)

Lemma auth_deactivated jwt_verify (req : request) (s : db) (tok : string) (id : Z) :
  bearer_token req = Some tok ->
  tok <> "" ->
  jwt_verify tok = Some id ->
  deactivated s id ->
  auth jwt_verify req s
  = inl (mkResponse 401 (Message false "Account is deactivated")).
Proof.
  intros Htok Hne Hjwt Hd. unfold auth. rewrite Htok.
  assert (Hno : no_token (Some tok) = false).
  { destruct tok; [contradiction | reflexivity]. }
  rewrite Hno, Hjwt.
  unfold deactivated, user_row in Hd.
  destruct (find _ (users s)) as [u |]; simpl in Hd; [| discriminate].
  injection Hd as ->. reflexivity.
Qed.

(** C8.  [deleteAccount] removes no row: the users table keeps its length
    and its keys, and the user's row is the old row with [is_active] set to
    false.  From then on, in every database that later requests to the
    embedded handlers lead to, the auth middleware answers a request
    carrying a token of that user with 401 and "Account is deactivated". *)
Theorem deleteAccount_deactivates jwt_verify
    (req : request) (s : db) (u row : User.t) :
  user req = Some u ->
  user_row s (User.user_id u) = Some row ->
  let s1 := snd (deleteAccount req s) in
  fst (deleteAccount req s)
    = mkResponse 200 (Message true "Account deleted successfully")
  /\ List.length (users s1) = List.length (users s)
  /\ map User.user_id (users s1) = map User.user_id (users s)
  /\ user_row s1 (User.user_id u) = Some (with_is_active false row)
  /\ forall (s2 : db) (req' : request) (tok : string),
       later s1 s2 ->
       bearer_token req' = Some tok ->
       tok <> "" ->
       jwt_verify tok = Some (User.user_id u) ->
       auth jwt_verify req' s2
       = inl (mkResponse 401 (Message false "Account is deactivated")).
Proof.
  intros Hu Hrow s1. subst s1.
  rewrite (deleteAccount_existing req s u row Hu Hrow). cbn [fst snd].
  assert (Hid : forall x, User.user_id (with_is_active false x) = User.user_id x)
    by reflexivity.
  assert (Hnew : user_row
                   (set_users
                      (update_user_rows row (with_is_active false) (users s)) s)
                   (User.user_id u)
                 = Some (with_is_active false row)).
  { unfold user_row. simpl. rewrite (update_user_rows_find _ _ _ _ Hid).
    unfold user_row in Hrow. rewrite Hrow. simpl.
    now rewrite Z.eqb_refl. }
  split; [reflexivity |].
  split; [unfold update_user_rows; simpl; apply length_map |].
  split; [simpl; now apply update_user_rows_ids |].
  split; [exact Hnew |].
  intros s2 req' tok Hlater Htok Hne Hjwt.
  apply (auth_deactivated jwt_verify req' s2 tok (User.user_id u)); trivial.
  apply (later_keeps_deactivated _ _ _ Hlater).
  unfold deactivated. now rewrite Hnew.
Qed.

Lemma deleteAccount_deactivates_witness :
  (user delete_request = Some bob
   /\ user_row sample_db (User.user_id bob) = Some bob)
  /\ user_row (snd (deleteAccount delete_request sample_db)) 2
     = Some (with_is_active false bob)
  /\ auth sample_jwt_verify bob_bearer_request
          (snd (deleteAccount delete_request sample_db))
     = inl (mkResponse 401 (Message false "Account is deactivated")).
Proof.
  split; [split; reflexivity |].
  destruct (deleteAccount_deactivates sample_jwt_verify delete_request
              sample_db bob bob eq_refl eq_refl) as (_ & _ & _ & Hrow & Hauth).
  split; [exact Hrow |].
  apply (Hauth _ bob_bearer_request "token-of-bob").
  - apply later_now.
  - reflexivity.
  - discriminate.
  - reflexivity.
Defined.

(** ** The one-row-per-pair invariant of the ratings table *)

Lemma same_ratings_pairs s s' :
  ratings s' = ratings s -> rating_pairs s' = rating_pairs s.
Proof. unfold rating_pairs. now intros ->. Qed.

Lemma handler_keeps_pairs_unique h req s :
  In h handlers ->
  NoDup (rating_pairs s) -> NoDup (rating_pairs (snd (h req s))).
Proof.
  intros Hin Hnd. simpl in Hin.
  repeat (destruct Hin as [<- | Hin]); try contradiction.
  - now rewrite getMovies_state.
  - now apply rateMovie_keeps_pairs_unique.
  - now rewrite getTopRatedMovies_state.
  - now rewrite getRecommendations_state.
  - now rewrite (same_ratings_pairs _ _ (proj1 (createReview_frame req s))).
  - now rewrite (same_ratings_pairs _ _ (proj1 (updateReview_frame req s))).
  - exact Hnd.
  - destruct (updateProfile_state req s) as [-> | (inst & fn & ln & b & ->)];
      exact Hnd.
  - destruct (deleteAccount_state req s) as [-> | (inst & ->)]; exact Hnd.
Qed.

Lemma later_keeps_pairs_unique s s' :
  later s s' -> NoDup (rating_pairs s) -> NoDup (rating_pairs s').
Proof.
  induction 1 as [| s s' h req Hlater IH Hin]; intros Hnd; [exact Hnd |].
  apply handler_keeps_pairs_unique; auto.
Qed.

(** C3.  The failing input of the claim: Alice, who has rated movie 1
    with 8.5, rates it again with 10.  The range check of the handler and
    the validators of the model ([max: 10.0]) accept the value; the column
    [DECIMAL(2, 1)] holds 9.9 at most, the UPDATE fails, and the handler
    answers 500 "Server error".  The pair's row keeps the value 8.5 and the
    database is as it was. *)
Theorem rating_of_ten_not_stored :
  rating (body ten_request) = Some 10%Q
  /\ js_lt (Some 10%Q) 0 || js_gt (Some 10%Q) 10 = false
  /\ Rating_validate 10 = true
  /\ DECIMAL_2_1 10 = None
  /\ rating_row sample_db 1 1 = Some (Rating.mk 1 1 1 (17 # 2))
  /\ rateMovie ten_request sample_db
     = (mkResponse 500 (Message false "Server error"), sample_db)
  /\ rating_row (snd (rateMovie ten_request sample_db)) 1 1
     = Some (Rating.mk 1 1 1 (17 # 2)).
Proof. repeat split; vm_compute; reflexivity. Qed.

(** X22.  A rating in [0, 10] for a (user, movie) pair that already has a
    row never inserts a row: the table has as many rows, for the same
    pairs, as before, and at most one row per pair then and in every
    database that later requests lead to.  When the column can hold the
    rating (below 9.95) the response is 200 with the instance carrying the
    submitted value, and the pair's row holds the rating rounded to the
    nearest tenth.  From 9.95 on the column cannot hold it: the response is
    500 and the database is as it was. *)
Theorem rateMovie_rerating
    (req : request) (s : db) (u : User.t) (q : Q) (m : Movie.t)
    (existing : Rating.t) :
  user req = Some u ->
  rating (body req) = Some q ->
  (0 <= q)%Q -> (q <= 10)%Q ->
  movie_row s (params_id req) = Some m ->
  rating_row s (User.user_id u) (params_id req) = Some existing ->
  NoDup (rating_pairs s) ->
  let s' := snd (rateMovie req s) in
  List.length (ratings s') = List.length (ratings s)
  /\ rating_pairs s' = rating_pairs s
  /\ (forall s'', later s' s'' -> NoDup (rating_pairs s''))
  /\ match DECIMAL_2_1 q with
     | Some stored =>
         (q < 199 # 20)%Q
         /\ fst (rateMovie req s)
            = mkResponse 200
                (RatingData "Rating submitted successfully"
                            (with_rating q existing))
         /\ rating_row s' (User.user_id u) (params_id req)
            = Some (with_rating stored existing)
         /\ exists n : Z,
              0 <= n <= 99 /\ stored = Qred (n # 10)
              /\ (inject_Z n - (1 # 2) <= q * 10)%Q
              /\ (q * 10 < inject_Z n + (1 # 2))%Q
     | None =>
         (199 # 20 <= q)%Q
         /\ rateMovie req s
            = (mkResponse 500 (Message false "Server error"), s)
     end.
Proof.
  intros Hu Hq H0 H10 Hm Hex Hnd s'. subst s'.
  destruct (DECIMAL_2_1 q) as [stored |] eqn:Hd.
  - rewrite (rateMovie_existing req s u q stored m existing
               Hu Hq H0 H10 Hd Hm Hex).
    cbn [fst snd].
    assert (Hpairs : rating_pairs
                       (set_user_activity
                          (user_activity s
                             ++ [Activity.mk (User.user_id u) (params_id req)
                                             "rate"])
                          (set_ratings
                             (update_rating_rows existing stored (ratings s))
                             (next_rating_id s) s))
                     = rating_pairs s).
    { unfold rating_pairs. simpl. apply update_rating_rows_pairs. }
    split; [simpl; unfold update_rating_rows; apply length_map |].
    split; [exact Hpairs |].
    split.
    { intros s'' Hlater. apply (later_keeps_pairs_unique _ _ Hlater).
      now rewrite Hpairs. }
    split.
    { apply Qnot_le_lt. intros Hbig.
      apply (DECIMAL_2_1_overflow q H0) in Hbig. congruence. }
    split; [reflexivity |].
    split; [unfold rating_row; simpl; now apply update_rating_rows_find |].
    exact (DECIMAL_2_1_rounds q stored H0 Hd).
  - rewrite (rateMovie_unstorable req s u q m Hu Hq H0 H10 Hd Hm).
    cbn [fst snd].
    split; [reflexivity |]. split; [reflexivity |].
    split; [intros s'' Hlater; exact (later_keeps_pairs_unique _ _ Hlater Hnd) |].
    split; [now apply (DECIMAL_2_1_overflow q H0) | reflexivity].
Qed.

Lemma rateMovie_rerating_witness :
  (user (rerate_request (Some (29 # 4))) = Some alice
   /\ rating (body (rerate_request (Some (29 # 4)))) = Some (29 # 4)
   /\ (0 <= 29 # 4)%Q /\ (29 # 4 <= 10)%Q
   /\ movie_row sample_db 1
      = Some (Movie.mk 1 "Alien" None (Some (mkDate 1979 5 25)))
   /\ rating_row sample_db 1 1 = Some (Rating.mk 1 1 1 (17 # 2))
   /\ NoDup (rating_pairs sample_db))
  /\ List.length
       (ratings (snd (rateMovie (rerate_request (Some (29 # 4))) sample_db)))
     = 4%nat
  /\ rating_row (snd (rateMovie (rerate_request (Some (29 # 4))) sample_db)) 1 1
     = Some (Rating.mk 1 1 1 (73 # 10)).
Proof.
  assert (Hnd : NoDup (rating_pairs sample_db)).
  { unfold rating_pairs. simpl.
    repeat (constructor; [simpl; intuition discriminate |]). constructor. }
  assert (H0 : (0 <= 29 # 4)%Q) by discriminate.
  assert (H10 : (29 # 4 <= 10)%Q) by discriminate.
  split; [repeat split; trivial |].
  destruct (rateMovie_rerating (rerate_request (Some (29 # 4))) sample_db alice
              (29 # 4) (Movie.mk 1 "Alien" None (Some (mkDate 1979 5 25)))
              (Rating.mk 1 1 1 (17 # 2)) eq_refl eq_refl H0 H10 eq_refl
              eq_refl Hnd) as (Hlen & _ & _ & Hcase).
  split; [exact Hlen |].
  exact (proj1 (proj2 (proj2 Hcase))).
Defined.

(** ** getRecommendations: the fallback to the top-rated list *)

Lemma filter_none {A} (p : A -> bool) (l : list A) :
  (forall x, In x l -> p x = false) -> filter p l = [].
Proof.
  induction l as [| x l IH]; intros H; simpl; [reflexivity |].
  rewrite (H x (or_introl eq_refl)). apply IH.
  intros y Hy. apply H. now right.
Qed.

Lemma highly_rated_none (s : db) (uid : Z) :
  (forall r, In r (ratings s) -> Rating.user_id r = uid ->
             (Rating.rating r < 4)%Q) ->
  highly_rated_query uid s = (Next [], s).
Proof.
  intros Hlow. unfold highly_rated_query, gets.
  rewrite filter_none; [reflexivity |].
  intros r Hin. apply andb_false_iff.
  destruct (Rating.user_id r =? uid) eqn:E; [right | now left].
  apply Z.eqb_eq in E. specialize (Hlow r Hin E).
  destruct (Qleb 4 (Rating.rating r)) eqn:E4; [| reflexivity].
  apply Qleb_le in E4. exfalso. exact (Qlt_not_le _ _ Hlow E4).
Qed.

(** The top-rated handler reads nothing of the request but [limit]. *)
Lemma getTopRatedMovies_limit (req req' : request) (s : db) :
  limit (query req') = limit (query req) ->
  getTopRatedMovies req' s = getTopRatedMovies req s.
Proof.
  intros H. unfold getTopRatedMovies, getTopRatedMovies_body. now rewrite H.
Qed.

(** C5.  For a user none of whose ratings reaches 4, the recommendations
    handler produces exactly what the top-rated handler produces for a
    request with the same [limit] parameter: the same response, hence the
    same movie list, and the same (unchanged) database. *)
Theorem getRecommendations_fallback
    (req req' : request) (s : db) (u : User.t) :
  user req = Some u ->
  (forall r, In r (ratings s) -> Rating.user_id r = User.user_id u ->
             (Rating.rating r < 4)%Q) ->
  limit (query req') = limit (query req) ->
  getRecommendations req s = getTopRatedMovies req' s.
Proof.
  intros Hu Hlow Hlimit.
  rewrite (getTopRatedMovies_limit req req' s Hlimit).
  unfold getRecommendations, try_catch, getRecommendations_body,
    current_user_id, bind, ret.
  rewrite Hu. cbv beta iota zeta.
  rewrite (highly_rated_none s (User.user_id u) Hlow).
  rewrite (delegate_read_only _ _ (getTopRatedMovies_state req s)).
  rewrite <- (getTopRatedMovies_state req s) at 2.
  symmetry. apply surjective_pairing.
Qed.

Lemma getRecommendations_fallback_witness :
  (user carol_recommendations_request = Some carol
   /\ limit (query top_five_request)
      = limit (query carol_recommendations_request))
  /\ getRecommendations carol_recommendations_request sample_db
     = getTopRatedMovies top_five_request sample_db.
Proof.
  split; [split; reflexivity |].
  apply (getRecommendations_fallback carol_recommendations_request
           top_five_request sample_db carol); try reflexivity.
  intros r Hin Hid. simpl in Hin.
  destruct Hin as [<- | [<- | [<- | [<- | []]]]];
    try discriminate Hid; reflexivity.
Defined.

(** ** The relational toolkit *)

Section Sorting.

Context {A : Type} (le : A -> A -> bool).

Lemma insert_by_perm (x : A) (l : list A) :
  Permutation (insert_by le x l) (x :: l).
Proof.
  induction l as [| y l IH]; simpl; [reflexivity |].
  destruct (le x y); [reflexivity |].
  rewrite IH. apply perm_swap.
Qed.

Lemma sort_by_perm (l : list A) : Permutation (sort_by le l) l.
Proof.
  induction l as [| x l IH]; simpl; [reflexivity |].
  rewrite insert_by_perm. now constructor.
Qed.

Lemma sort_by_in (x : A) (l : list A) : In x (sort_by le l) <-> In x l.
Proof.
  split; apply Permutation_in;
    [apply sort_by_perm | symmetry; apply sort_by_perm].
Qed.

Lemma sort_by_length (l : list A) :
  List.length (sort_by le l) = List.length l.
Proof. apply Permutation_length, sort_by_perm. Qed.

Hypothesis le_total : forall a b, le a b = true \/ le b a = true.

Lemma insert_by_sorted (x : A) (l : list A) :
  Sorted (fun a b => le a b = true) l ->
  Sorted (fun a b => le a b = true) (insert_by le x l).
Proof.
  induction 1 as [| y l Hs IH Hhd]; simpl; [repeat constructor |].
  destruct (le x y) eqn:Hxy.
  - constructor; [now constructor | now constructor].
  - constructor; [exact IH |].
    assert (Hyx : le y x = true).
    { destruct (le_total x y) as [H | H]; [congruence | exact H]. }
    destruct Hhd as [| z l Hyz]; simpl; [now constructor |].
    destruct (le x z); now constructor.
Qed.

Lemma sort_by_sorted (l : list A) :
  Sorted (fun a b => le a b = true) (sort_by le l).
Proof.
  induction l as [| x l IH]; simpl; [constructor |].
  now apply insert_by_sorted.
Qed.

End Sorting.

Section Distinct.

Context {K : Type} (eqb : K -> K -> bool).
Hypothesis eqb_eq : forall x y, eqb x y = true <-> x = y.

Lemma distinct_in (x : K) (l : list K) : In x (distinct eqb l) <-> In x l.
Proof.
  induction l as [| y l IH]; simpl; [reflexivity |].
  rewrite filter_In, IH. split.
  - intros [H | [H _]]; auto.
  - intros [H | H]; [now left |].
    destruct (eqb y x) eqn:E; [left; now apply eqb_eq | right; now split].
Qed.

Lemma distinct_NoDup (l : list K) : NoDup (distinct eqb l).
Proof.
  induction l as [| y l IH]; simpl; constructor.
  - rewrite filter_In. intros [_ H].
    assert (E : eqb y y = true) by now apply eqb_eq.
    now rewrite E in H.
  - now apply NoDup_filter.
Qed.

End Distinct.

Lemma firstn_incl {A} (n : nat) (l : list A) : incl (firstn n l) l.
Proof.
  intros x Hx. rewrite <- (firstn_skipn n l). apply in_or_app. now left.
Qed.

Lemma skipn_incl {A} (n : nat) (l : list A) : incl (skipn n l) l.
Proof.
  intros x Hx. rewrite <- (firstn_skipn n l). apply in_or_app. now right.
Qed.

Lemma sql_limit_incl {A} (offset limit : Z) (l : list A) :
  incl (sql_limit offset limit l) l.
Proof.
  intros x Hx. unfold sql_limit in Hx.
  apply (skipn_incl (Z.to_nat offset)), (firstn_incl (Z.to_nat limit)), Hx.
Qed.

Lemma sql_limit_length {A} (offset limit : Z) (l : list A) :
  0 <= limit -> Z.of_nat (List.length (sql_limit offset limit l)) <= limit.
Proof.
  intros H. unfold sql_limit. rewrite length_firstn. lia.
Qed.

(** ** The order of strings *)

Lemma ascii_compare_refl (c : ascii) : Ascii.compare c c = Eq.
Proof. unfold Ascii.compare. apply N.compare_refl. Qed.

Lemma ascii_compare_lt_trans (a b c : ascii) :
  Ascii.compare a b = Lt -> Ascii.compare b c = Lt -> Ascii.compare a c = Lt.
Proof.
  unfold Ascii.compare. rewrite !N.compare_lt_iff. apply N.lt_trans.
Qed.

Lemma string_leb_trans (a b c : string) :
  String.leb a b = true -> String.leb b c = true -> String.leb a c = true.
Proof.
  unfold String.leb. revert b c.
  induction a as [| x a IH]; intros [| y b] [| z c]; simpl; try easy.
  destruct (Ascii.compare x y) eqn:Exy; try easy;
    destruct (Ascii.compare y z) eqn:Eyz; try easy.
  - apply Ascii.compare_eq_iff in Exy, Eyz. subst.
    rewrite ascii_compare_refl. apply IH.
  - apply Ascii.compare_eq_iff in Exy. subst. now rewrite Eyz.
  - apply Ascii.compare_eq_iff in Eyz. subst. now rewrite Exy.
  - now rewrite (ascii_compare_lt_trans x y z Exy Eyz).
Qed.

Lemma string_leb_neq_ltb (a b : string) :
  String.leb a b = true -> a <> b -> String.ltb a b = true.
Proof.
  unfold String.leb, String.ltb. intros Hle Hne.
  destruct (String.compare a b) eqn:E; try easy.
  now apply String.compare_eq_iff in E.
Qed.

(** ** getRatingDistribution: the ranges of the rollup *)

Lemma rating_range_of_in (q : Q) : In (rating_range_of q) rating_ranges.
Proof.
  unfold rating_range_of, rating_ranges.
  repeat match goal with
         | |- context [if ?b then _ else _] => destruct b
         end; simpl; tauto.
Qed.

Lemma rating_ranges_attained (label : string) :
  In label rating_ranges ->
  exists q, (0 <= q)%Q /\ (q <= 10)%Q /\ rating_range_of q = label.
Proof.
  unfold rating_ranges. simpl.
  intros [<- | [<- | [<- | [<- | [<- | [<- | [<- | [<- | [<- | []]]]]]]]]].
  - exists (9 # 1). now repeat split.
  - exists (8 # 1). now repeat split.
  - exists (7 # 1). now repeat split.
  - exists (6 # 1). now repeat split.
  - exists (5 # 1). now repeat split.
  - exists (4 # 1). now repeat split.
  - exists (3 # 1). now repeat split.
  - exists (2 # 1). now repeat split.
  - exists (1 # 1). now repeat split.
Qed.

Lemma rating_ranges_NoDup : NoDup rating_ranges.
Proof.
  unfold rating_ranges.
  repeat (constructor; [simpl; intuition discriminate |]). constructor.
Qed.

(** The CASE expression has nine values, so no list of ten distinct labels
    consists of values of it. *)
Lemma ten_ranges_fails : ~ ten_ranges.
Proof.
  intros (labels & Hlen & Hnd & Hiff).
  assert (Hincl : incl labels rating_ranges).
  { intros label Hin. apply Hiff in Hin as [q <-]. apply rating_range_of_in. }
  pose proof (NoDup_incl_length Hnd Hincl) as Hle.
  rewrite Hlen in Hle. simpl in Hle. lia.
Qed.

Lemma string_eqb_eq (x y : string) : String.eqb x y = true <-> x = y.
Proof. apply String.eqb_eq. Qed.

(** The groups before ORDER BY, one per label that occurs. *)
Lemma rating_distribution_in (s : db) (g : RangeCount) :
  In g (rating_distribution s)
  <-> exists r, In r (ratings s)
        /\ g = mkRangeCount (rating_range_of (Rating.rating r))
                 (SQL_COUNT
                    (ratings_in_range s (rating_range_of (Rating.rating r)))).
Proof.
  unfold rating_distribution, group_by. rewrite sort_by_in, map_map, in_map_iff.
  split.
  - intros (k & <- & Hk). apply (proj1 (distinct_in _ string_eqb_eq _ _)) in Hk.
    apply in_map_iff in Hk as (r & <- & Hr). now exists r.
  - intros (r & Hr & ->). exists (rating_range_of (Rating.rating r)).
    split; [reflexivity |].
    apply (proj2 (distinct_in _ string_eqb_eq _ _)), in_map_iff. now exists r.
Qed.

Lemma rating_distribution_labels_NoDup (s : db) :
  NoDup (map rating_range (rating_distribution s)).
Proof.
  unfold rating_distribution, group_by.
  eapply Permutation_NoDup.
  - symmetry. apply Permutation_map, sort_by_perm.
  - rewrite !map_map. simpl. rewrite map_id.
    apply (distinct_NoDup _ string_eqb_eq).
Qed.

Lemma sorted_distinct_labels (l : list RangeCount) :
  Sorted (fun a b => String.leb (rating_range b) (rating_range a) = true) l ->
  NoDup (map rating_range l) ->
  StronglySorted range_above l.
Proof.
  intros Hs Hnd.
  apply Sorted_StronglySorted in Hs;
    [| intros a b c Hab Hbc; exact (string_leb_trans _ _ _ Hbc Hab)].
  induction Hs as [| x l Hs IH Hall]; [constructor |].
  simpl in Hnd. apply NoDup_cons_iff in Hnd as [Hx Hnd].
  constructor; [now apply IH |].
  rewrite Forall_forall in *. intros y Hy. unfold range_above.
  apply string_leb_neq_ltb; [now apply Hall |].
  intros E. apply Hx. rewrite <- E. now apply in_map.
Qed.

Lemma rating_distribution_sorted (s : db) :
  StronglySorted range_above (rating_distribution s).
Proof.
  apply sorted_distinct_labels; [| apply rating_distribution_labels_NoDup].
  unfold rating_distribution.
  apply (sort_by_sorted
           (fun a b => String.leb (rating_range b) (rating_range a))).
  intros a b. apply String.leb_total.
Qed.

(** C6, amended.  The rollup has nine fixed ranges, from [0-1.9] up to
    [9-10]: the CASE expression sends every rating to one of nine distinct
    labels and each label is the range of some rating.  The handler returns
    one group per range that occurs among the ratings, with the number of
    ratings in it, and the groups are ordered strictly descending by range
    label. *)
Theorem getRatingDistribution_nine_ranges (req : request) (s : db) :
  List.length rating_ranges = 9%nat
  /\ NoDup rating_ranges
  /\ hd_error rating_ranges = Some "9-10"
  /\ last rating_ranges "" = "0-1.9"
  /\ (forall q, In (rating_range_of q) rating_ranges)
  /\ (forall label, In label rating_ranges ->
        exists q, rating_range_of q = label)
  /\ getRatingDistribution req s
     = (mkResponse 200 (RatingsData (rating_distribution s)), s)
  /\ (forall r, In r (ratings s) ->
        exists g, In g (rating_distribution s)
                  /\ rating_range g = rating_range_of (Rating.rating r))
  /\ (forall g, In g (rating_distribution s) ->
        In (rating_range g) rating_ranges
        /\ count g = Z.of_nat (List.length (ratings_in_range s (rating_range g)))
        /\ 1 <= count g)
  /\ StronglySorted range_above (rating_distribution s).
Proof.
  split; [reflexivity |].
  split; [apply rating_ranges_NoDup |].
  split; [reflexivity |].
  split; [reflexivity |].
  split; [apply rating_range_of_in |].
  split.
  { intros label Hin.
    destruct (rating_ranges_attained label Hin) as (q & _ & _ & Hq).
    now exists q. }
  split; [reflexivity |].
  split.
  { intros r Hr. eexists. split.
    - apply rating_distribution_in. exists r. split; [exact Hr | reflexivity].
    - reflexivity. }
  split; [| apply rating_distribution_sorted].
  intros g Hg. apply rating_distribution_in in Hg as (r & Hr & ->). simpl.
  split; [apply rating_range_of_in |].
  split; [reflexivity |].
  unfold SQL_COUNT.
  assert (Hin : In r (ratings_in_range s (rating_range_of (Rating.rating r)))).
  { unfold ratings_in_range. apply filter_In. split; [exact Hr |].
    apply String.eqb_refl. }
  destruct (ratings_in_range s (rating_range_of (Rating.rating r)));
    [contradiction | simpl; lia].
Qed.

(** ** getMovies: the page and its annotations *)

Lemma in_row_range (n : Z) :
  0 <= n <= MAX_SAFE_INTEGER -> out_of_row_range n = false.
Proof.
  unfold out_of_row_range, MAX_SAFE_INTEGER, max_row_count. intros [Hlo Hhi].
  apply orb_false_iff. split; [apply Z.ltb_ge | apply Z.ltb_ge]; lia.
Qed.

Lemma valid_page_in_range (page limit : Z) :
  valid_page page limit ->
  out_of_row_range limit = false
  /\ out_of_row_range ((page - 1) * limit) = false.
Proof.
  intros (Hp & [Hl Hmax] & Ho). split; apply in_row_range; nia.
Qed.

(** The response of the listing for a page the storage layer accepts. *)
Lemma getMovies_accepted (req : request) (s : db) :
  out_of_row_range (limit_of req) = false ->
  out_of_row_range ((page_of req - 1) * limit_of req) = false ->
  getMovies req s
  = (let movies :=
       match minRating (query req) with
       | Some threshold => filter (meets_minRating threshold) (fetched_page s req)
       | None => fetched_page s req
       end in
     let total :=
       match minRating (query req) with
       | Some _ => Z.of_nat (List.length movies)
       | None => listing_count s (query req)
       end in
     (mkResponse 200
        (MoviesPage movies
           (mkPagination (page_of req) (limit_of req) total
                         (ceil_div total (limit_of req)))), s)).
Proof.
  intros Hl Ho. unfold getMovies. apply try_catch_next.
  unfold getMovies_body, Movie_findAndCountAll, check_limit, bind, gets, ret.
  fold (page_of req). fold (limit_of req).
  now rewrite Hl, Ho.
Qed.

(** Whatever the request, the listed movies are instances of the fetched
    page. *)
Lemma getMovies_listed (req : request) (s : db) :
  incl (listed_movies (fst (getMovies req s))) (fetched_page s req).
Proof.
  unfold getMovies, try_catch, getMovies_body, Movie_findAndCountAll,
    check_limit, bind, gets, ret, throw.
  fold (page_of req). fold (limit_of req).
  destruct (out_of_row_range (limit_of req)); [intros x [] |].
  destruct (out_of_row_range ((page_of req - 1) * limit_of req));
    [intros x [] |].
  cbv beta iota zeta. cbn [fst snd listed_movies payload].
  fold (fetched_page s req).
  destruct (minRating (query req)); [| apply incl_refl].
  intros x Hx. now apply filter_In in Hx.
Qed.

Lemma build_instances_in (rows : list FlatRow) (x : MovieRow) :
  In x (build_instances rows) ->
  exists r, In r rows
    /\ mr_movie x = fr_movie r
    /\ avgRating x = fr_avgRating r
    /\ ratingCount x = fr_ratingCount r.
Proof.
  unfold build_instances, group_by. rewrite in_flat_map.
  intros (g & Hg & Hx). apply in_map_iff in Hg as (k & <- & _).
  cbn [snd] in Hx.
  destruct (filter _ rows) as [| r rest] eqn:Hf; [contradiction |].
  destruct Hx as [<- | []]. exists r. split; [| now repeat split].
  assert (Hin : In r (filter
                        (fun a => k =? Movie.movie_id (fr_movie a)) rows))
    by (rewrite Hf; now left).
  now apply filter_In in Hin.
Qed.

Lemma listing_rows_in (s : db) (q : Query) (r : FlatRow) :
  In r (listing_rows s q) ->
  In (fr_movie r) (movies s)
  /\ fr_avgRating r = avgRating_of s (fr_movie r)
  /\ fr_ratingCount r = ratingCount_of s (fr_movie r).
Proof.
  unfold listing_rows. rewrite in_flat_map. intros (m & Hm & Hr).
  apply filter_In in Hm as [Hm _].
  destruct (truthy (genre q));
    apply in_map_iff in Hr as (g & <- & _); now repeat split.
Qed.

Lemma listing_page_in (s : db) (q : Query) order limit offset (x : MovieRow) :
  In x (listing_page s q order limit offset) ->
  In (mr_movie x) (movies s)
  /\ avgRating x = avgRating_of s (mr_movie x)
  /\ ratingCount x = ratingCount_of s (mr_movie x).
Proof.
  unfold listing_page. intros Hx.
  apply build_instances_in in Hx as (r & Hr & -> & -> & ->).
  apply sql_limit_incl, sort_by_in in Hr. now apply listing_rows_in in Hr.
Qed.

Lemma SQL_AVG_mean (l : list Q) :
  l <> [] ->
  (COALESCE (SQL_AVG l) 0 == Qsum l / inject_Z (Z.of_nat (List.length l)))%Q.
Proof.
  destruct l as [| x l]; [congruence |]. intros _.
  unfold SQL_AVG, COALESCE. apply Qred_correct.
Qed.

(** C1.  Every movie in the response of the listing is annotated from its
    own rating rows, the rows of the ratings table with its [movie_id]:
    [ratingCount] is their number, and [avgRating] is 0 when there are none
    and otherwise their sum divided by their number. *)
Theorem getMovies_rating_annotations (req : request) (s : db) (row : MovieRow) :
  In row (listed_movies (fst (getMovies req s))) ->
  let rs := ratings_of s (Movie.movie_id (mr_movie row)) in
  (forall r, In r rs
     <-> In r (ratings s) /\ Rating.movie_id r = Movie.movie_id (mr_movie row))
  /\ ratingCount row = Z.of_nat (List.length rs)
  /\ (rs = [] -> avgRating row = 0%Q)
  /\ (rs <> [] ->
      (avgRating row
       == Qsum (map Rating.rating rs) / inject_Z (Z.of_nat (List.length rs)))%Q).
Proof.
  intros Hrow rs.
  apply getMovies_listed in Hrow. unfold fetched_page in Hrow.
  apply listing_page_in in Hrow as (_ & Havg & Hcount).
  split.
  { intros r. unfold rs, ratings_of. rewrite filter_In, Z.eqb_eq. tauto. }
  split; [exact Hcount |].
  split.
  - intros Hnil. rewrite Havg. unfold avgRating_of. fold rs. now rewrite Hnil.
  - intros Hne. rewrite Havg. unfold avgRating_of. fold rs.
    rewrite SQL_AVG_mean.
    + now rewrite length_map.
    + destruct rs; [congruence | discriminate].
Qed.

Lemma getMovies_rating_annotations_witness :
  In alien_row (listed_movies (fst (getMovies plain_listing_request sample_db)))
  /\ ratingCount alien_row = 2
  /\ (avgRating alien_row == ((17 # 2) + (9 # 1) + 0) / inject_Z 2)%Q.
Proof.
  assert (Hin : In alien_row
                  (listed_movies (fst (getMovies plain_listing_request sample_db))))
    by (vm_compute; left; reflexivity).
  split; [exact Hin |].
  destruct (getMovies_rating_annotations plain_listing_request sample_db
              alien_row Hin) as (_ & Hcount & _ & Havg).
  split; [exact Hcount |].
  apply Havg. discriminate.
Defined.

(** ** getMovies: pagination *)

(** [ceil_div a b] is the least number of pages of size [b] that hold [a]
    items. *)
Lemma ceil_div_spec (a b : Z) :
  0 < b -> (ceil_div a b - 1) * b < a <= ceil_div a b * b.
Proof.
  intros Hb. unfold ceil_div.
  set (x := (inject_Z a / inject_Z b)%Q).
  assert (HbQ : (inject_Z 0 < inject_Z b)%Q) by (rewrite <- Zlt_Qlt; exact Hb).
  change (inject_Z 0) with 0%Q in HbQ.
  assert (Hne : ~ (inject_Z b == 0)%Q).
  { intros E. rewrite E in HbQ. exact (Qlt_irrefl _ HbQ). }
  assert (Hx : (x * inject_Z b == inject_Z a)%Q).
  { unfold x. rewrite Qmult_comm. now apply Qmult_div_r. }
  split.
  - rewrite Zlt_Qlt, inject_Z_mult, <- Hx.
    apply Qmult_lt_compat_r; [exact HbQ | apply Qceiling_lt].
  - rewrite Zle_Qle, inject_Z_mult, <- Hx.
    apply Qmult_le_compat_r; [apply Qle_ceiling | now apply Qlt_le_weak].
Qed.

Lemma filter_length_le {A} (p : A -> bool) (l : list A) :
  (List.length (filter p l) <= List.length l)%nat.
Proof.
  induction l as [| x l IH]; simpl; [lia |].
  destruct (p x); simpl; lia.
Qed.

Lemma distinct_length_le {K} (eqb : K -> K -> bool) (l : list K) :
  (List.length (distinct eqb l) <= List.length l)%nat.
Proof.
  induction l as [| x l IH]; simpl; [lia |].
  pose proof (filter_length_le (fun y => negb (eqb x y)) (distinct eqb l)).
  lia.
Qed.

Lemma flat_map_length_le {A B} (f : A -> list B) (l : list A) :
  (forall x, List.length (f x) <= 1)%nat ->
  (List.length (flat_map f l) <= List.length l)%nat.
Proof.
  intros Hf. induction l as [| x l IH]; simpl; [lia |].
  rewrite length_app. specialize (Hf x). lia.
Qed.

(** The ORM builds at most one instance per flat row. *)
Lemma build_instances_length_le (rows : list FlatRow) :
  (List.length (build_instances rows) <= List.length rows)%nat.
Proof.
  unfold build_instances, group_by.
  etransitivity; [apply flat_map_length_le |].
  - intros g. destruct (snd g); simpl; lia.
  - rewrite length_map.
    etransitivity; [apply distinct_length_le | now rewrite length_map].
Qed.

Lemma fetched_page_length (s : db) (req : request) :
  0 <= limit_of req ->
  Z.of_nat (List.length (fetched_page s req)) <= limit_of req.
Proof.
  intros Hl. unfold fetched_page, listing_page.
  etransitivity; [apply Nat2Z.inj_le, build_instances_length_le |].
  now apply sql_limit_length.
Qed.

(** C7.  For a valid page and limit (a page number and a page size of at
    least 1 that, with their offset, are exact integers of the language,
    and so within what the storage layer takes as LIMIT and OFFSET) the
    listing answers 200 with at most [limit] movies, and [pages] is the
    ceiling of [total / limit]: the least number of pages of that size
    holding [total] items.  With a [minRating] filter the movies are the
    instances of the fetched page that pass the filter, and [total] is
    their number; without it the movies are the fetched page and [total] is
    the count of the storage layer. *)
Theorem getMovies_pagination (req : request) (s : db) :
  valid_page (page_of req) (limit_of req) ->
  exists movies pagination,
    getMovies req s = (mkResponse 200 (MoviesPage movies pagination), s)
    /\ pg_page pagination = page_of req
    /\ pg_limit pagination = limit_of req
    /\ Z.of_nat (List.length movies) <= limit_of req
    /\ pages pagination = ceil_div (total pagination) (limit_of req)
    /\ (pages pagination - 1) * limit_of req
         < total pagination <= pages pagination * limit_of req
    /\ match minRating (query req) with
       | Some threshold =>
           movies = filter (meets_minRating threshold) (fetched_page s req)
           /\ total pagination = Z.of_nat (List.length movies)
       | None =>
           movies = fetched_page s req
           /\ total pagination = listing_count s (query req)
       end.
Proof.
  intros Hvalid.
  destruct (valid_page_in_range _ _ Hvalid) as [Hlimit Hoffset].
  destruct Hvalid as (Hp & [Hl _] & _).
  rewrite (getMovies_accepted req s Hlimit Hoffset).
  cbv zeta.
  eexists. eexists. split; [reflexivity |]. cbn [pg_page pg_limit total pages].
  split; [reflexivity |].
  split; [reflexivity |].
  assert (Hpage : Z.of_nat (List.length (fetched_page s req)) <= limit_of req)
    by (apply fetched_page_length; lia).
  split.
  { destruct (minRating (query req)) as [threshold |]; [| exact Hpage].
    pose proof (filter_length_le (meets_minRating threshold) (fetched_page s req)).
    lia. }
  split; [reflexivity |].
  split; [apply ceil_div_spec; lia |].
  destruct (minRating (query req)); split; reflexivity.
Qed.

Lemma getMovies_pagination_witness :
  valid_page (page_of rated_listing_request) (limit_of rated_listing_request)
  /\ exists movies pagination,
       getMovies rated_listing_request sample_db
       = (mkResponse 200 (MoviesPage movies pagination), sample_db)
       /\ Z.of_nat (List.length movies) <= 1
       /\ total pagination = Z.of_nat (List.length movies)
       /\ (pages pagination - 1) * 1 < total pagination <= pages pagination * 1.
Proof.
  assert (Hvalid : valid_page (page_of rated_listing_request)
                               (limit_of rated_listing_request))
    by (repeat split; vm_compute; discriminate).
  split; [exact Hvalid |].
  destruct (getMovies_pagination rated_listing_request sample_db Hvalid)
    as (movies & pagination & Hresp & _ & _ & Hlen & _ & Hceil & Hmin).
  exists movies, pagination.
  split; [exact Hresp |].
  split; [exact Hlen |].
  split; [exact (proj2 Hmin) | exact Hceil].
Defined.

(** With a [minRating] filter, [total] counts the survivors of one page
    only: the sample database has three movies rated at least 2, and their
    first page of size one reports a total of 1. *)
Lemma getMovies_total_is_page_local :
  option_map total
    (listed_pagination (fst (getMovies rated_listing_request sample_db)))
  = Some 1
  /\ List.length
       (qualifying_movies sample_db (query rated_listing_request) (2 # 1))
     = 3%nat.
Proof. split; vm_compute; reflexivity. Qed.

(** ** updateReview and updateProfile: partial updates *)

Lemma js_or_string_update (supplied old : option string) :
  text_update supplied old (js_or_string supplied old).
Proof.
  destruct supplied as [[| c t] |]; simpl; constructor. discriminate.
Qed.

Lemma js_or_else_update (supplied : option string) (old : string) :
  text_update supplied (Some old) (Some (js_or_else supplied old)).
Proof.
  destruct supplied as [[| c t] |]; simpl; constructor. discriminate.
Qed.

(** An empty title in the request is not written: the stored title stays. *)
Lemma supplied_title_overwrites_fails : ~ supplied_title_overwrites.
Proof.
  intros H.
  specialize (H blank_title_request sample_db
                (Review.mk 1 1 1 (Some "Classic") "Still frightening." false)
                "" eq_refl eq_refl eq_refl).
  discriminate H.
Qed.

Lemma update_review_rows_find inst title content is_spoiler rows :
  find (fun r => Review.review_id r =? Review.review_id inst) rows = Some inst ->
  find (fun r => Review.review_id r =? Review.review_id inst)
       (update_review_rows inst title content is_spoiler rows)
  = Some (Review.mk (Review.review_id inst) (Review.user_id inst)
                    (Review.movie_id inst) title content is_spoiler).
Proof.
  intros Hfind. unfold update_review_rows.
  rewrite find_map_stable.
  - rewrite Hfind. simpl. now rewrite Z.eqb_refl.
  - intros r. cbv beta.
    destruct (Review.review_id r =? Review.review_id inst) eqn:E; simpl;
      rewrite ?E; reflexivity.
Qed.

(** A successful [updateReview] found the review and wrote the merged
    values. *)
Lemma updateReview_success (req : request) (s : db) (old : Review.t) :
  review_by_id s (params_id req) = Some old ->
  status (fst (updateReview req s)) = 200 ->
  snd (updateReview req s)
  = set_reviews
      (update_review_rows old
         (js_or_string (title (body req)) (Review.title old))
         (js_or_else (content (body req)) (Review.content old))
         (match is_spoiler (body req) with
          | Some b => b
          | None => Review.is_spoiler old
          end)
         (reviews s))
      (next_review_id s) s.
Proof.
  unfold review_by_id. intros Hold.
  unfold updateReview, try_catch, updateReview_body, Review_findByPk,
    current_user_id, Review_update, Review_findByPk_included,
    bind, gets, ret, throw, respond, modify.
  cbv beta iota zeta. rewrite Hold. cbv beta iota zeta.
  destruct (user req) as [u |]; cbv beta iota zeta; [| discriminate].
  destruct (negb _); cbv beta iota zeta; [discriminate |].
  destruct (_ && _); cbv beta iota zeta; [| discriminate].
  reflexivity.
Qed.

Lemma review_by_id_id s id r : review_by_id s id = Some r -> Review.review_id r = id.
Proof.
  unfold review_by_id. intros H. apply find_some in H as [_ H].
  now apply Z.eqb_eq.
Qed.

(** A successful [updateProfile] found the user and wrote the merged
    values. *)
Lemma updateProfile_success (req : request) (s : db) (u old : User.t) :
  user req = Some u ->
  user_row s (User.user_id u) = Some old ->
  status (fst (updateProfile req s)) = 200 ->
  snd (updateProfile req s)
  = set_users
      (update_user_rows old
         (with_profile
            (js_or_string (first_name (body req)) (User.first_name old))
            (js_or_string (last_name (body req)) (User.last_name old))
            (js_or_string (bio (body req)) (User.bio old)))
         (users s)) s.
Proof.
  unfold user_row. intros Hu Hold.
  unfold updateProfile, try_catch, updateProfile_body, User_findByPk,
    current_user_id, User_update_profile, User_save,
    bind, gets, ret, throw, respond, modify.
  rewrite Hu. cbv beta iota zeta. rewrite Hold. cbv beta iota zeta.
  destruct (_ && _); cbv beta iota zeta; [| discriminate].
  reflexivity.
Qed.

(** C9, amended.  A successful [updateReview] or [updateProfile] merges the
    request into the stored row field by field.  A text field supplied with
    a non-empty value overwrites the stored one; a text field that is absent
    or supplied empty keeps its previous value.  The spoiler flag of a
    review is overwritten by any supplied value and kept when absent.  The
    remaining columns of the row are unchanged. *)
Theorem partial_updates :
  (forall (req : request) (s : db) (old : Review.t),
     review_by_id s (params_id req) = Some old ->
     status (fst (updateReview req s)) = 200 ->
     exists new,
       review_by_id (snd (updateReview req s)) (params_id req) = Some new
       /\ text_update (title (body req)) (Review.title old) (Review.title new)
       /\ text_update (content (body req)) (Some (Review.content old))
                      (Some (Review.content new))
       /\ flag_update (is_spoiler (body req)) (Review.is_spoiler old)
                      (Review.is_spoiler new)
       /\ Review.review_id new = Review.review_id old
       /\ Review.user_id new = Review.user_id old
       /\ Review.movie_id new = Review.movie_id old)
  /\ (forall (req : request) (s : db) (u old : User.t),
        user req = Some u ->
        user_row s (User.user_id u) = Some old ->
        status (fst (updateProfile req s)) = 200 ->
        exists new,
          user_row (snd (updateProfile req s)) (User.user_id u) = Some new
          /\ text_update (first_name (body req)) (User.first_name old)
                         (User.first_name new)
          /\ text_update (last_name (body req)) (User.last_name old)
                         (User.last_name new)
          /\ text_update (bio (body req)) (User.bio old) (User.bio new)
          /\ User.user_id new = User.user_id old
          /\ User.username new = User.username old
          /\ User.email new = User.email old
          /\ User.profile_image_url new = User.profile_image_url old
          /\ User.is_active new = User.is_active old).
Proof.
  split.
  - intros req s old Hold Hok.
    rewrite (updateReview_success req s old Hold Hok).
    pose proof (review_by_id_id _ _ _ Hold) as Hid.
    eexists. split.
    + unfold review_by_id in *. cbn [reviews set_reviews].
      rewrite <- Hid in Hold |- *. now apply update_review_rows_find.
    + cbn. repeat split;
        try apply js_or_string_update; try apply js_or_else_update.
      destruct (is_spoiler (body req)); constructor.
  - intros req s u old Hu Hold Hok.
    rewrite (updateProfile_success req s u old Hu Hold Hok).
    pose proof (user_row_id _ _ _ Hold) as Hid.
    eexists. split.
    + unfold user_row in *. cbn [users set_users].
      rewrite update_user_rows_find by reflexivity.
      rewrite Hold. cbn [option_map]. now rewrite Hid, Z.eqb_refl.
    + cbn. repeat split; apply js_or_string_update.
Qed.

Lemma partial_updates_witness :
  (review_by_id sample_db (params_id retitle_request)
   = Some (Review.mk 1 1 1 (Some "Classic") "Still frightening." false)
   /\ status (fst (updateReview retitle_request sample_db)) = 200
   /\ user rename_request = Some alice
   /\ user_row sample_db (User.user_id alice) = Some alice
   /\ status (fst (updateProfile rename_request sample_db)) = 200)
  /\ (exists new,
        review_by_id (snd (updateReview retitle_request sample_db)) 1 = Some new
        /\ Review.title new = Some "A classic"
        /\ Review.content new = "Still frightening."
        /\ Review.is_spoiler new = true)
  /\ (exists new,
        user_row (snd (updateProfile rename_request sample_db)) 1 = Some new
        /\ User.first_name new = Some "Alice"
        /\ User.last_name new = Some "Smith"
        /\ User.bio new = Some "Film fan").
Proof.
  split; [repeat split; reflexivity |].
  split.
  - destruct (proj1 partial_updates retitle_request sample_db
                (Review.mk 1 1 1 (Some "Classic") "Still frightening." false)
                eq_refl eq_refl) as (new & Hnew & Ht & Hc & Hf & _).
    exists new. cbn in Ht, Hc, Hf.
    split; [exact Hnew |].
    split; [now inversion Ht |].
    split; [inversion Hc; congruence | now inversion Hf].
  - destruct (proj2 partial_updates rename_request sample_db alice alice
                eq_refl eq_refl eq_refl) as (new & Hnew & Hf & Hl & Hb & _).
    exists new. cbn in Hf, Hl, Hb.
    split; [exact Hnew |].
    split; [inversion Hf; congruence |].
    split; [now inversion Hl | inversion Hb; congruence].
Defined.

(** * Further properties of the handlers *)

(** ** rateMovie: the first rating of a pair, and what a request writes *)

Lemma find_app_none {A} (p : A -> bool) (l : list A) (x : A) :
  find p l = None -> p x = true -> find p (l ++ [x]) = Some x.
Proof.
  induction l as [| y l IH]; simpl; intros Hnone Hx.
  - now rewrite Hx.
  - destruct (p y); [discriminate | now apply IH].
Qed.

(** X1.  A rating in [0, 10] that the column can hold, for a pair without
    a row, inserts one: the response is 200 with the new instance, which
    carries the table's next id and the submitted value; the row goes to
    the end of the table with the value as the column stores it (rounded to
    the nearest tenth), the counter advances, one activity row is logged,
    and looking the pair up finds the new row. *)
Theorem rateMovie_first_rating
    (req : request) (s : db) (u : User.t) (q stored : Q) (m : Movie.t) :
  user req = Some u ->
  rating (body req) = Some q ->
  (0 <= q)%Q -> (q <= 10)%Q ->
  DECIMAL_2_1 q = Some stored ->
  movie_row s (params_id req) = Some m ->
  rating_row s (User.user_id u) (params_id req) = None ->
  let sent := Rating.mk (next_rating_id s) (User.user_id u) (params_id req) q in
  let row :=
    Rating.mk (next_rating_id s) (User.user_id u) (params_id req) stored in
  rateMovie req s
  = (mkResponse 200 (RatingData "Rating submitted successfully" sent),
     set_user_activity
       (user_activity s
          ++ [Activity.mk (User.user_id u) (params_id req) "rate"])
       (set_ratings (ratings s ++ [row]) (next_rating_id s + 1) s))
  /\ rating_row (snd (rateMovie req s)) (User.user_id u) (params_id req)
     = Some row
  /\ List.length (ratings (snd (rateMovie req s)))
     = S (List.length (ratings s))
  /\ exists n : Z,
       0 <= n <= 99 /\ stored = Qred (n # 10)
       /\ (inject_Z n - (1 # 2) <= q * 10)%Q
       /\ (q * 10 < inject_Z n + (1 # 2))%Q.
Proof.
  intros Hu Hq H0 H10 Hd Hm Hnone sent row.
  destruct (valid_rating_passes q H0 H10) as [Hcheck Hvalid].
  assert (E : rateMovie req s
              = (mkResponse 200 (RatingData "Rating submitted successfully" sent),
                 set_user_activity
                   (user_activity s
                      ++ [Activity.mk (User.user_id u) (params_id req) "rate"])
                   (set_ratings (ratings s ++ [row]) (next_rating_id s + 1) s))).
  { unfold rateMovie. apply try_catch_next.
    unfold rateMovie_body. rewrite Hq, Hcheck.
    unfold rateMovie_validated, Movie_findByPk, Rating_findOne, current_user_id.
    rewrite Hq, Hu. run_handler.
    unfold movie_row in Hm. rewrite Hm.
    unfold rating_row in Hnone. rewrite Hnone.
    unfold Rating_create, Rating_findOne. rewrite Hvalid. run_handler.
    rewrite Hnone, Hd. reflexivity. }
  rewrite E. cbn [fst snd]. split; [reflexivity |]. split; [| split].
  - unfold rating_row. cbn [ratings set_user_activity set_ratings].
    apply find_app_none; [exact Hnone |].
    subst row. simpl. now rewrite !Z.eqb_refl.
  - cbn [ratings set_user_activity set_ratings]. rewrite length_app. simpl. lia.
  - exact (DECIMAL_2_1_rounds q stored H0 Hd).
Qed.

Lemma rateMovie_first_rating_witness :
  (user (rate_request (Some (29 # 4))) = Some bob
   /\ rating (body (rate_request (Some (29 # 4)))) = Some (29 # 4)
   /\ (0 <= 29 # 4)%Q /\ (29 # 4 <= 10)%Q
   /\ DECIMAL_2_1 (29 # 4) = Some (73 # 10)
   /\ movie_row sample_db 2
      = Some (Movie.mk 2 "Brazil" None (Some (mkDate 1985 2 20)))
   /\ rating_row sample_db 2 2 = None)
  /\ rating_row (snd (rateMovie (rate_request (Some (29 # 4))) sample_db)) 2 2
     = Some (Rating.mk 5 2 2 (73 # 10))
  /\ List.length
       (ratings (snd (rateMovie (rate_request (Some (29 # 4))) sample_db)))
     = 5%nat.
Proof.
  assert (H0 : (0 <= 29 # 4)%Q) by discriminate.
  assert (H10 : (29 # 4 <= 10)%Q) by discriminate.
  split; [repeat split; trivial |].
  destruct (rateMovie_first_rating (rate_request (Some (29 # 4))) sample_db bob
              (29 # 4) (73 # 10)
              (Movie.mk 2 "Brazil" None (Some (mkDate 1985 2 20)))
              eq_refl eq_refl H0 H10 eq_refl eq_refl eq_refl)
    as (_ & Hrow & Hlen & _).
  split; [exact Hrow | exact Hlen].
Defined.

(** X2.  A request carrying a numeric rating is all or nothing.  Either it
    is answered with 200, and then a user is attached, the pair's row holds
    the submitted value as the column stores it, and exactly one activity
    row has been appended to the log; or it is answered with another status
    and the database is left as it was. *)
Theorem rateMovie_all_or_nothing (req : request) (s : db) (q : Q) :
  rating (body req) = Some q ->
  (status (fst (rateMovie req s)) = 200
   /\ exists u row,
        user req = Some u
        /\ rating_row (snd (rateMovie req s)) (User.user_id u) (params_id req)
           = Some row
        /\ DECIMAL_2_1 q = Some (Rating.rating row)
        /\ user_activity (snd (rateMovie req s))
           = user_activity s
               ++ [Activity.mk (User.user_id u) (params_id req) "rate"])
  \/ (status (fst (rateMovie req s)) <> 200 /\ snd (rateMovie req s) = s).
Proof.
  intros Hq.
  unfold rateMovie, try_catch, rateMovie_body. rewrite Hq.
  destruct (js_lt (Some q) 0 || js_gt (Some q) 10);
    [right; split; [discriminate | reflexivity] |].
  unfold rateMovie_validated, Movie_findByPk, Rating_findOne, current_user_id.
  rewrite Hq. run_handler.
  destruct (find _ (movies s));
    [| right; split; [discriminate | reflexivity]].
  destruct (user req) as [u |]; simpl;
    [| right; split; [discriminate | reflexivity]].
  destruct (find _ (ratings s)) as [existing |] eqn:Hfind; simpl.
  - destruct (Rating_validate q); simpl;
      [| right; split; [discriminate | reflexivity]].
    destruct (DECIMAL_2_1 q) as [stored |]; simpl;
      [| right; split; [discriminate | reflexivity]].
    left. split; [reflexivity |].
    exists u, (with_rating stored existing). split; [reflexivity |].
    split; [| split; reflexivity].
    unfold rating_row. simpl. now apply update_rating_rows_find.
  - unfold Rating_create, Rating_findOne.
    destruct (Rating_validate q); run_handler;
      [| right; split; [discriminate | reflexivity]].
    rewrite Hfind. simpl.
    destruct (DECIMAL_2_1 q) as [stored |]; simpl;
      [| right; split; [discriminate | reflexivity]].
    left. split; [reflexivity |].
    exists u,
      (Rating.mk (next_rating_id s) (User.user_id u) (params_id req) stored).
    split; [reflexivity |]. split; [| split; reflexivity].
    unfold rating_row. simpl. apply find_app_none; [exact Hfind |].
    simpl. now rewrite !Z.eqb_refl.
Qed.

Lemma rateMovie_all_or_nothing_witness :
  rating (body (rate_request (Some (29 # 4)))) = Some (29 # 4)
  /\ status (fst (rateMovie (rate_request (Some (29 # 4))) sample_db)) = 200
  /\ exists row,
       rating_row (snd (rateMovie (rate_request (Some (29 # 4))) sample_db)) 2 2
       = Some row
       /\ DECIMAL_2_1 (29 # 4) = Some (Rating.rating row)
       /\ Rating.rating row = 73 # 10.
Proof.
  split; [reflexivity |]. split; [reflexivity |].
  destruct (rateMovie_all_or_nothing (rate_request (Some (29 # 4))) sample_db
              (29 # 4) eq_refl)
    as [(_ & u & row & Hu & Hrow & Hstored & _) | (Hno & _)].
  - injection Hu as <-. exists row.
    split; [exact Hrow |]. split; [exact Hstored |].
    vm_compute in Hrow. injection Hrow as <-. reflexivity.
  - exfalso. apply Hno. reflexivity.
Defined.

(** X3.  Rating a movie that is not in the movies table, with a value in
    range, is answered with 404 "Movie not found" and writes nothing. *)
Theorem rateMovie_unknown_movie (req : request) (s : db) (q : Q) :
  rating (body req) = Some q ->
  (0 <= q)%Q -> (q <= 10)%Q ->
  movie_row s (params_id req) = None ->
  rateMovie req s = (mkResponse 404 (Message false "Movie not found"), s).
Proof.
  intros Hq H0 H10 Hm.
  destruct (valid_rating_passes q H0 H10) as [Hcheck _].
  unfold rateMovie. apply try_catch_returned.
  unfold rateMovie_body. rewrite Hq, Hcheck.
  unfold rateMovie_validated, Movie_findByPk. run_handler.
  unfold movie_row in Hm. now rewrite Hm.
Qed.

Lemma rateMovie_unknown_movie_witness :
  (rating (body unknown_movie_request) = Some (7 # 1)
   /\ (0 <= 7 # 1)%Q /\ (7 # 1 <= 10)%Q
   /\ movie_row sample_db (params_id unknown_movie_request) = None)
  /\ rateMovie unknown_movie_request sample_db
     = (mkResponse 404 (Message false "Movie not found"), sample_db).
Proof.
  assert (H0 : (0 <= 7 # 1)%Q) by discriminate.
  assert (H10 : (7 # 1 <= 10)%Q) by discriminate.
  split; [repeat split; trivial |].
  exact (rateMovie_unknown_movie unknown_movie_request sample_db (7 # 1)
           eq_refl H0 H10 eq_refl).
Defined.

(** ** createReview: creation, validation, and a second attempt *)

(** What a 201 from [createReview] means: the request named a movie and a
    content, a user was attached who had no review of the movie, and the
    new row went to the end of the table under the next id. *)
Lemma createReview_created (req : request) (s : db) :
  status (fst (createReview req s)) = 201 ->
  exists u mid c,
    user req = Some u
    /\ movie_id (body req) = Some mid
    /\ content (body req) = Some c
    /\ movie_row s mid <> None
    /\ review_row s (User.user_id u) mid = None
    /\ snd (createReview req s)
       = set_reviews
           (reviews s
              ++ [Review.mk (next_review_id s) (User.user_id u) mid
                            (title (body req)) c
                            (match is_spoiler (body req) with
                             | Some b => b
                             | None => false
                             end)])
           (next_review_id s + 1) s.
Proof.
  unfold createReview, try_catch, createReview_body, current_user_id,
    Review_findOne, Review_create, Review_findByPk_included,
    bind, gets, ret, throw, respond, modify, movie_row, review_row.
  cbv beta iota zeta.
  destruct (movie_id (body req)) as [mid |]; cbv beta iota zeta;
    [| discriminate].
  destruct (find _ (movies s)) eqn:Hm; cbv beta iota zeta; [| discriminate].
  destruct (user req) as [u |]; cbv beta iota zeta; [| discriminate].
  destruct (find _ (reviews s)) eqn:Hr; cbv beta iota zeta; [discriminate |].
  destruct (content (body req)) as [c |]; cbv beta iota zeta; [| discriminate].
  destruct (_ && _); cbv beta iota zeta; [| discriminate].
  intros _. exists u, mid, c. rewrite Hm, Hr.
  repeat split; try reflexivity. discriminate.
Qed.

(** X4.  After a [createReview] that answered 201 the table has one more
    row, the pair's review is found, and the same request sent again is
    answered 400 "You have already reviewed this movie" without another
    write. *)
Theorem createReview_then_again (req : request) (s : db) :
  status (fst (createReview req s)) = 201 ->
  let s1 := snd (createReview req s) in
  List.length (reviews s1) = S (List.length (reviews s))
  /\ (exists u mid row,
        user req = Some u /\ movie_id (body req) = Some mid
        /\ review_row s1 (User.user_id u) mid = Some row
        /\ Some (Review.content row) = content (body req)
        /\ Review.title row = title (body req))
  /\ createReview req s1
     = (mkResponse 400 (Message false "You have already reviewed this movie"),
        s1).
Proof.
  intros Hok s1.
  destruct (createReview_created req s Hok)
    as (u & mid & c & Hu & Hmid & Hc & Hm & Hnone & Hs1).
  subst s1. rewrite Hs1.
  set (row := Review.mk _ _ _ _ _ _).
  assert (Hrow : review_row (set_reviews (reviews s ++ [row])
                                         (next_review_id s + 1) s)
                            (User.user_id u) mid = Some row).
  { unfold review_row in *. cbn [reviews set_reviews].
    apply find_app_none; [exact Hnone |].
    subst row. simpl. now rewrite !Z.eqb_refl. }
  split; [cbn [reviews set_reviews]; rewrite length_app; simpl; lia |].
  split.
  { exists u, mid, row. repeat split; trivial. now rewrite Hc. }
  unfold createReview. apply try_catch_returned.
  unfold createReview_body, Review_findOne, current_user_id.
  rewrite Hmid, Hu. run_handler.
  unfold movie_row in Hm. destruct (find _ (movies s)); [| contradiction].
  unfold review_row in Hrow. cbn [reviews set_reviews] in Hrow |- *.
  now rewrite Hrow.
Qed.

Lemma createReview_then_again_witness :
  status (fst (createReview carol_review_request sample_db)) = 201
  /\ List.length (reviews (snd (createReview carol_review_request sample_db)))
     = 2%nat
  /\ createReview carol_review_request
       (snd (createReview carol_review_request sample_db))
     = (mkResponse 400 (Message false "You have already reviewed this movie"),
        snd (createReview carol_review_request sample_db)).
Proof.
  assert (Hok : status (fst (createReview carol_review_request sample_db)) = 201)
    by reflexivity.
  split; [exact Hok |].
  destruct (createReview_then_again carol_review_request sample_db Hok)
    as (Hlen & _ & Hagain).
  split; [exact Hlen | exact Hagain].
Defined.

(** The validators count characters, not bytes, and know the white space
    outside ASCII: a title of 200 accented letters (400 bytes) passes, one
    of 256 does not, and a content that is a no-break space is blank. *)
Lemma validators_read_characters :
  String.length (accented 200) = 400%nat
  /\ Review_validate_title (Some (accented 200)) = true
  /\ Review_validate_title (Some (accented 256)) = false
  /\ Review_validate_content (Some (accented 200)) = true
  /\ Review_validate_content (Some no_break_space) = false.
Proof. repeat split; vm_compute; reflexivity. Qed.

(** X5.  A review whose title or content fails the model's validators (a
    title of more than 255 characters; a content that is absent, made of
    white space only, or of more than 5000 characters) is not answered with
    400: the exception reaches the handler's own catch block, the response
    is 500 "Server error", and nothing is written. *)
Theorem createReview_invalid (req : request) (s : db) (u : User.t) (mid : Z)
    (m : Movie.t) :
  user req = Some u ->
  movie_id (body req) = Some mid ->
  movie_row s mid = Some m ->
  review_row s (User.user_id u) mid = None ->
  Review_validate_title (title (body req))
    && Review_validate_content (content (body req)) = false ->
  createReview req s = (mkResponse 500 (Message false "Server error"), s).
Proof.
  intros Hu Hmid Hm Hnone Hbad.
  unfold createReview. apply try_catch_thrown.
  unfold createReview_body, Review_findOne, current_user_id.
  rewrite Hmid, Hu. run_handler.
  unfold movie_row in Hm. rewrite Hm.
  unfold review_row in Hnone. rewrite Hnone.
  unfold Review_create.
  destruct (content (body req)) as [c |]; [| reflexivity].
  now rewrite Hbad.
Qed.

Lemma createReview_invalid_witness :
  (user blank_review_request = Some carol
   /\ movie_id (body blank_review_request) = Some 3
   /\ movie_row sample_db 3
      = Some (Movie.mk 3 "Casablanca" None (Some (mkDate 1942 11 26)))
   /\ review_row sample_db (User.user_id carol) 3 = None
   /\ Review_validate_title (title (body blank_review_request))
        && Review_validate_content (content (body blank_review_request))
      = false)
  /\ createReview blank_review_request sample_db
     = (mkResponse 500 (Message false "Server error"), sample_db).
Proof.
  split; [repeat split; reflexivity |].
  exact (createReview_invalid blank_review_request sample_db carol 3
           (Movie.mk 3 "Casablanca" None (Some (mkDate 1942 11 26)))
           eq_refl eq_refl eq_refl eq_refl eq_refl).
Defined.

(** ** updateReview and deleteReview: missing reviews and ownership *)

Lemma review_missing (req : request) (s : db) :
  review_by_id s (params_id req) = None ->
  updateReview req s = (mkResponse 404 (Message false "Review not found"), s)
  /\ deleteReview req s
     = (mkResponse 404 (Message false "Review not found"), s).
Proof.
  intros Hnone. unfold review_by_id in Hnone.
  split; [unfold updateReview, updateReview_body
         | unfold deleteReview, deleteReview_body];
    apply try_catch_returned; unfold Review_findByPk; run_handler;
    now rewrite Hnone.
Qed.

(** X6.  Editing or deleting a review that does not exist is answered 404,
    and editing or deleting a review of another user is answered 403; in
    all four cases the database is left as it was. *)
Theorem review_guards :
  (forall (req : request) (s : db),
     review_by_id s (params_id req) = None ->
     updateReview req s = (mkResponse 404 (Message false "Review not found"), s)
     /\ deleteReview req s
        = (mkResponse 404 (Message false "Review not found"), s))
  /\ (forall (req : request) (s : db) (u : User.t) (review : Review.t),
        review_by_id s (params_id req) = Some review ->
        user req = Some u ->
        Review.user_id review <> User.user_id u ->
        updateReview req s
        = (mkResponse 403 (Message false "Not authorized to update this review"),
           s)
        /\ deleteReview req s
           = (mkResponse 403
                (Message false "Not authorized to delete this review"), s)).
Proof.
  split.
  - exact review_missing.
  - intros req s u review Hfound Hu Hne. unfold review_by_id in Hfound.
    apply Z.eqb_neq in Hne.
    split; [unfold updateReview, updateReview_body
           | unfold deleteReview, deleteReview_body];
      apply try_catch_returned; unfold Review_findByPk, current_user_id;
      rewrite Hu; run_handler; rewrite Hfound; simpl; now rewrite Hne.
Qed.

Lemma review_guards_witness :
  (review_by_id sample_db (params_id bob_edits_review_request)
   = Some (Review.mk 1 1 1 (Some "Classic") "Still frightening." false)
   /\ user bob_edits_review_request = Some bob
   /\ 1 <> User.user_id bob)
  /\ updateReview bob_edits_review_request sample_db
     = (mkResponse 403 (Message false "Not authorized to update this review"),
        sample_db)
  /\ deleteReview bob_edits_review_request sample_db
     = (mkResponse 403 (Message false "Not authorized to delete this review"),
        sample_db).
Proof.
  assert (Hne : 1 <> User.user_id bob) by discriminate.
  split; [repeat split; trivial |].
  exact (proj2 review_guards bob_edits_review_request sample_db bob
           (Review.mk 1 1 1 (Some "Classic") "Still frightening." false)
           eq_refl eq_refl Hne).
Defined.

Lemma find_filter_other {A} (p keep : A -> bool) (l : list A) :
  (forall x, p x = true -> keep x = true) ->
  find p (filter keep l) = find p l.
Proof.
  intros H. induction l as [| x l IH]; simpl; [reflexivity |].
  destruct (keep x) eqn:Hk; simpl.
  - destruct (p x); [reflexivity | exact IH].
  - destruct (p x) eqn:Hp; [| exact IH].
    rewrite (H x Hp) in Hk. discriminate.
Qed.

Lemma find_filter_gone {A} (p keep : A -> bool) (l : list A) :
  (forall x, keep x = true -> p x = false) ->
  find p (filter keep l) = None.
Proof.
  intros H. induction l as [| x l IH]; simpl; [reflexivity |].
  destruct (keep x) eqn:Hk; simpl; [| exact IH].
  now rewrite (H x Hk).
Qed.

(** X7.  The owner's [deleteReview] is answered 200 and removes the review:
    the table loses exactly the rows with that id, the id is no longer
    found while every other id resolves as before, and editing or deleting
    the same id again is answered 404. *)
Theorem deleteReview_by_owner
    (req : request) (s : db) (u : User.t) (review : Review.t) :
  review_by_id s (params_id req) = Some review ->
  user req = Some u ->
  Review.user_id review = User.user_id u ->
  let s1 := snd (deleteReview req s) in
  fst (deleteReview req s)
    = mkResponse 200 (Message true "Review deleted successfully")
  /\ reviews s1
     = filter (fun r => negb (Review.review_id r =? params_id req)) (reviews s)
  /\ review_by_id s1 (params_id req) = None
  /\ (forall id, id <> params_id req -> review_by_id s1 id = review_by_id s id)
  /\ deleteReview req s1
     = (mkResponse 404 (Message false "Review not found"), s1)
  /\ updateReview req s1
     = (mkResponse 404 (Message false "Review not found"), s1).
Proof.
  intros Hfound Hu Hown s1.
  pose proof (review_by_id_id _ _ _ Hfound) as Hid.
  assert (E : deleteReview req s
              = (mkResponse 200 (Message true "Review deleted successfully"),
                 set_reviews
                   (filter (fun r => negb (Review.review_id r =? params_id req))
                           (reviews s))
                   (next_review_id s) s)).
  { unfold deleteReview. apply try_catch_next.
    unfold deleteReview_body, Review_findByPk, current_user_id, Review_destroy.
    rewrite Hu. run_handler.
    unfold review_by_id in Hfound. rewrite Hfound. simpl.
    rewrite Hown, Z.eqb_refl, Hid. reflexivity. }
  subst s1. rewrite E. cbn [fst snd].
  assert (Hgone : review_by_id
                    (set_reviews
                       (filter (fun r => negb (Review.review_id r =? params_id req))
                               (reviews s))
                       (next_review_id s) s) (params_id req) = None).
  { unfold review_by_id. cbn [reviews set_reviews]. apply find_filter_gone.
    intros r Hr. now apply negb_true_iff in Hr. }
  split; [reflexivity |].
  split; [reflexivity |].
  split; [exact Hgone |].
  split.
  { intros id Hne. unfold review_by_id. cbn [reviews set_reviews].
    apply find_filter_other. intros r Hr. apply Z.eqb_eq in Hr.
    apply negb_true_iff, Z.eqb_neq. congruence. }
  destruct (review_missing req _ Hgone) as [Hupd Hdel].
  split; [exact Hdel | exact Hupd].
Qed.

Lemma deleteReview_by_owner_witness :
  (review_by_id sample_db (params_id alice_review_request)
   = Some (Review.mk 1 1 1 (Some "Classic") "Still frightening." false)
   /\ user alice_review_request = Some alice
   /\ 1 = User.user_id alice)
  /\ fst (deleteReview alice_review_request sample_db)
     = mkResponse 200 (Message true "Review deleted successfully")
  /\ review_by_id (snd (deleteReview alice_review_request sample_db)) 1 = None.
Proof.
  split; [repeat split; reflexivity |].
  destruct (deleteReview_by_owner alice_review_request sample_db alice
              (Review.mk 1 1 1 (Some "Classic") "Still frightening." false)
              eq_refl eq_refl eq_refl) as (Hresp & _ & Hgone & _).
  split; [exact Hresp | exact Hgone].
Defined.

(** ** The auth middlewares *)

(** X8.  The auth middleware lets a request through exactly when its
    bearer token is non-empty and verifies to the key of a row of the users
    table that is active; the request passed on is the incoming one with
    that row attached as [req.user]. *)
Theorem auth_accepts_iff jwt_verify (req req' : request) (s : db) :
  auth jwt_verify req s = inr req'
  <-> exists tok u,
        bearer_token req = Some tok
        /\ tok <> ""
        /\ jwt_verify tok = Some (User.user_id u)
        /\ user_row s (User.user_id u) = Some u
        /\ User.is_active u = true
        /\ req' = with_user u req.
Proof.
  unfold auth, user_row. split.
  - destruct (bearer_token req) as [tok |]; simpl; [| discriminate].
    destruct tok as [| c tok]; simpl; [discriminate |].
    destruct (jwt_verify (String c tok)) as [id |] eqn:Hjwt; [| discriminate].
    destruct (find _ (users s)) as [u |] eqn:Hfind; [| discriminate].
    destruct (User.is_active u) eqn:Hact; simpl; [| discriminate].
    intros [= <-]. exists (String c tok), u.
    pose proof (find_some _ _ Hfind) as [_ Hid]. apply Z.eqb_eq in Hid.
    rewrite Hid. repeat split; trivial. discriminate.
  - intros (tok & u & Htok & Hne & Hjwt & Hrow & Hact & ->).
    rewrite Htok. destruct tok as [| c tok]; [contradiction |]. simpl.
    rewrite Hjwt, Hrow, Hact. reflexivity.
Qed.

(** Every rejection of the auth middleware is a 401 with [success: false]. *)
Lemma auth_rejects_401 jwt_verify (req : request) (s : db) (r : response) :
  auth jwt_verify req s = inl r ->
  status r = 401 /\ exists message, payload r = Message false message.
Proof.
  assert (Hdone : forall message,
            @inl response request (mkResponse 401 (Message false message))
              = inl r ->
            status r = 401
            /\ exists message, payload r = Message false message).
  { intros message [= <-]. split; [reflexivity | eexists; reflexivity]. }
  unfold auth.
  destruct (no_token (bearer_token req)); [apply Hdone |].
  destruct (bearer_token req) as [tok |]; [| apply Hdone].
  destruct (jwt_verify tok); [| apply Hdone].
  destruct (find _ (users s)) as [u |]; [| apply Hdone].
  destruct (negb (User.is_active u)); [apply Hdone | discriminate].
Qed.

Lemma split_on_no_separator (sep : ascii) (h : string) :
  (forall c, In c (list_ascii_of_string h) -> c <> sep) ->
  split_on sep h = [h].
Proof.
  induction h as [| c h IH]; intros Hno; simpl; [reflexivity |].
  destruct (Ascii.eqb c sep) eqn:E.
  - apply Ascii.eqb_eq in E. exfalso. apply (Hno c); [now left | exact E].
  - rewrite IH; [reflexivity |]. intros d Hd. apply Hno. now right.
Qed.

(** X9.  A request without an Authorization header, with a header that
    does not start with [Bearer], or with a header that contains no space,
    is rejected with 401 "Not authorized, no token" before the token
    library or the database is consulted: the answer is the same for every
    verifier and every database. *)
Theorem auth_no_token jwt_verify (req : request) (s : db) :
  (authorization req = None
   \/ (exists h, authorization req = Some h
                 /\ (String.prefix "Bearer" h = false
                     \/ forall c, In c (list_ascii_of_string h) -> c <> " "%char))) ->
  auth jwt_verify req s
  = inl (mkResponse 401 (Message false "Not authorized, no token")).
Proof.
  intros H.
  assert (Htok : bearer_token req = None).
  { unfold bearer_token. destruct H as [-> | (h & -> & [Hp | Hsp])]; trivial.
    - now rewrite Hp.
    - rewrite (split_on_no_separator _ _ Hsp).
      now destruct (String.prefix "Bearer" h). }
  unfold auth. now rewrite Htok.
Qed.

Lemma auth_no_token_witness :
  (authorization basic_auth_request = None
   \/ (exists h, authorization basic_auth_request = Some h
                 /\ (String.prefix "Bearer" h = false
                     \/ forall c, In c (list_ascii_of_string h) -> c <> " "%char)))
  /\ auth sample_jwt_verify basic_auth_request sample_db
     = inl (mkResponse 401 (Message false "Not authorized, no token")).
Proof.
  assert (H : authorization basic_auth_request = None
              \/ (exists h, authorization basic_auth_request = Some h
                   /\ (String.prefix "Bearer" h = false
                       \/ forall c, In c (list_ascii_of_string h)
                                    -> c <> " "%char))).
  { right. exists "Basic dXNlcjpwYXNz". split; [reflexivity |].
    left. reflexivity. }
  split; [exact H |].
  exact (auth_no_token sample_jwt_verify basic_auth_request sample_db H).
Defined.

(** X10.  The optional middleware does not look at [is_active].  After
    [deleteAccount], a request carrying a token of that user is still
    passed on with the user's row attached, now inactive, to the
    handlers behind it. *)
Theorem optionalAuth_after_deleteAccount jwt_verify
    (req req' : request) (s : db) (u row : User.t) (tok : string) :
  user req = Some u ->
  user_row s (User.user_id u) = Some row ->
  bearer_token req' = Some tok ->
  tok <> "" ->
  jwt_verify tok = Some (User.user_id u) ->
  optionalAuth jwt_verify req' (snd (deleteAccount req s))
  = with_user (with_is_active false row) req'
  /\ User.is_active (with_is_active false row) = false.
Proof.
  intros Hu Hrow Htok Hne Hjwt.
  rewrite (deleteAccount_existing req s u row Hu Hrow). cbn [snd].
  split; [| reflexivity].
  unfold optionalAuth. rewrite Htok.
  destruct tok as [| c tok]; [contradiction |]. cbn [no_token].
  rewrite Hjwt. cbn [users set_users].
  rewrite update_user_rows_find by reflexivity.
  unfold user_row in Hrow. rewrite Hrow. cbn [option_map].
  now rewrite Z.eqb_refl.
Qed.

Lemma optionalAuth_after_deleteAccount_witness :
  (user delete_request = Some bob
   /\ user_row sample_db (User.user_id bob) = Some bob
   /\ bearer_token bob_bearer_request = Some "token-of-bob"
   /\ "token-of-bob" <> ""
   /\ sample_jwt_verify "token-of-bob" = Some (User.user_id bob))
  /\ optionalAuth sample_jwt_verify bob_bearer_request
       (snd (deleteAccount delete_request sample_db))
     = with_user (with_is_active false bob) bob_bearer_request.
Proof.
  assert (Hne : "token-of-bob" <> "") by discriminate.
  split; [repeat split; trivial |].
  exact (proj1 (optionalAuth_after_deleteAccount sample_jwt_verify
                  delete_request bob_bearer_request sample_db bob bob
                  "token-of-bob" eq_refl eq_refl eq_refl Hne eq_refl)).
Defined.

(** ** getTopRatedMovies: the ranking *)

Lemma by_rating_desc_ranks (a b : AggRow) :
  by_rating_desc a b = true <-> ranks_before a b.
Proof.
  unfold by_rating_desc, ranks_before.
  rewrite orb_true_iff, andb_true_iff, Qltb_lt, Qeq_bool_iff, Z.leb_le.
  reflexivity.
Qed.

Lemma by_rating_desc_total (a b : AggRow) :
  by_rating_desc a b = true \/ by_rating_desc b a = true.
Proof.
  rewrite !by_rating_desc_ranks. unfold ranks_before.
  destruct (Q_dec (ag_avgRating a) (ag_avgRating b)) as [[Hlt | Hgt] | Heq].
  - right. now left.
  - left. now left.
  - destruct (Z.le_ge_cases (ag_ratingCount a) (ag_ratingCount b)).
    + right. right. split; [now symmetry | assumption].
    + left. right. now split.
Qed.

Lemma Sorted_tail {A} (R : A -> A -> Prop) (x : A) (l : list A) :
  Sorted R (x :: l) -> Sorted R l.
Proof. now inversion 1. Qed.

Lemma Sorted_skipn {A} (R : A -> A -> Prop) (n : nat) (l : list A) :
  Sorted R l -> Sorted R (skipn n l).
Proof.
  revert l. induction n as [| n IH]; intros l Hs; [exact Hs |].
  destruct l as [| x l]; [exact Hs |]. simpl. apply IH.
  now apply Sorted_tail in Hs.
Qed.

Lemma Sorted_firstn {A} (R : A -> A -> Prop) (n : nat) (l : list A) :
  Sorted R l -> Sorted R (firstn n l).
Proof.
  revert l. induction n as [| n IH]; intros l Hs; [constructor |].
  destruct l as [| x l]; [constructor |]. simpl.
  inversion Hs as [| ? ? Hl Hhd]; subst.
  constructor; [now apply IH |].
  destruct Hhd as [| y l Hxy]; [destruct n; constructor |].
  destruct n; simpl; now constructor.
Qed.

Lemma Sorted_sql_limit {A} (R : A -> A -> Prop) (offset limit : Z) (l : list A) :
  Sorted R l -> Sorted R (sql_limit offset limit l).
Proof. intros Hs. now apply Sorted_firstn, Sorted_skipn. Qed.

Lemma Sorted_filter {A} (R : A -> A -> Prop) (p : A -> bool) (l : list A) :
  (forall a b c, R a b -> R b c -> R a c) ->
  Sorted R l -> Sorted R (filter p l).
Proof.
  intros Htrans Hs.
  apply Sorted_StronglySorted in Hs; [| exact Htrans].
  apply StronglySorted_Sorted.
  induction Hs as [| x l Hs IH Hall]; simpl; [constructor |].
  destruct (p x); [| exact IH].
  constructor; [exact IH |].
  rewrite Forall_forall in *. intros y Hy. apply Hall.
  now apply filter_In in Hy.
Qed.

Lemma Sorted_impl {A} (R R' : A -> A -> Prop) (l : list A) :
  (forall a b, R a b -> R' a b) -> Sorted R l -> Sorted R' l.
Proof.
  intros H. induction 1 as [| x l Hs IH Hhd]; constructor; [exact IH |].
  destruct Hhd; constructor. now apply H.
Qed.

Lemma non_null_left_join {A B} (a : A) (bs : list B) :
  non_null (map snd (left_join a bs)) = bs.
Proof.
  destruct bs as [| b bs]; [reflexivity |].
  unfold left_join. rewrite map_map. cbn [snd].
  induction (b :: bs) as [| x l IH]; simpl; [reflexivity | now rewrite IH].
Qed.

Lemma left_join_fst {A B} (a : A) (bs : list B) (row : A * option B) :
  In row (left_join a bs) -> fst row = a.
Proof.
  destruct bs as [| b bs]; simpl.
  - now intros [<- | []].
  - intros [<- | H]; [reflexivity |].
    apply in_map_iff in H as (x & <- & _). reflexivity.
Qed.

Lemma left_join_nonempty {A B} (a : A) (bs : list B) : left_join a bs <> [].
Proof. destruct bs; discriminate. Qed.

(** With unique movie keys, the rows of [movies m LEFT JOIN ratings r] that
    carry a movie's key are the join rows of that movie. *)
Lemma joined_rows_of_movie (f : Movie.t -> list Rating.t)
    (ms : list Movie.t) (m : Movie.t) :
  NoDup (map Movie.movie_id ms) ->
  In m ms ->
  filter (fun row : Movie.t * option Rating.t =>
            Movie.movie_id m =? Movie.movie_id (fst row))
         (flat_map (fun m' => left_join m' (f m')) ms)
  = left_join m (f m).
Proof.
  induction ms as [| m0 ms IH]; intros Hnd Hin; [contradiction |].
  simpl in Hnd. apply NoDup_cons_iff in Hnd as [Hfresh Hnd].
  simpl. rewrite filter_app.
  destruct (Z.eq_dec (Movie.movie_id m0) (Movie.movie_id m)) as [E | E].
  - assert (m = m0).
    { destruct Hin as [-> | Hin]; [reflexivity |].
      exfalso. apply Hfresh. rewrite E. now apply in_map. }
    subst m0.
    rewrite forallb_filter_id; cycle 1.
    { apply forallb_forall. intros row Hrow.
      rewrite (left_join_fst _ _ _ Hrow). apply Z.eqb_refl. }
    rewrite filter_none; [apply app_nil_r |].
    intros row Hrow. apply in_flat_map in Hrow as (m' & Hm' & Hrow).
    rewrite (left_join_fst _ _ _ Hrow). apply Z.eqb_neq.
    intros E'. apply Hfresh. rewrite E'. now apply in_map.
  - destruct Hin as [-> | Hin]; [contradiction |].
    rewrite filter_none; [now apply IH |].
    intros row Hrow. rewrite (left_join_fst _ _ _ Hrow).
    apply Z.eqb_neq. congruence.
Qed.

Lemma aggregate_in (joined : list (Movie.t * option Rating.t)) (a : AggRow) :
  In a (aggregate joined) ->
  exists k m o rest,
    In k (map (fun row => Movie.movie_id (fst row)) joined)
    /\ filter (fun row => k =? Movie.movie_id (fst row)) joined = (m, o) :: rest
    /\ a = let rs := non_null (map snd ((m, o) :: rest)) in
           mkAggRow m (COALESCE (SQL_AVG (map Rating.rating rs)) 0)
                    (SQL_COUNT rs).
Proof.
  unfold aggregate, group_by. rewrite in_flat_map.
  intros (g & Hg & Ha). apply in_map_iff in Hg as (k & <- & Hk).
  apply (proj1 (distinct_in Z.eqb Z.eqb_eq _ _)) in Hk.
  cbn [snd] in Ha.
  destruct (filter _ joined) as [| [m o] rest] eqn:Hf; [contradiction |].
  destruct Ha as [<- | []]. now exists k, m, o, rest.
Qed.

(** With unique movie keys, each row of the top-rated aggregate is a movie
    of the table with the average and the count of its own ratings. *)
Lemma top_rated_aggregate_in (s : db) (a : AggRow) :
  movie_keys_unique s ->
  In a (aggregate
          (flat_map (fun m => left_join m (ratings_of s (Movie.movie_id m)))
                    (movies s))) ->
  In (ag_movie a) (movies s)
  /\ ag_avgRating a = avgRating_of s (ag_movie a)
  /\ ag_ratingCount a = ratingCount_of s (ag_movie a).
Proof.
  intros Hnd Ha.
  apply aggregate_in in Ha as (k & m & o & rest & Hk & Hf & ->).
  apply in_map_iff in Hk as (row & <- & Hrow).
  apply in_flat_map in Hrow as (m' & Hm' & Hrow).
  rewrite (left_join_fst _ _ _ Hrow) in Hf.
  rewrite (joined_rows_of_movie
             (fun m => ratings_of s (Movie.movie_id m)) _ m' Hnd Hm') in Hf.
  assert (Hm : m = m').
  { assert (Hhd : In (m, o) (left_join m' (ratings_of s (Movie.movie_id m'))))
      by (rewrite Hf; now left).
    exact (left_join_fst _ _ _ Hhd). }
  subst m'. cbv zeta. rewrite <- Hf, non_null_left_join.
  cbn [ag_movie ag_avgRating ag_ratingCount]. now repeat split.
Qed.

(** [toFixed] prints the digits of the floating-point number: 8.45 and
    9.95 lie just below the rationals they were read from and lose the
    half, 0.25 is exact and is rounded up. *)
Lemma toFixed1_of_halves :
  toFixed1 (169 # 20) = "8.4" /\ toFixed1 (199 # 20) = "9.9"
  /\ toFixed1 (1 # 4) = "0.3" /\ toFixed1 (17 # 2) = "8.5"
  /\ toFixed1 0 = "0.0".
Proof. repeat split; vm_compute; reflexivity. Qed.

(** X11.  With a limit that is an exact non-negative integer of the
    language and unique movie keys, the top-rated handler answers 200 with
    at most [limit] movies, each formatted from a row of the ranking: its
    average is printed by [toFixed(1)] from the floating-point number
    nearest to the mean.  The ranking is ordered by average rating
    descending and, among equal averages, by rating count descending; each
    of its rows is a movie of the table that has at least one rating and
    carries the mean and the number of that movie's ratings. *)
Theorem getTopRatedMovies_ranking (req : request) (s : db) :
  0 <= ranking_limit req <= MAX_SAFE_INTEGER ->
  movie_keys_unique s ->
  exists rows,
    getTopRatedMovies req s = (mkResponse 200 (MoviesData (map ranked rows)), s)
    /\ Z.of_nat (List.length rows) <= ranking_limit req
    /\ Sorted ranks_before rows
    /\ forall a, In a rows ->
         In (ag_movie a) (movies s)
         /\ ag_ratingCount a = ratingCount_of s (ag_movie a)
         /\ ag_avgRating a = avgRating_of s (ag_movie a)
         /\ rk_avgRating (ranked a) = toFixed1 (avgRating_of s (ag_movie a))
         /\ 1 <= ag_ratingCount a.
Proof.
  intros Hl Hnd.
  unfold getTopRatedMovies, try_catch, getTopRatedMovies_body, top_rated_query,
    check_limit, bind, gets, ret, throw.
  fold (ranking_limit req). cbv beta iota zeta.
  rewrite (in_row_range _ Hl).
  cbv beta iota zeta.
  eexists. split; [reflexivity |].
  split; [now apply sql_limit_length |].
  split.
  - apply Sorted_sql_limit.
    eapply Sorted_impl; [| apply (sort_by_sorted by_rating_desc),
                            by_rating_desc_total].
    intros a b. apply by_rating_desc_ranks.
  - intros a Ha. apply sql_limit_incl, sort_by_in, filter_In in Ha as [Ha Hc].
    apply Z.leb_le in Hc.
    destruct (top_rated_aggregate_in s a Hnd Ha) as (Hm & Havg & Hcount).
    repeat split; trivial. unfold ranked. cbn [rk_avgRating]. now rewrite Havg.
Qed.

Lemma getTopRatedMovies_ranking_witness :
  (0 <= ranking_limit top_five_request <= MAX_SAFE_INTEGER
   /\ movie_keys_unique sample_db)
  /\ exists rows,
       getTopRatedMovies top_five_request sample_db
       = (mkResponse 200 (MoviesData (map ranked rows)), sample_db)
       /\ Z.of_nat (List.length rows) <= 5
       /\ Sorted ranks_before rows.
Proof.
  assert (Hl : 0 <= ranking_limit top_five_request <= MAX_SAFE_INTEGER)
    by (split; vm_compute; discriminate).
  assert (Hnd : movie_keys_unique sample_db).
  { unfold movie_keys_unique. simpl.
    repeat (constructor; [simpl; intuition discriminate |]). constructor. }
  split; [split; assumption |].
  destruct (getTopRatedMovies_ranking top_five_request sample_db Hl Hnd)
    as (rows & Hresp & Hlen & Hsorted & _).
  exists rows. split; [exact Hresp |]. split; [exact Hlen | exact Hsorted].
Defined.

(** ** getMovies: the order of the page *)

Lemma date_leb_trans (a b c : date) :
  date_leb a b = true -> date_leb b c = true -> date_leb a c = true.
Proof.
  unfold date_leb.
  rewrite !orb_true_iff, !andb_true_iff, !orb_true_iff, !andb_true_iff,
    !Z.ltb_lt, !Z.eqb_eq, !Z.leb_le.
  lia.
Qed.

Lemma nullable_date_leb_trans (a b c : option date) :
  nullable_date_leb a b = true -> nullable_date_leb b c = true ->
  nullable_date_leb a c = true.
Proof.
  destruct a, b, c; simpl; try easy. apply date_leb_trans.
Qed.

Lemma column_leb_trans (col : order_column) (a b c : FlatRow) :
  column_leb col a b = true -> column_leb col b c = true ->
  column_leb col a c = true.
Proof.
  destruct col; simpl.
  - apply string_leb_trans.
  - apply nullable_date_leb_trans.
  - rewrite !Qleb_le. apply Qle_trans.
Qed.

Lemma order_leb_trans (o : order_column * direction) (a b c : FlatRow) :
  order_leb o a b = true -> order_leb o b c = true -> order_leb o a c = true.
Proof.
  unfold order_leb. destruct (snd o).
  - apply column_leb_trans.
  - intros Hab Hbc. exact (column_leb_trans _ _ _ _ Hbc Hab).
Qed.

Lemma column_leb_total (col : order_column) (a b : FlatRow) :
  column_leb col a b = true \/ column_leb col b a = true.
Proof.
  destruct col; simpl.
  - apply String.leb_total.
  - destruct (Movie.release_date (fr_movie a)) as [x |],
             (Movie.release_date (fr_movie b)) as [y |]; simpl; auto.
    unfold date_leb.
    rewrite !orb_true_iff, !andb_true_iff, !orb_true_iff, !andb_true_iff,
      !Z.ltb_lt, !Z.eqb_eq, !Z.leb_le.
    lia.
  - rewrite !Qleb_le. destruct (Qlt_le_dec (fr_avgRating a) (fr_avgRating b)).
    + left. now apply Qlt_le_weak.
    + now right.
Qed.

Lemma order_leb_total (o : order_column * direction) (a b : FlatRow) :
  order_leb o a b = true \/ order_leb o b a = true.
Proof.
  unfold order_leb. destruct (snd o); apply column_leb_total.
Qed.

(** ORDER BY reads the movie's columns and the average only. *)
Lemma order_leb_columns (o : order_column * direction) (a b a' b' : FlatRow) :
  fr_movie a = fr_movie a' -> fr_avgRating a = fr_avgRating a' ->
  fr_movie b = fr_movie b' -> fr_avgRating b = fr_avgRating b' ->
  order_leb o a b = order_leb o a' b'.
Proof.
  intros Ha1 Ha2 Hb1 Hb2. unfold order_leb, column_leb.
  now rewrite Ha1, Ha2, Hb1, Hb2.
Qed.

Lemma StronglySorted_filter {A} (R : A -> A -> Prop) (p : A -> bool) (l : list A) :
  StronglySorted R l -> StronglySorted R (filter p l).
Proof.
  induction 1 as [| x l Hs IH Hall]; simpl; [constructor |].
  destruct (p x); [| exact IH].
  constructor; [exact IH |].
  rewrite Forall_forall in *. intros y Hy. apply Hall.
  now apply filter_In in Hy.
Qed.

Lemma flat_map_filter_keys {K B} (f : K -> list B) (keep : K -> bool)
    (keep' : B -> bool) (keys : list K) :
  (forall k x, In x (f k) -> keep' x = keep k) ->
  flat_map f (filter keep keys) = filter keep' (flat_map f keys).
Proof.
  intros H. induction keys as [| k keys IH]; simpl; [reflexivity |].
  rewrite filter_app.
  destruct (keep k) eqn:Hk; simpl; rewrite IH.
  - rewrite (forallb_filter_id keep' (f k)); [reflexivity |].
    apply forallb_forall. intros x Hx. now rewrite (H k x Hx).
  - rewrite (filter_none keep' (f k)); [reflexivity |].
    intros x Hx. now rewrite (H k x Hx).
Qed.

Lemma flat_map_of_map {A B C} (f : B -> list C) (g : A -> B) (l : list A) :
  flat_map f (map g l) = flat_map (fun x => f (g x)) l.
Proof.
  induction l as [| x l IH]; simpl; [reflexivity | now rewrite IH].
Qed.

Lemma flat_map_ext_on {A B} (f g : A -> list B) (l : list A) :
  (forall x, In x l -> f x = g x) -> flat_map f l = flat_map g l.
Proof.
  induction l as [| x l IH]; intros H; simpl; [reflexivity |].
  rewrite (H x (or_introl eq_refl)), IH; [reflexivity |].
  intros y Hy. apply H. now right.
Qed.

(** Instance building, one flat row at a time: the first row opens its
    movie's instance, and the instances of the other movies are the ones
    built from the remaining rows. *)
Lemma build_instances_cons (r : FlatRow) (rest : list FlatRow) :
  exists gs,
    build_instances (r :: rest)
    = mkMovieRow (fr_movie r) gs (fr_avgRating r) (fr_ratingCount r)
      :: filter (fun x => negb (Movie.movie_id (fr_movie r)
                                =? Movie.movie_id (mr_movie x)))
                (build_instances rest).
Proof.
  unfold build_instances, group_by. rewrite !flat_map_of_map. cbn [snd].
  cbn [map distinct flat_map filter]. rewrite Z.eqb_refl.
  eexists. cbn [app]. f_equal.
  rewrite <- (flat_map_filter_keys _ 
                (fun y => negb (Movie.movie_id (fr_movie r) =? y))).
  - apply flat_map_ext_on. intros k Hk.
    apply filter_In in Hk as [_ Hk]. apply negb_true_iff in Hk.
    rewrite Z.eqb_sym in Hk. now rewrite Hk.
  - intros k x Hx.
    destruct (filter _ rest) as [| r' rest'] eqn:Hf; [contradiction |].
    destruct Hx as [<- | []]. cbn [mr_movie].
    assert (Hin : In r' (filter (fun a => k =? Movie.movie_id (fr_movie a)) rest))
      by (rewrite Hf; now left).
    apply filter_In in Hin as [_ Hin]. apply Z.eqb_eq in Hin. now rewrite Hin.
Qed.

Lemma build_instances_sorted (o : order_column * direction) (rows : list FlatRow) :
  StronglySorted (fun a b => order_leb o a b = true) rows ->
  StronglySorted (listed_in_order o) (build_instances rows).
Proof.
  induction 1 as [| r rest Hs IH Hall]; [constructor |].
  destruct (build_instances_cons r rest) as [gs ->].
  constructor; [now apply StronglySorted_filter |].
  rewrite Forall_forall in *. intros x Hx. apply filter_In in Hx as [Hx _].
  apply build_instances_in in Hx as (r' & Hr' & Hm & Ha & _).
  unfold listed_in_order.
  rewrite (order_leb_columns o _ _ r r'); try reflexivity; auto.
Qed.

Lemma StronglySorted_impl {A} (R R' : A -> A -> Prop) (l : list A) :
  (forall a b, R a b -> R' a b) -> StronglySorted R l -> StronglySorted R' l.
Proof.
  intros H. induction 1 as [| x l Hs IH Hall]; constructor; [exact IH |].
  rewrite Forall_forall in *. auto.
Qed.

Lemma fetched_page_sorted (s : db) (req : request) :
  StronglySorted
    (listed_in_order (orderClause (js_or_else (sort (query req)) "title-asc")))
    (fetched_page s req).
Proof.
  unfold fetched_page, listing_page. apply build_instances_sorted.
  apply Sorted_StronglySorted.
  - intros a b c. apply order_leb_trans.
  - apply Sorted_sql_limit, sort_by_sorted. apply order_leb_total.
Qed.

Lemma orderClause_fallback (key : string) :
  ~ In key sort_keys -> orderClause key = (by_title, ASC).
Proof.
  unfold sort_keys, orderClause. simpl. intros Hnot.
  repeat match goal with
         | |- context [String.eqb key ?k] =>
             destruct (String.eqb_spec key k) as [-> | _];
             [exfalso; apply Hnot; tauto |]
         end.
  reflexivity.
Qed.

(** X12.  Whatever the request, the movies of the listing's response stand
    in the order the [sort] parameter asks for.  In particular,
    [rating-desc] lists them by non-increasing average rating, and a
    missing, empty or unknown [sort] value lists them by title ascending
    (compared without regard to letter case). *)
Theorem getMovies_ordered (req : request) (s : db) :
  let listed := listed_movies (fst (getMovies req s)) in
  StronglySorted
    (listed_in_order (orderClause (js_or_else (sort (query req)) "title-asc")))
    listed
  /\ (sort (query req) = Some "rating-desc" ->
      StronglySorted (fun a b => (avgRating b <= avgRating a)%Q) listed)
  /\ ((sort (query req) = None
       \/ exists key, sort (query req) = Some key /\ ~ In key sort_keys) ->
      StronglySorted
        (fun a b => String.leb (lower_string (Movie.title (mr_movie a)))
                               (lower_string (Movie.title (mr_movie b)))
                    = true)
        listed).
Proof.
  intros listed.
  assert (Hsorted : StronglySorted
            (listed_in_order
               (orderClause (js_or_else (sort (query req)) "title-asc")))
            listed).
  { subst listed.
    unfold getMovies, try_catch, getMovies_body, Movie_findAndCountAll,
      check_limit, bind, gets, ret, throw.
    fold (page_of req). fold (limit_of req).
    destruct (out_of_row_range (limit_of req)); [constructor |].
    destruct (out_of_row_range ((page_of req - 1) * limit_of req));
      [constructor |].
    cbv beta iota zeta. cbn [fst snd listed_movies payload].
    fold (fetched_page s req).
    destruct (minRating (query req));
      [apply StronglySorted_filter |]; apply fetched_page_sorted. }
  split; [exact Hsorted |]. split.
  - intros Hsort. rewrite Hsort in Hsorted.
    eapply StronglySorted_impl; [| exact Hsorted].
    intros a b H. now apply Qleb_le in H.
  - intros Hsort.
    assert (Ho : orderClause (js_or_else (sort (query req)) "title-asc")
                 = (by_title, ASC)).
    { destruct Hsort as [-> | (key & -> & Hkey)]; [reflexivity |].
      destruct key as [| c key]; [reflexivity |].
      now apply orderClause_fallback. }
    rewrite Ho in Hsorted. exact Hsorted.
Qed.

(** ** getRecommendations: what is recommended *)

Lemma existsb_Zeqb_false (x : Z) (l : list Z) :
  existsb (Z.eqb x) l = false <-> ~ In x l.
Proof.
  split.
  - intros H Hin. assert (existsb (Z.eqb x) l = true); [| congruence].
    apply existsb_exists. exists x. split; [exact Hin | apply Z.eqb_refl].
  - intros H. destruct (existsb (Z.eqb x) l) eqn:E; [| reflexivity].
    apply existsb_exists in E as (y & Hy & Hxy).
    apply Z.eqb_eq in Hxy. subst y. contradiction.
Qed.

(** The rows of the recommendation query: movies of the table, linked
    through [movie_genres] to a genre of the given names, that the user has
    not rated; at most [limit] of them, in ranking order. *)
Lemma recommendations_query_rows (genreNames : list string) (userId limit : Z)
    (s s' : db) (rows : list AggRow) :
  recommendations_query genreNames userId limit s = (Next rows, s') ->
  s' = s
  /\ Z.of_nat (List.length rows) <= limit
  /\ Sorted ranks_before rows
  /\ forall a, In a rows ->
       In (ag_movie a) (movies s)
       /\ (forall r, In r (ratings s) -> Rating.user_id r = userId ->
                     Rating.movie_id r <> Movie.movie_id (ag_movie a))
       /\ exists mg g,
            In mg (movie_genres s) /\ In g (genres s)
            /\ MovieGenre.movie_id mg = Movie.movie_id (ag_movie a)
            /\ MovieGenre.genre_id mg = Genre.genre_id g
            /\ In (Genre.name g) genreNames.
Proof.
  unfold recommendations_query, check_limit, bind, gets, ret, throw.
  destruct (out_of_row_range limit) eqn:E; [discriminate |].
  apply orb_false_iff in E as [E _].
  apply Z.ltb_ge in E. cbv beta iota zeta. intros [= <- <-].
  split; [reflexivity |].
  split; [now apply sql_limit_length |].
  split.
  { apply Sorted_sql_limit.
    eapply Sorted_impl; [| apply (sort_by_sorted by_rating_desc),
                            by_rating_desc_total].
    intros a b. apply by_rating_desc_ranks. }
  intros a Ha. apply sql_limit_incl, sort_by_in in Ha.
  apply aggregate_in in Ha as (k & m & o & rest & _ & Hf & ->).
  cbv zeta. cbn [ag_movie].
  match type of Hf with
  | filter ?p ?l = _ =>
      assert (Hin : In (m, o) (filter p l)) by (rewrite Hf; now left)
  end.
  apply filter_In in Hin as [Hin _].
  apply in_flat_map in Hin as (m0 & Hm0 & Hin).
  apply in_flat_map in Hin as (mg & Hmg & Hin).
  apply in_flat_map in Hin as (g & Hg & Hin).
  apply filter_In in Hmg as [Hmg Hlink]. apply Z.eqb_eq in Hlink.
  apply filter_In in Hg as [Hg Hgid]. apply Z.eqb_eq in Hgid.
  destruct (existsb _ genreNames && negb _) eqn:Hcond; [| contradiction].
  apply andb_true_iff in Hcond as [Hname Hunrated].
  apply left_join_fst in Hin. cbn [fst] in Hin. subst m0.
  split; [exact Hm0 |]. split.
  - intros r Hr Hu Heq.
    apply negb_true_iff, existsb_Zeqb_false in Hunrated. apply Hunrated.
    rewrite <- Heq. apply in_map, filter_In. split; [exact Hr |].
    now apply Z.eqb_eq.
  - exists mg, g. repeat split; auto.
    apply existsb_exists in Hname as (n & Hn & Heq).
    apply String.eqb_eq in Heq. now rewrite Heq.
Qed.

(** X13.  For an attached user the recommendations handler never changes
    the database and answers in one of three ways: as the top-rated handler
    does for the same request (the fallbacks), with 500, or with 200 and at
    most [limit] movies in ranking order, each of which is a movie of the
    table that belongs to some genre and that the user has not rated. *)
Theorem getRecommendations_outcome (req : request) (s : db) (u : User.t) :
  user req = Some u ->
  getRecommendations req s = getTopRatedMovies req s
  \/ getRecommendations req s
     = (mkResponse 500 (Message false "Server error"), s)
  \/ exists rows,
       getRecommendations req s
       = (mkResponse 200 (MoviesData (map ranked rows)), s)
       /\ Z.of_nat (List.length rows) <= ranking_limit req
       /\ Sorted ranks_before rows
       /\ forall a, In a rows ->
            In (ag_movie a) (movies s)
            /\ (forall r, In r (ratings s) ->
                          Rating.user_id r = User.user_id u ->
                          Rating.movie_id r <> Movie.movie_id (ag_movie a))
            /\ exists mg g,
                 In mg (movie_genres s) /\ In g (genres s)
                 /\ MovieGenre.movie_id mg = Movie.movie_id (ag_movie a)
                 /\ MovieGenre.genre_id mg = Genre.genre_id g.
Proof.
  intros Hu.
  assert (Hfallback :
            (let (o, s') := @delegate response (getTopRatedMovies req) s in
             match o with
             | Next r | Returned r => (r, s')
             | Thrown => (mkResponse 500 (Message false "Server error"), s')
             end) = getTopRatedMovies req s).
  { rewrite (delegate_read_only _ _ (getTopRatedMovies_state req s)).
    rewrite <- (getTopRatedMovies_state req s) at 2.
    symmetry. apply surjective_pairing. }
  unfold getRecommendations, try_catch, getRecommendations_body,
    current_user_id, highly_rated_query, preferred_genres_query,
    bind, gets, ret.
  rewrite Hu. cbv beta iota zeta. fold (ranking_limit req).
  destruct (map _ (sql_limit 0 10 _)) as [| hr hrs]; cbv beta iota zeta.
  { left. exact Hfallback. }
  destruct (map fst _) as [| n names]; cbv beta iota zeta.
  { left. exact Hfallback. }
  destruct (recommendations_query (n :: names) (User.user_id u)
              (ranking_limit req) s) as [[rows | r |] s'] eqn:Hq.
  - destruct (recommendations_query_rows _ _ _ _ _ _ Hq)
      as (-> & Hlen & Hsorted & Hrows).
    right. right. exists rows. split; [reflexivity |].
    split; [exact Hlen |]. split; [exact Hsorted |].
    intros a Ha. destruct (Hrows a Ha) as (Hm & Hunrated & mg & g & H).
    split; [exact Hm |]. split; [exact Hunrated |].
    exists mg, g. tauto.
  - exfalso. revert Hq.
    unfold recommendations_query, check_limit, bind, gets, ret, throw.
    destruct (out_of_row_range _); discriminate.
  - right. left.
    assert (s' = s); [| now subst].
    revert Hq.
    unfold recommendations_query, check_limit, bind, gets, ret, throw.
    destruct (out_of_row_range _); [now intros [= <-] | discriminate].
Qed.

Lemma getRecommendations_outcome_witness :
  user (request_of (Some bob) 0 no_query no_body) = Some bob
  /\ exists rows,
       getRecommendations (request_of (Some bob) 0 no_query no_body) sample_db
       = (mkResponse 200 (MoviesData (map ranked rows)), sample_db)
       /\ forall a, In a rows ->
            forall r, In r (ratings sample_db) -> Rating.user_id r = 2 ->
                      Rating.movie_id r <> Movie.movie_id (ag_movie a).
Proof.
  split; [reflexivity |].
  destruct (getRecommendations_outcome (request_of (Some bob) 0 no_query no_body)
              sample_db bob eq_refl) as [H | [H | (rows & Hresp & _ & _ & Hrows)]].
  - exfalso. discriminate H.
  - exfalso. discriminate H.
  - exists rows. split; [exact Hresp |].
    intros a Ha. exact (proj1 (proj2 (Hrows a Ha))).
Defined.

(** ** GROUP BY partitions the rows *)

Section Partition.

Context {A K : Type} (eqb : K -> K -> bool) (key : A -> K).
Hypothesis eqb_eq : forall x y, eqb x y = true <-> x = y.

Lemma list_sum_split (F : K -> nat) (p : K -> bool) (keys : list K) :
  list_sum (map F keys)
  = (list_sum (map F (filter p keys))
     + list_sum (map F (filter (fun k => negb (p k)) keys)))%nat.
Proof.
  induction keys as [| k keys IH]; simpl; [reflexivity |].
  destruct (p k); simpl; lia.
Qed.

Lemma filter_key_NoDup (x : K) (keys : list K) :
  NoDup keys ->
  filter (eqb x) keys = if existsb (eqb x) keys then [x] else [].
Proof.
  induction 1 as [| k keys Hk Hnd IH]; simpl; [reflexivity |].
  destruct (eqb x k) eqn:E; simpl.
  - apply eqb_eq in E. subst k. rewrite IH.
    destruct (existsb (eqb x) keys) eqn:Ex; [| reflexivity].
    apply existsb_exists in Ex as (y & Hy & Hxy).
    apply eqb_eq in Hxy. subst y. contradiction.
  - exact IH.
Qed.

Lemma group_size_absent (l : list A) (k : K) :
  existsb (eqb k) (map key l) = false -> group_size eqb key l k = 0%nat.
Proof.
  intros H. unfold group_size. rewrite filter_none; [reflexivity |].
  intros a Ha. destruct (eqb k (key a)) eqn:E; [| reflexivity].
  assert (existsb (eqb k) (map key l) = true); [| congruence].
  apply existsb_exists. exists (key a). split; [now apply in_map | exact E].
Qed.

(** The sizes of the groups add up to the number of rows. *)
Lemma group_sizes_sum (l : list A) :
  list_sum (map (group_size eqb key l) (distinct eqb (map key l))) = List.length l.
Proof.
  induction l as [| x l IH]; [reflexivity |].
  cbn [map distinct list_sum].
  change (List.length (x :: l)) with (S (List.length l)).
  assert (Hself : eqb (key x) (key x) = true) by now apply eqb_eq.
  assert (Hhead : group_size eqb key (x :: l) (key x) = S (group_size eqb key l (key x))).
  { unfold group_size. simpl. now rewrite Hself. }
  assert (Hrest : map (group_size eqb key (x :: l))
                      (filter (fun y => negb (eqb (key x) y))
                              (distinct eqb (map key l)))
                  = map (group_size eqb key l)
                        (filter (fun y => negb (eqb (key x) y))
                                (distinct eqb (map key l)))).
  { apply map_ext_in. intros k Hk. apply filter_In in Hk as [_ Hk].
    apply negb_true_iff in Hk. unfold group_size. simpl.
    destruct (eqb k (key x)) eqn:E; [| reflexivity].
    apply eqb_eq in E. subst k. congruence. }
  rewrite Hhead, Hrest. cbn [list_sum]. rewrite <- IH.
  rewrite (list_sum_split (group_size eqb key l) (eqb (key x))
             (distinct eqb (map key l))).
  rewrite (filter_key_NoDup _ _ (distinct_NoDup eqb eqb_eq (map key l))).
  destruct (existsb (eqb (key x)) (distinct eqb (map key l))) eqn:Ex.
  - simpl. lia.
  - simpl. rewrite group_size_absent; [lia |].
    destruct (existsb (eqb (key x)) (map key l)) eqn:Ex'; [| reflexivity].
    apply existsb_exists in Ex' as (y & Hy & Hxy).
    apply (proj2 (distinct_in eqb eqb_eq _ _)) in Hy.
    assert (existsb (eqb (key x)) (distinct eqb (map key l)) = true);
      [| congruence].
    apply existsb_exists. now exists y.
Qed.

End Partition.

Lemma sum_counts_perm (l l' : list RangeCount) :
  Permutation l l' -> sum_counts l = sum_counts l'.
Proof.
  induction 1; simpl; lia.
Qed.

(** X14.  The counts of the rating rollup add up to the number of rows of
    the ratings table: every rating is counted in exactly one range. *)
Theorem rating_distribution_total (req : request) (s : db) :
  exists groups,
    getRatingDistribution req s = (mkResponse 200 (RatingsData groups), s)
    /\ sum_counts groups = Z.of_nat (List.length (ratings s)).
Proof.
  exists (rating_distribution s). split; [reflexivity |].
  unfold rating_distribution.
  rewrite (sum_counts_perm _ _ (sort_by_perm _ _)).
  rewrite <- (group_sizes_sum String.eqb
                (fun r => rating_range_of (Rating.rating r))
                string_eqb_eq (ratings s)).
  unfold group_by. rewrite map_map. cbn [fst snd].
  unfold sum_counts, list_sum.
  induction (distinct String.eqb _) as [| k keys IH]; [reflexivity |].
  cbn [map fold_right count]. rewrite IH. unfold SQL_COUNT, group_size. lia.
Qed.

(** ** getNewReleases *)

Ltac run_action :=
  unfold require_limit, acting_user_id;
  unfold guarded, and_then, pure, reply_with, raise, reads, writes;
  cbv beta iota zeta.

Lemma newReleasesOrder_default :
  newReleasesOrder (js_or_else None "year-desc") = (by_release_date, DESC).
Proof. reflexivity. Qed.

(** X15.  For a valid page and limit (at least 1 and, with their offset,
    exact integers of the language) the new-releases handler answers 200
    with at most [limit] movies.  Each is a movie of the table that has a
    release date, with its rating count and its average as [toFixed(1)]
    prints the floating-point number nearest to the mean.  [total] is the
    number of movies with
    a release date, whatever the page, and [pages] is the least number of
    pages holding them.  Without a [sort] parameter the movies are listed
    newest first. *)
Theorem getNewReleases_page (req : request) (s : db) :
  valid_page (page_of req) (limit_of req) ->
  exists listed pagination,
    getNewReleases req s = (mkReply 200 (RankedPage listed pagination), s)
    /\ Z.of_nat (List.length listed) <= limit_of req
    /\ (forall x, In x listed ->
          In (rk_movie x) (movies s)
          /\ Movie.release_date (rk_movie x) <> None
          /\ rk_ratingCount x = ratingCount_of s (rk_movie x)
          /\ rk_avgRating x = toFixed1 (avgRating_of s (rk_movie x)))
    /\ total pagination
       = Z.of_nat (List.length (filter has_release_date (movies s)))
    /\ (pages pagination - 1) * limit_of req
         < total pagination <= pages pagination * limit_of req
    /\ (sort (query req) = None ->
        StronglySorted
          (fun a b => nullable_date_leb (Movie.release_date (rk_movie b))
                                        (Movie.release_date (rk_movie a))
                      = true)
          listed).
Proof.
  intros Hvalid.
  destruct (valid_page_in_range _ _ Hvalid) as [E1 E2].
  destruct Hvalid as (Hp & [Hl _] & _).
  unfold getNewReleases, getNewReleases_body.
  fold (page_of req). fold (limit_of req). run_action.
  rewrite E1, E2.
  cbv beta iota zeta.
  eexists. eexists. split; [reflexivity |]. cbn [total pages].
  split; [rewrite length_map; apply sql_limit_length; lia |].
  split.
  { intros x Hx. apply in_map_iff in Hx as (r & <- & Hr).
    apply sql_limit_incl, sort_by_in in Hr.
    unfold release_rows in Hr. apply in_map_iff in Hr as (m & <- & Hm).
    apply filter_In in Hm as [Hm Hdate]. cbn.
    repeat split; trivial.
    unfold has_release_date in Hdate.
    destruct (Movie.release_date m); [discriminate | discriminate]. }
  split; [unfold SQL_COUNT, release_rows; now rewrite length_map |].
  split; [apply ceil_div_spec; lia |].
  intros Hsort. rewrite Hsort, newReleasesOrder_default.
  set (rows := sql_limit _ _ _).
  assert (Hrows : StronglySorted
                    (fun a b => order_leb (by_release_date, DESC) a b = true)
                    rows).
  { apply Sorted_StronglySorted.
    - intros a b c. apply order_leb_trans.
    - apply Sorted_sql_limit, sort_by_sorted. apply order_leb_total. }
  clearbody rows.
  induction Hrows as [| r rows Hs IH Hall]; simpl; constructor; [exact IH |].
  rewrite Forall_forall in *. intros x Hx.
  apply in_map_iff in Hx as (r' & <- & Hr'). exact (Hall r' Hr').
Qed.

Lemma getNewReleases_page_witness :
  valid_page (page_of second_page_request) (limit_of second_page_request)
  /\ exists movies pagination,
       getNewReleases second_page_request sample_db
       = (mkReply 200 (RankedPage movies pagination), sample_db)
       /\ Z.of_nat (List.length movies) <= 2
       /\ total pagination = 3.
Proof.
  assert (Hvalid : valid_page (page_of second_page_request)
                               (limit_of second_page_request))
    by (repeat split; vm_compute; discriminate).
  split; [exact Hvalid |].
  destruct (getNewReleases_page second_page_request sample_db Hvalid)
    as (movies & pagination & Hresp & Hlen & _ & Htotal & _).
  exists movies, pagination.
  split; [exact Hresp |]. split; [exact Hlen | exact Htotal].
Defined.

(** ** getMoviesByGenre *)

Lemma genre_join_in (s : db) (genre : string) (m : Movie.t) (g : Genre.t) :
  In (m, g) (genre_join s genre) ->
  In m (movies s)
  /\ In g (genres s)
  /\ lower_string (Genre.name g) = lower_string genre
  /\ exists mg,
       In mg (movie_genres s)
       /\ MovieGenre.movie_id mg = Movie.movie_id m
       /\ MovieGenre.genre_id mg = Genre.genre_id g.
Proof.
  unfold genre_join. rewrite in_flat_map. intros (m0 & Hm0 & Hin).
  apply in_flat_map in Hin as (mg & Hmg & Hin).
  apply in_map_iff in Hin as (g0 & [= <- <-] & Hg).
  apply filter_In in Hmg as [Hmg Hlink]. apply Z.eqb_eq in Hlink.
  apply filter_In in Hg as [Hg Hcond].
  apply andb_true_iff in Hcond as [Hgid Hname].
  apply Z.eqb_eq in Hgid. apply String.eqb_eq in Hname.
  repeat split; trivial. exists mg. now repeat split.
Qed.

(** X16.  For a valid page and limit (at least 1 and, with their offset,
    exact integers of the language) the by-genre handler answers 200 with
    at most [limit] movies in title order.  Each
    is a movie of the table linked through [movie_genres] to a genre whose
    whole name is the requested one up to letter case.  [total] is the
    number of rows of the movie–genre join for that name, and [pages] the
    least number of pages holding as many items. *)
Theorem getMoviesByGenre_page (genre : string) (req : request) (s : db) :
  valid_page (page_of req) (limit_of req) ->
  exists rows pagination,
    getMoviesByGenre genre req s
    = (mkReply 200 (RankedPage (map ranked rows) pagination), s)
    /\ Z.of_nat (List.length rows) <= limit_of req
    /\ (forall a, In a rows ->
          In (ag_movie a) (movies s)
          /\ exists mg g,
               In mg (movie_genres s) /\ In g (genres s)
               /\ MovieGenre.movie_id mg = Movie.movie_id (ag_movie a)
               /\ MovieGenre.genre_id mg = Genre.genre_id g
               /\ lower_string (Genre.name g) = lower_string genre)
    /\ Sorted (fun a b => by_title_asc a b = true) rows
    /\ total pagination = Z.of_nat (List.length (genre_join s genre))
    /\ (pages pagination - 1) * limit_of req
         < total pagination <= pages pagination * limit_of req.
Proof.
  intros Hvalid.
  destruct (valid_page_in_range _ _ Hvalid) as [E1 E2].
  destruct Hvalid as (Hp & [Hl _] & _).
  unfold getMoviesByGenre, getMoviesByGenre_body, movies_by_genre_query,
    genre_count_query.
  fold (page_of req). fold (limit_of req). run_action.
  rewrite E1, E2.
  cbv beta iota zeta.
  eexists. eexists. split; [reflexivity |]. cbn [total pages].
  split; [apply sql_limit_length; lia |].
  split.
  { intros a Ha. apply sql_limit_incl, sort_by_in in Ha.
    apply aggregate_in in Ha as (k & m & o & rest & _ & Hf & ->).
    cbv zeta. cbn [ag_movie].
    match type of Hf with
    | filter ?p ?l = _ =>
        assert (Hin : In (m, o) (filter p l)) by (rewrite Hf; now left)
    end.
    apply filter_In in Hin as [Hin _].
    apply in_flat_map in Hin as ([m0 g] & Hrow & Hin).
    apply left_join_fst in Hin. cbn [fst] in Hin. subst m0.
    apply genre_join_in in Hrow as (Hm & Hg & Hname & mg & Hmg & H1 & H2).
    split; [exact Hm |]. exists mg, g. now repeat split. }
  split.
  { apply Sorted_sql_limit, sort_by_sorted.
    intros a b. apply String.leb_total. }
  split; [reflexivity |].
  apply ceil_div_spec. lia.
Qed.

Lemma getMoviesByGenre_page_witness :
  valid_page (page_of plain_listing_request) (limit_of plain_listing_request)
  /\ exists rows pagination,
       getMoviesByGenre "drama" plain_listing_request sample_db
       = (mkReply 200 (RankedPage (map ranked rows) pagination), sample_db)
       /\ total pagination = 2.
Proof.
  assert (Hvalid : valid_page (page_of plain_listing_request)
                               (limit_of plain_listing_request))
    by (repeat split; vm_compute; discriminate).
  split; [exact Hvalid |].
  destruct (getMoviesByGenre_page "drama" plain_listing_request sample_db Hvalid)
    as (rows & pagination & Hresp & _ & _ & _ & Htotal & _).
  exists rows, pagination. split; [exact Hresp | exact Htotal].
Defined.

(** ** getGenreDistribution *)

Lemma genre_key_eqb_eq (a b : Z * string) : genre_key_eqb a b = true <-> a = b.
Proof.
  unfold genre_key_eqb. rewrite andb_true_iff, Z.eqb_eq, String.eqb_eq.
  destruct a, b; simpl. split; [intros [-> ->]; reflexivity | now intros [= -> ->]].
Qed.

Lemma non_null_all_none {A} (l : list (option A)) :
  (forall o, In o l -> o = None) -> non_null l = [].
Proof.
  induction l as [| o l IH]; intros H; [reflexivity |].
  rewrite (H o (or_introl eq_refl)). simpl. apply IH.
  intros o' Ho'. apply H. now right.
Qed.

(** The groups of the genre rollup before ORDER BY: one per genre key of
    the table. *)
Lemma genre_distribution_in (s : db) (row : GenreCount) :
  In row (genre_distribution s)
  <-> exists g,
        In g (genres s)
        /\ row = mkGenreCount (Genre.name g)
                   (SQL_COUNT
                      (non_null
                         (map snd
                            (filter
                               (fun r : Genre.t * option MovieGenre.t =>
                                  genre_key_eqb
                                    (Genre.genre_id g, Genre.name g)
                                    (Genre.genre_id (fst r), Genre.name (fst r)))
                               (flat_map
                                  (fun g' =>
                                     left_join g'
                                       (filter (fun mg => Genre.genre_id g'
                                                          =? MovieGenre.genre_id mg)
                                               (movie_genres s)))
                                  (genres s)))))).
Proof.
  unfold genre_distribution, group_by.
  rewrite sort_by_in, map_map, in_map_iff. cbn [fst snd]. split.
  - intros (k & <- & Hk).
    apply (proj1 (distinct_in genre_key_eqb genre_key_eqb_eq _ _)) in Hk.
    apply in_map_iff in Hk as ([g o] & <- & Hrow).
    apply in_flat_map in Hrow as (g' & Hg' & Hrow).
    apply left_join_fst in Hrow. cbn [fst] in *. subst g'.
    now exists g.
  - intros (g & Hg & ->). exists (Genre.genre_id g, Genre.name g).
    split; [reflexivity |].
    apply (proj2 (distinct_in genre_key_eqb genre_key_eqb_eq _ _)).
    apply in_map_iff.
    destruct (left_join g (filter (fun mg => Genre.genre_id g
                                             =? MovieGenre.genre_id mg)
                                  (movie_genres s))) as [| r rs] eqn:Hj;
      [now apply left_join_nonempty in Hj |].
    exists r.
    assert (Hr : In r (left_join g
                         (filter (fun mg => Genre.genre_id g
                                            =? MovieGenre.genre_id mg)
                                 (movie_genres s)))) by (rewrite Hj; now left).
    split; [now rewrite (left_join_fst _ _ _ Hr) |].
    apply in_flat_map. now exists g.
Qed.

(** X17.  The genre rollup answers 200 with the genres ordered by count
    descending.  Every genre of the table appears in it under its name, and
    a genre that no row of [movie_genres] refers to appears with count 0. *)
Theorem getGenreDistribution_complete (req : request) (s : db) :
  exists listed,
    getGenreDistribution req s = (mkReply 200 (GenresData listed), s)
    /\ Sorted (fun a b => gc_count b <= gc_count a) listed
    /\ (forall g, In g (genres s) ->
          exists row, In row listed /\ gc_name row = Genre.name g)
    /\ (forall g, In g (genres s) ->
          (forall mg, In mg (movie_genres s) ->
                      MovieGenre.genre_id mg <> Genre.genre_id g) ->
          In (mkGenreCount (Genre.name g) 0) listed).
Proof.
  exists (genre_distribution s). split; [reflexivity |].
  split.
  { unfold genre_distribution.
    eapply Sorted_impl;
      [| apply (sort_by_sorted (fun a b => gc_count b <=? gc_count a))].
    - intros a b H. now apply Z.leb_le.
    - intros a b. rewrite !Z.leb_le. lia. }
  split.
  { intros g Hg. eexists. split.
    - apply genre_distribution_in. exists g. split; [exact Hg | reflexivity].
    - reflexivity. }
  intros g Hg Hunused.
  apply genre_distribution_in. exists g. split; [exact Hg |].
  f_equal. rewrite non_null_all_none; [reflexivity |].
  intros o Ho. apply in_map_iff in Ho as ([g' o'] & <- & Hrow).
  apply filter_In in Hrow as [Hrow Hkey].
  apply genre_key_eqb_eq in Hkey. cbn [fst snd] in *.
  injection Hkey as Hid _.
  apply in_flat_map in Hrow as (g0 & Hg0 & Hrow).
  pose proof (left_join_fst _ _ _ Hrow) as E. cbn [fst] in E. subst g0.
  rewrite filter_none in Hrow.
  - simpl in Hrow. destruct Hrow as [Hrow | []].
    now injection Hrow as <-.
  - intros mg Hmg. apply Z.eqb_neq. intros E.
    apply (Hunused mg Hmg). congruence.
Qed.

(** ** The watchlist controller *)

(** What a 201 from [addToWatchlist] means. *)
Lemma addToWatchlist_created (req : request) (st : store) :
  reply_status (fst (addToWatchlist req st)) = 201 ->
  exists u mid,
    user req = Some u
    /\ movie_id (body req) = Some mid
    /\ movie_row (base st) mid <> None
    /\ watchlist_row st (User.user_id u) mid = None
    /\ snd (addToWatchlist req st)
       = set_watchlists
           (watchlists st
              ++ [Watchlist.mk (next_watchlist_id st) (User.user_id u) mid])
           (next_watchlist_id st + 1) st.
Proof.
  unfold addToWatchlist, addToWatchlist_body, Watchlist_create,
    Watchlist_findOne, Watchlist_findByPk_included, movie_row, watchlist_row.
  run_action.
  destruct (movie_id (body req)) as [mid |]; cbv beta iota zeta;
    [| discriminate].
  destruct (find _ (movies (base st))) eqn:Hm; cbv beta iota zeta;
    [| discriminate].
  destruct (user req) as [u |]; cbv beta iota zeta; [| discriminate].
  destruct (find _ (watchlists st)) eqn:Hw; cbv beta iota zeta;
    [discriminate |].
  rewrite Hw. cbv beta iota zeta.
  intros _. exists u, mid. rewrite Hm, Hw.
  repeat split; try reflexivity. discriminate.
Qed.

Lemma checkInWatchlist_reply (req : request) (st : store) (u : User.t) :
  user req = Some u ->
  checkInWatchlist req st
  = (mkReply 200
       (InWatchlistData
          (match watchlist_row st (User.user_id u) (params_id req) with
           | Some _ => true
           | None => false
           end)), st).
Proof.
  intros Hu.
  unfold checkInWatchlist, checkInWatchlist_body, Watchlist_findOne,
    watchlist_row, acting_user_id.
  rewrite Hu. reflexivity.
Qed.

(** X18.  After an [addToWatchlist] that answered 201 the table has one
    more row; [checkInWatchlist] by the same user for that movie reports
    true, [getMovieById] reports [isInWatchlist] true, and the same request
    sent again is answered 400 "Movie is already in your watchlist" without
    another write. *)
Theorem addToWatchlist_then (req check : request) (st : store) (mid : Z) :
  reply_status (fst (addToWatchlist req st)) = 201 ->
  movie_id (body req) = Some mid ->
  user check = user req ->
  params_id check = mid ->
  let st1 := snd (addToWatchlist req st) in
  List.length (watchlists st1) = S (List.length (watchlists st))
  /\ base st1 = base st
  /\ checkInWatchlist check st1 = (mkReply 200 (InWatchlistData true), st1)
  /\ (exists detail,
        getMovieById check st1 = (mkReply 200 (MovieData detail), st1)
        /\ isInWatchlist detail = true)
  /\ addToWatchlist req st1
     = (mkReply 400 (Plain false "Movie is already in your watchlist"), st1).
Proof.
  intros Hok Hmid Hsame Hparam st1.
  destruct (addToWatchlist_created req st Hok)
    as (u & mid' & Hu & Hmid' & Hm & Hnone & Hst1).
  rewrite Hmid in Hmid'. injection Hmid' as <-.
  subst st1. rewrite Hst1.
  set (row := Watchlist.mk _ _ _).
  set (st1 := set_watchlists _ _ _).
  assert (Hrow : watchlist_row st1 (User.user_id u) mid = Some row).
  { unfold watchlist_row in *. subst st1. cbn [watchlists set_watchlists].
    apply find_app_none; [exact Hnone |].
    subst row. simpl. now rewrite !Z.eqb_refl. }
  rewrite Hu in Hsame.
  split; [subst st1; cbn [watchlists set_watchlists]; rewrite length_app;
          simpl; lia |].
  split; [reflexivity |].
  split.
  { rewrite (checkInWatchlist_reply check st1 u Hsame), Hparam.
    now rewrite Hrow. }
  unfold movie_row in Hm.
  destruct (find (fun m => Movie.movie_id m =? mid) (movies (base st)))
    as [m |] eqn:Hfind; [| contradiction].
  pose proof (find_some _ _ Hfind) as [_ Hid]. apply Z.eqb_eq in Hid.
  split.
  { unfold getMovieById, getMovieById_body, Movie_findByPk_included,
      Watchlist_findOne.
    run_action. rewrite Hparam, Hsame.
    change (base st1) with (base st). rewrite Hfind. cbv beta iota zeta.
    rewrite Hid. unfold watchlist_row in Hrow. rewrite Hrow.
    eexists. split; reflexivity. }
  unfold addToWatchlist, addToWatchlist_body, Watchlist_findOne.
  run_action. rewrite Hmid, Hu.
  change (base st1) with (base st). rewrite Hfind. cbv beta iota zeta.
  unfold watchlist_row in Hrow. now rewrite Hrow.
Qed.

Lemma addToWatchlist_then_witness :
  (reply_status (fst (addToWatchlist bob_adds_request sample_store)) = 201
   /\ movie_id (body bob_adds_request) = Some 3
   /\ user bob_movie3_request = user bob_adds_request
   /\ params_id bob_movie3_request = 3)
  /\ checkInWatchlist bob_movie3_request
       (snd (addToWatchlist bob_adds_request sample_store))
     = (mkReply 200 (InWatchlistData true),
        snd (addToWatchlist bob_adds_request sample_store))
  /\ addToWatchlist bob_adds_request
       (snd (addToWatchlist bob_adds_request sample_store))
     = (mkReply 400 (Plain false "Movie is already in your watchlist"),
        snd (addToWatchlist bob_adds_request sample_store)).
Proof.
  split; [repeat split; reflexivity |].
  destruct (addToWatchlist_then bob_adds_request bob_movie3_request
              sample_store 3 eq_refl eq_refl eq_refl eq_refl)
    as (_ & _ & Hcheck & _ & Hagain).
  split; [exact Hcheck | exact Hagain].
Defined.

(** X19.  Adding a movie and removing it again is a round trip on the rows
    of the watchlists table, when the id counter is ahead of the ids in
    use: the removal is answered 200, the rows are the ones before the
    addition, the movie is reported as not in the watchlist, and a second
    removal is answered 404 "Movie not found in watchlist". *)
Theorem addToWatchlist_then_remove (req rm : request) (st : store) (mid : Z) :
  reply_status (fst (addToWatchlist req st)) = 201 ->
  movie_id (body req) = Some mid ->
  user rm = user req ->
  params_id rm = mid ->
  watchlist_counter_ahead st ->
  let st1 := snd (addToWatchlist req st) in
  let st2 := snd (removeFromWatchlist rm st1) in
  fst (removeFromWatchlist rm st1)
    = mkReply 200 (Plain true "Removed from watchlist successfully")
  /\ watchlists st2 = watchlists st
  /\ base st2 = base st
  /\ checkInWatchlist rm st2 = (mkReply 200 (InWatchlistData false), st2)
  /\ removeFromWatchlist rm st2
     = (mkReply 404 (Plain false "Movie not found in watchlist"), st2).
Proof.
  intros Hok Hmid Hsame Hparam Hahead st1 st2.
  destruct (addToWatchlist_created req st Hok)
    as (u & mid' & Hu & Hmid' & _ & Hnone & Hst1).
  rewrite Hmid in Hmid'. injection Hmid' as <-.
  rewrite Hu in Hsame.
  assert (Hrm : removeFromWatchlist rm st1
                = (mkReply 200 (Plain true "Removed from watchlist successfully"),
                   set_watchlists (watchlists st) (next_watchlist_id st + 1) st)).
  { subst st1. rewrite Hst1.
    unfold removeFromWatchlist, removeFromWatchlist_body, Watchlist_findOne,
      Watchlist_destroy.
    run_action. rewrite Hsame, Hparam. cbv beta iota zeta.
    cbn [watchlists set_watchlists next_watchlist_id base].
    unfold watchlist_row in Hnone.
    rewrite (find_app_none _ _ _ Hnone)
      by (simpl; now rewrite !Z.eqb_refl).
    cbv beta iota zeta. cbn [watchlists set_watchlists next_watchlist_id base
                              Watchlist.watchlist_id].
    unfold set_watchlists. cbn [base]. do 2 f_equal.
    rewrite filter_app. simpl. rewrite Z.eqb_refl. simpl.
    rewrite app_nil_r. apply forallb_filter_id, forallb_forall.
    intros w Hw. apply negb_true_iff, Z.eqb_neq.
    specialize (Hahead w Hw). lia. }
  subst st2. rewrite Hrm. cbn [fst snd].
  split; [reflexivity |]. split; [reflexivity |]. split; [reflexivity |].
  set (st2 := set_watchlists _ _ _).
  assert (Hgone : watchlist_row st2 (User.user_id u) mid = None) by exact Hnone.
  split.
  - rewrite (checkInWatchlist_reply rm st2 u Hsame), Hparam. now rewrite Hgone.
  - unfold removeFromWatchlist, removeFromWatchlist_body, Watchlist_findOne.
    run_action. rewrite Hsame, Hparam. cbv beta iota zeta.
    unfold watchlist_row in Hgone. now rewrite Hgone.
Qed.

Lemma addToWatchlist_then_remove_witness :
  (reply_status (fst (addToWatchlist bob_adds_request sample_store)) = 201
   /\ movie_id (body bob_adds_request) = Some 3
   /\ user bob_movie3_request = user bob_adds_request
   /\ params_id bob_movie3_request = 3
   /\ watchlist_counter_ahead sample_store)
  /\ watchlists
       (snd (removeFromWatchlist bob_movie3_request
               (snd (addToWatchlist bob_adds_request sample_store))))
     = watchlists sample_store.
Proof.
  assert (Hahead : watchlist_counter_ahead sample_store).
  { intros w [<- | []]. reflexivity. }
  split; [repeat split; trivial |].
  exact (proj1 (proj2 (addToWatchlist_then_remove bob_adds_request
                         bob_movie3_request sample_store 3
                         eq_refl eq_refl eq_refl eq_refl Hahead))).
Defined.

(** ** getMovieById after a rating *)

(** What a 200 from [rateMovie] for a numeric rating leaves behind. *)
Lemma rateMovie_success_facts (req : request) (s : db) (q : Q) :
  rating (body req) = Some q ->
  status (fst (rateMovie req s)) = 200 ->
  exists u m row,
    user req = Some u
    /\ movie_row s (params_id req) = Some m
    /\ movies (snd (rateMovie req s)) = movies s
    /\ movie_genres (snd (rateMovie req s)) = movie_genres s
    /\ genres (snd (rateMovie req s)) = genres s
    /\ rating_row (snd (rateMovie req s)) (User.user_id u) (params_id req)
       = Some row
    /\ DECIMAL_2_1 q = Some (Rating.rating row).
Proof.
  intros Hq.
  unfold rateMovie, try_catch, rateMovie_body. rewrite Hq.
  destruct (js_lt (Some q) 0 || js_gt (Some q) 10); [discriminate |].
  unfold rateMovie_validated, Movie_findByPk, Rating_findOne, current_user_id,
    movie_row.
  rewrite Hq. run_handler.
  destruct (find _ (movies s)) as [m |]; [| discriminate].
  destruct (user req) as [u |]; simpl; [| discriminate].
  destruct (find _ (ratings s)) as [existing |] eqn:Hfind; simpl.
  - destruct (Rating_validate q); simpl; [| discriminate].
    destruct (DECIMAL_2_1 q) as [stored |]; simpl; [| discriminate].
    intros _. exists u, m, (with_rating stored existing).
    repeat split; try reflexivity.
    unfold rating_row. simpl. now apply update_rating_rows_find.
  - unfold Rating_create, Rating_findOne.
    destruct (Rating_validate q); run_handler; [| discriminate].
    rewrite Hfind. simpl.
    destruct (DECIMAL_2_1 q) as [stored |]; simpl; [| discriminate].
    intros _.
    exists u, m,
      (Rating.mk (next_rating_id s) (User.user_id u) (params_id req) stored).
    repeat split; try reflexivity.
    unfold rating_row. simpl. apply find_app_none; [exact Hfind |].
    simpl. now rewrite !Z.eqb_refl.
Qed.

(** X20.  After a [rateMovie] that answered 200 for a numeric rating,
    [getMovieById] by the same user for the same movie answers 200 with
    [userRating] equal to the value the column stored (the submitted one
    rounded to the nearest tenth) and a rating count of at least 1, and
    leaves the store as it is. *)
Theorem getMovieById_after_rating
    (req view : request) (s : db) (q : Q) (w : list Watchlist.t) (n : Z) :
  rating (body req) = Some q ->
  status (fst (rateMovie req s)) = 200 ->
  user view = user req ->
  params_id view = params_id req ->
  let st := mkStore (snd (rateMovie req s)) w n in
  exists detail,
    getMovieById view st = (mkReply 200 (MovieData detail), st)
    /\ Movie.movie_id (md_movie detail) = params_id req
    /\ userRating detail = DECIMAL_2_1 q
    /\ userRating detail <> None
    /\ 1 <= md_ratingCount detail.
Proof.
  intros Hq Hok Huser Hparam st.
  destruct (rateMovie_success_facts req s q Hq Hok)
    as (u & m & row & Hu & Hm & Hmovies & _ & _ & Hrow & Hval).
  rewrite Hu in Huser.
  pose proof (find_some _ _ Hm) as [_ Hid]. apply Z.eqb_eq in Hid.
  unfold getMovieById, getMovieById_body, Movie_findByPk_included,
    Watchlist_findOne.
  run_action. rewrite Hparam, Huser. subst st. cbn [base watchlists].
  rewrite Hmovies. unfold movie_row in Hm. rewrite Hm. cbv beta iota zeta.
  cbn [base watchlists fst snd].
  rewrite Hid. unfold rating_row in Hrow. rewrite Hrow.
  eexists. split; [reflexivity |]. cbn.
  split; [exact Hid |]. split; [now rewrite Hval |]. split; [discriminate |].
  unfold ratingCount_of, SQL_COUNT, ratings_of. rewrite Hid.
  pose proof (find_some _ _ Hrow) as [Hin Hpair].
  apply andb_true_iff in Hpair as [_ Hmid].
  assert (Hin' : In row (filter (fun r => Rating.movie_id r =? params_id req)
                                (ratings (snd (rateMovie req s)))))
    by (apply filter_In; now split).
  destruct (filter _ (ratings (snd (rateMovie req s))));
    [contradiction | simpl; lia].
Qed.

Lemma getMovieById_after_rating_witness :
  (rating (body (rate_request (Some (29 # 4)))) = Some (29 # 4)
   /\ status (fst (rateMovie (rate_request (Some (29 # 4))) sample_db)) = 200
   /\ user bob_movie2_request = user (rate_request (Some (29 # 4)))
   /\ params_id bob_movie2_request = params_id (rate_request (Some (29 # 4))))
  /\ exists detail,
       getMovieById bob_movie2_request
         (mkStore (snd (rateMovie (rate_request (Some (29 # 4))) sample_db)) [] 1)
       = (mkReply 200 (MovieData detail),
          mkStore (snd (rateMovie (rate_request (Some (29 # 4))) sample_db)) [] 1)
       /\ userRating detail = Some (73 # 10).
Proof.
  split; [repeat split; reflexivity |].
  destruct (getMovieById_after_rating (rate_request (Some (29 # 4)))
              bob_movie2_request sample_db (29 # 4) [] 1
              eq_refl eq_refl eq_refl eq_refl)
    as (detail & Hresp & _ & Hrating & _).
  exists detail. split; [exact Hresp | exact Hrating].
Defined.

(** ** What the watchlist handlers never do *)

(** X21.  The watchlist handlers write only when they report success.  An
    [addToWatchlist] answered with anything but 201 and a
    [removeFromWatchlist] answered with anything but 200 leave the store as
    it was, and [checkInWatchlist] never changes it.  No handler of the
    three touches the movie database behind the watchlists. *)
Theorem watchlist_writes_only_on_success (req : request) (st : store) :
  (reply_status (fst (addToWatchlist req st)) <> 201
   -> snd (addToWatchlist req st) = st)
  /\ (reply_status (fst (removeFromWatchlist req st)) <> 200
      -> snd (removeFromWatchlist req st) = st)
  /\ snd (checkInWatchlist req st) = st
  /\ base (snd (addToWatchlist req st)) = base st
  /\ base (snd (removeFromWatchlist req st)) = base st.
Proof.
  assert (Hadd : (reply_status (fst (addToWatchlist req st)) <> 201
                  -> snd (addToWatchlist req st) = st)
                 /\ base (snd (addToWatchlist req st)) = base st).
  { unfold addToWatchlist, addToWatchlist_body, Watchlist_create,
      Watchlist_findOne, Watchlist_findByPk_included.
    run_action.
    destruct (movie_id (body req)) as [mid |]; cbv beta iota zeta;
      [| now split].
    destruct (find _ (movies (base st))); cbv beta iota zeta; [| now split].
    destruct (user req) as [u |]; cbv beta iota zeta; [| now split].
    destruct (find _ (watchlists st)) eqn:Hw; cbv beta iota zeta;
      [now split |].
    rewrite Hw. cbv beta iota zeta. cbn [fst snd reply_status].
    split; [intros Hne; now contradiction Hne | reflexivity]. }
  assert (Hrm : (reply_status (fst (removeFromWatchlist req st)) <> 200
                 -> snd (removeFromWatchlist req st) = st)
                /\ base (snd (removeFromWatchlist req st)) = base st).
  { unfold removeFromWatchlist, removeFromWatchlist_body, Watchlist_findOne,
      Watchlist_destroy.
    run_action.
    destruct (user req) as [u |]; cbv beta iota zeta; [| now split].
    destruct (find _ (watchlists st)); cbv beta iota zeta; [| now split].
    cbn [fst snd reply_status].
    split; [intros Hne; now contradiction Hne | reflexivity]. }
  destruct Hadd as [Hadd1 Hadd2], Hrm as [Hrm1 Hrm2].
  repeat split; trivial.
  unfold checkInWatchlist, checkInWatchlist_body, Watchlist_findOne.
  run_action.
  destruct (user req); reflexivity.
Qed.
